(** * 2do-list: the task store (todoStore), its gateway (todoService) and
      the HTTP controller (todoController), embedded in Rocq.

    Sources embedded here:
    - frontend/src/services/todoService.js   (the Task Store Gateway)
    - frontend/src/store/todoStore.js        (the Synchronization Core)
    - frontend/src/components/TaskForm.jsx   (handleSubmit)
    - frontend/src/components/TaskList.jsx   (getDisplayedTodos)
    - frontend/src/components/TaskItem.jsx   (handleSaveEdit, handleToggle)
    - frontend/src/components/ProtectedRoute.jsx
    - frontend/src/store/authStore.js, frontend/src/services/authService.js
    - backend/controllers/todoController.js  (createTodo, updateTodo,
      deleteTodo, toggleTodo)
    - backend/middleware/authMiddleware.js

    Asynchronous calls are modelled by passing in what each awaited
    promise settled to; every operation returns, next to its result, the
    list of effects (store calls, toasts, channel operations) it issued,
    in order. *)

From Stdlib Require Import ZArith NArith Lia.
From Stdlib Require Import Floats.SpecFloat.
From stdpp Require Import base list list_numbers strings.

Local Open Scope string_scope.
Local Open Scope list_scope.

(* ===================================================================== *)
(** ** JavaScript strings *)
(* ===================================================================== *)

Module Js.

(** A JavaScript string is a sequence of UTF-16 code units. *)
Definition jsstring := list N.

(** Embedding of a literal (code units below 256). *)
Fixpoint lit (s : string) : jsstring :=
  match s with
  | EmptyString => []
  | String a r => Ascii.N_of_ascii a :: lit r
  end.

(** WhiteSpace and LineTerminator code points, the ones
    [String.prototype.trim] strips. *)
Definition isWhiteSpace (c : N) : bool :=
  ((9 <=? c) && (c <=? 13))%N          (* TAB LF VT FF CR *)
  || (c =? 32)%N                        (* SPACE *)
  || (c =? 160)%N                       (* NO-BREAK SPACE *)
  || (c =? 5760)%N                      (* U+1680 *)
  || ((8192 <=? c) && (c <=? 8202))%N   (* U+2000 .. U+200A *)
  || (c =? 8232)%N || (c =? 8233)%N     (* LS, PS *)
  || (c =? 8239)%N                      (* U+202F *)
  || (c =? 8287)%N                      (* U+205F *)
  || (c =? 12288)%N                     (* U+3000 *)
  || (c =? 65279)%N.                    (* U+FEFF *)

Fixpoint trimStart (s : jsstring) : jsstring :=
  match s with
  | [] => []
  | c :: r => if isWhiteSpace c then trimStart r else s
  end.

Definition trimEnd (s : jsstring) : jsstring := rev (trimStart (rev s)).

(** [s.trim()] *)
Definition trim (s : jsstring) : jsstring := trimEnd (trimStart s).

(** [!s] for a string [s]: only the empty string is falsy. *)
Definition falsy (s : jsstring) : bool :=
  match s with [] => true | _ => false end.

(** *** The values that occur in the realtime filter expression *)

#[warnings="-register-all"]
Inductive value :=
| VUndefined
| VNull
| VString (s : string)
| VObject (props : list (string * value))
| VPromise (settled : value).

(** ToBoolean *)
Definition truthy (v : value) : bool :=
  match v with
  | VUndefined | VNull => false
  | VString s => negb (String.eqb s "")
  | VObject _ | VPromise _ => true
  end.

Fixpoint assoc (k : string) (props : list (string * value)) : value :=
  match props with
  | [] => VUndefined
  | (k', v) :: r => if String.eqb k k' then v else assoc k r
  end.

(** [o.k] on a value that is neither undefined nor null.  A Promise has
    no own data properties (only then/catch/finally on its prototype),
    whatever it settles to; the strings here are never indexed. *)
Definition get (o : value) (k : string) : value :=
  match o with
  | VObject props => assoc k props
  | _ => VUndefined
  end.

(** [o?.k] *)
Definition optget (o : value) (k : string) : value :=
  match o with
  | VUndefined | VNull => VUndefined
  | _ => get o k
  end.

(** [a || b] *)
Definition or (a b : value) : value := if truthy a then a else b.

(** ToString, as applied by [+] with a string on the left. *)
Definition toString (v : value) : string :=
  match v with
  | VUndefined => "undefined"
  | VNull => "null"
  | VString s => s
  | VObject _ => "[object Object]"
  | VPromise _ => "[object Promise]"
  end.

(** *** Numbers: IEEE 754 binary64 *)

Definition f64 := spec_float.
Definition f64_of_Z (n : Z) : f64 := binary_normalize 53 1024 n 0 false.
Definition f64_div : f64 -> f64 -> f64 := SFdiv 53 1024.
Definition f64_mul : f64 -> f64 -> f64 := SFmul 53 1024.

(** A number as the statistics hold it: an integer, or one of the
    non-finite values [Math.round] passes through. *)
Inductive number :=
| Int (z : Z)
| NaN
| Infinity (negative : bool).

(** [Math.round x]: the integer nearest to [x], ties towards +infinity,
    that is floor(x + 1/2) computed exactly. *)
Definition Math_round (x : f64) : number :=
  match x with
  | S754_zero _ => Int 0
  | S754_infinity s => Infinity s
  | S754_nan => NaN
  | S754_finite s m e =>
      let sm := if s then Z.neg m else Z.pos m in
      match e with
      | Z.neg p => Int ((2 * sm + 2 ^ Z.pos p) / (2 * 2 ^ Z.pos p))
      | _ => Int (sm * 2 ^ e)
      end
  end.

(** *** Substring search *)

(** [s.startsWith(p)], on code units. *)
Fixpoint startsWith (p s : jsstring) : bool :=
  match p, s with
  | [], _ => true
  | a :: p, b :: s => (a =? b)%N && startsWith p s
  | _ :: _, [] => false
  end.

(** [s.includes(p)] *)
Fixpoint includes (s p : jsstring) : bool :=
  startsWith p s
  || match s with
     | [] => false
     | _ :: r => includes r p
     end.

End Js.

Import Js.

(* ===================================================================== *)
(** ** Data model *)
(* ===================================================================== *)

(** A row of the [todos] table:
    {id, user_id, title, description, completed, created_at, updated_at}. *)
Module Todo.
Record t := mk {
  id : string;
  user_id : string;
  title : jsstring;
  description : option jsstring;   (* the column is nullable *)
  completed : bool;
  created_at : string;
  updated_at : string
}.
End Todo.

(** The [stats] object {total, completed, pending, completionRate}. *)
Module Stats.
Record t := mk {
  total : Z;
  completed : Z;
  pending : Z;
  completionRate : number
}.
Definition zero : t :=
  {| total := 0; completed := 0; pending := 0; completionRate := Int 0 |}.
End Stats.

(** What an awaited supabase query settles to: [{ data, error }], where
    [error] carries a [message]. *)
Module Reply.
Record t (A : Type) := mk {
  data : option A;
  error : option string
}.
Arguments mk {A} _ _.
Arguments data {A} _.
Arguments error {A} _.
End Reply.

(** What [supabase.auth.getUser()] settles to:
    [{ data: { user }, error }]. *)
Record User := mkUser { uid : string }.
Record AuthReply := mkAuthReply {
  user : option User;
  userError : option string
}.

(** The partial update object.  A field is [None] when its value is
    undefined (its key absent, or present with the value undefined);
    [u_others] tells whether the object has an own key besides the
    defined fields (a known key whose value is undefined, or any other
    key): [Object.keys] counts those, the cleaning ignores them. *)
Record Updates := mkUpdatesWith {
  u_title : option jsstring;
  u_description : option jsstring;
  u_completed : option bool;
  u_others : bool
}.

(** An object with no key besides its defined fields. *)
Abbreviation mkUpdates t d c := (mkUpdatesWith t d c false).

(** [Object.keys(updates).length === 0] *)
Definition noKeys (u : Updates) : bool :=
  match u_title u, u_description u, u_completed u, u_others u with
  | None, None, None, false => true
  | _, _, _, _ => false
  end.

(** The requests the code sends to the store. *)
Inductive StoreCall :=
| AuthGetUser
| SelectAll                     (* .select('*').order('created_at', desc) *)
| SelectAllOf (userId : string) (* the same with .eq('user_id', userId) *)
| SelectCompleted               (* .select('completed') *)
| InsertRow (title description : jsstring) (userId : string)
| UpdateRow (id : string) (clean : Updates) (owner : option string)
| DeleteRow (id : string) (owner : option string).

(** Everything an operation does to the outside, in order. *)
Inductive Effect :=
| Store (c : StoreCall)
| ToastSuccess (msg : string)
| ToastError (msg : string)
| ChannelSubscribe (name filter : string)
| ChannelUnsubscribe (name : string).

(** A settled promise of the code's own: resolved with a value, or
    rejected with [new Error(message)]. *)
Inductive Result (A : Type) :=
| Ok (a : A)
| Err (message : string).
Arguments Ok {A} _.
Arguments Err {A} _.

(* ===================================================================== *)
(** ** todoService (frontend/src/services/todoService.js) *)
(* ===================================================================== *)

Module todoService.

(** The body of [getTodoStats] after the fetch. *)
Definition computeStats (todos : list bool) : Stats.t :=
  let total := Z.of_nat (length todos) in
  let completed := Z.of_nat (length (filter (λ todo, todo = true) todos)) in
  let pending := (total - completed)%Z in
  {| Stats.total := total;
     Stats.completed := completed;
     Stats.pending := pending;
     Stats.completionRate :=
       if (total >? 0)%Z
       then Math_round
              (f64_mul (f64_div (f64_of_Z completed) (f64_of_Z total))
                       (f64_of_Z 100))
       else Int 0 |}.

(** [getTodos()] *)
Definition getTodos (r : Reply.t (list Todo.t)) : list Effect * Result (list Todo.t) :=
  ([Store SelectAll],
   match Reply.error r with
   | Some m => Err ("Error al cargar tareas: " +:+ m)
   | None => Ok (default [] (Reply.data r))
   end).

(** [createTodo(title, description = '')].  [ins] is what
    [.insert([...]).select().single()] settles to: a row, or an error. *)
Definition createTodo (title : jsstring) (description : option jsstring)
    (auth : AuthReply) (ins : Todo.t + string)
  : list Effect * Result Todo.t :=
  let description := default [] description in
  if falsy title || (length (trim title) =? 0)%nat then
    ([], Err ("Error al crear tarea: " +:+ "El título de la tarea es requerido"))
  else
    match userError auth, user auth with
    | None, Some u =>
        ([Store AuthGetUser; Store (InsertRow (trim title) (trim description) (uid u))],
         match ins with
         | inl row => Ok row
         | inr m => Err ("Error al crear tarea: " +:+ m)
         end)
    | _, _ =>
        ([Store AuthGetUser],
         Err ("Error al crear tarea: " +:+ "Usuario no autenticado"))
    end.

(** The cleaning of [updates] in [updateTodo]: [None] when the title is
    present but empty. *)
Definition cleanUpdates (updates : Updates) : option Updates :=
  match u_title updates with
  | Some t =>
      if falsy t || (length (trim t) =? 0)%nat then None
      else Some {| u_title := Some (trim t);
                   u_description := trim <$> u_description updates;
                   u_completed := u_completed updates; u_others := false |}
  | None =>
      Some {| u_title := None;
              u_description := trim <$> u_description updates;
              u_completed := u_completed updates; u_others := false |}
  end.

(** [updateTodo(id, updates)].  [upd] is what
    [.update(cleanUpdates).eq('id', id).select().single()] settles to. *)
Definition updateTodo (id : string) (updates : Updates) (upd : Reply.t Todo.t)
  : list Effect * Result Todo.t :=
  if String.eqb id "" then
    ([], Err ("Error al actualizar tarea: " +:+ "ID de tarea requerido"))
  else if noKeys updates then
    ([], Err ("Error al actualizar tarea: " +:+ "No hay datos para actualizar"))
  else
    match cleanUpdates updates with
    | None =>
        ([], Err ("Error al actualizar tarea: " +:+ "El título no puede estar vacío"))
    | Some clean =>
        ([Store (UpdateRow id clean None)],
         match Reply.error upd with
         | Some m => Err ("Error al actualizar tarea: " +:+ m)
         | None =>
             match Reply.data upd with
             | None => Err ("Error al actualizar tarea: " +:+ "Tarea no encontrada")
             | Some row => Ok row
             end
         end)
    end.

(** [deleteTodo(id)].  [del] is the [error] of what
    [.delete().eq('id', id)] settles to, the only field the code reads. *)
Definition deleteTodo (id : string) (del : option string)
  : list Effect * Result unit :=
  if String.eqb id "" then
    ([], Err ("Error al eliminar tarea: " +:+ "ID de tarea requerido"))
  else
    ([Store (DeleteRow id None)],
     match del with
     | Some m => Err ("Error al eliminar tarea: " +:+ m)
     | None => Ok tt
     end).

(** [toggleTodo(id, completed)] *)
Definition toggleTodo (id : string) (completed : bool) (upd : Reply.t Todo.t)
  : list Effect * Result Todo.t :=
  match updateTodo id {| u_title := None; u_description := None;
                         u_completed := Some completed; u_others := false |} upd with
  | (fx, Ok row) => (fx, Ok row)
  | (fx, Err m) => (fx, Err ("Error al cambiar estado: " +:+ m))
  end.

(** [getTodoStats()].  A row of [.select('completed')] is its
    [completed] flag. *)
Definition getTodoStats (r : Reply.t (list bool)) : list Effect * Result Stats.t :=
  ([Store SelectCompleted],
   match Reply.error r with
   | Some m => Err ("Error al obtener estadísticas: " +:+ m)
   | None => Ok (computeStats (default [] (Reply.data r)))
   end).

End todoService.

(* ===================================================================== *)
(** ** useTodoStore (frontend/src/store/todoStore.js) *)
(* ===================================================================== *)

Module todoStore.

(** The channel object kept in the state: its name and the
    [postgres_changes] filter it was created with. *)
Record Channel := mkChannel {
  ch_name : string;
  ch_filter : string
}.

Record State := mkState {
  todos : list Todo.t;
  loading : bool;
  error : option string;
  realtimeEnabled : bool;
  channel : option Channel;
  stats : Stats.t
}.

Definition initial : State :=
  {| todos := []; loading := false; error := None;
     realtimeEnabled := false; channel := None; stats := Stats.zero |}.

(** [set({ field: v })] for each field. *)
Definition with_todos (v : list Todo.t) (s : State) : State :=
  mkState v (loading s) (error s) (realtimeEnabled s) (channel s) (stats s).
Definition with_loading (v : bool) (s : State) : State :=
  mkState (todos s) v (error s) (realtimeEnabled s) (channel s) (stats s).
Definition with_error (v : option string) (s : State) : State :=
  mkState (todos s) (loading s) v (realtimeEnabled s) (channel s) (stats s).
Definition with_realtimeEnabled (v : bool) (s : State) : State :=
  mkState (todos s) (loading s) (error s) v (channel s) (stats s).
Definition with_channel (v : option Channel) (s : State) : State :=
  mkState (todos s) (loading s) (error s) (realtimeEnabled s) v (stats s).
Definition with_stats (v : Stats.t) (s : State) : State :=
  mkState (todos s) (loading s) (error s) (realtimeEnabled s) (channel s) v.

(** [error.message || fallback] *)
Definition messageOr (m fallback : string) : string :=
  if String.eqb m "" then fallback else m.

(** The [catch] block shared by the mutations. *)
Definition failed {A} (fallback : string) (m : string) (fx : list Effect) (s : State)
  : State * list Effect * Result A :=
  (with_loading false (with_error (Some m) s),
   fx ++ [ToastError (messageOr m fallback)],
   Err m).

(** [updateStats()]: refetches the statistics through the service; a
    failure is logged and swallowed. *)
Definition updateStats (statsr : Reply.t (list bool)) (s : State)
  : State * list Effect :=
  match todoService.getTodoStats statsr with
  | (fx, Ok st) => (with_stats st s, fx)
  | (fx, Err _) => (s, fx)
  end.

(** [fetchTodos()] *)
Definition fetchTodos (listr : Reply.t (list Todo.t)) (statsr : Reply.t (list bool))
    (s : State) : State * list Effect * Result (list Todo.t) :=
  let s := with_error None (with_loading true s) in
  match todoService.getTodos listr with
  | (fx1, Err m) => (with_loading false (with_error (Some m) s), fx1, Err m)
  | (fx1, Ok fetched) =>
      match todoService.getTodoStats statsr with
      | (fx2, Err m) =>
          (with_loading false (with_error (Some m) s), fx1 ++ fx2, Err m)
      | (fx2, Ok st) =>
          (with_loading false (with_stats st (with_todos fetched s)),
           fx1 ++ fx2, Ok fetched)
      end
  end.

(** [createTodo(title, description = '')] *)
Definition createTodo (title : jsstring) (description : option jsstring)
    (auth : AuthReply) (ins : Todo.t + string) (statsr : Reply.t (list bool))
    (s : State) : State * list Effect * Result Todo.t :=
  let s := with_error None (with_loading true s) in
  match todoService.createTodo title (Some (default [] description)) auth ins with
  | (fx, Ok newTodo) =>
      let s := with_loading false (with_todos (newTodo :: todos s) s) in
      let '(s, fx') := updateStats statsr s in
      (s, fx ++ fx' ++ [ToastSuccess "Tarea creada exitosamente"], Ok newTodo)
  | (fx, Err m) => failed "Error al crear tarea" m fx s
  end.

(** [updateTodo(id, updates)] *)
Definition updateTodo (id : string) (updates : Updates) (upd : Reply.t Todo.t)
    (statsr : Reply.t (list bool)) (s : State)
  : State * list Effect * Result Todo.t :=
  let s := with_error None (with_loading true s) in
  match todoService.updateTodo id updates upd with
  | (fx, Ok updatedTodo) =>
      let s :=
        with_loading false
          (with_todos
             ((λ todo, if decide (Todo.id todo = id) then updatedTodo else todo)
                <$> todos s) s) in
      let '(s, fx') := updateStats statsr s in
      (s, fx ++ fx' ++ [ToastSuccess "Tarea actualizada"], Ok updatedTodo)
  | (fx, Err m) => failed "Error al actualizar tarea" m fx s
  end.

(** [deleteTodo(id)] *)
Definition deleteTodo (id : string) (del : option string)
    (statsr : Reply.t (list bool)) (s : State)
  : State * list Effect * Result unit :=
  let s := with_error None (with_loading true s) in
  match todoService.deleteTodo id del with
  | (fx, Ok _) =>
      let s :=
        with_loading false
          (with_todos (filter (λ todo, Todo.id todo ≠ id) (todos s)) s) in
      let '(s, fx') := updateStats statsr s in
      (s, fx ++ fx' ++ [ToastSuccess "Tarea eliminada"], Ok tt)
  | (fx, Err m) => failed "Error al eliminar tarea" m fx s
  end.

(** [toggleTodo(id, completed)] *)
Definition toggleTodo (id : string) (completed : bool) (upd : Reply.t Todo.t)
    (statsr : Reply.t (list bool)) (s : State)
  : State * list Effect * Result Todo.t :=
  updateTodo id {| u_title := None; u_description := None;
                   u_completed := Some completed; u_others := false |} upd statsr s.

(** *** Realtime *)

(** The payload of a [postgres_changes] notification: its [eventType]
    (one of the three the [switch] handles) with [payload.new], or the id
    of [payload.old]. *)
Inductive Payload :=
| INSERT (new : Todo.t)
| UPDATE (new : Todo.t)
| DELETE (oldId : string).

(** The callback given to [.on('postgres_changes', ..., callback)]. *)
Definition onPayload (payload : Payload) (statsr : Reply.t (list bool))
    (s : State) : State * list Effect :=
  match payload with
  | INSERT new =>
      updateStats statsr (with_todos (new :: todos s) s)
  | UPDATE new =>
      updateStats statsr
        (with_todos
           ((λ todo, if decide (Todo.id todo = Todo.id new) then new else todo)
              <$> todos s) s)
  | DELETE oldId =>
      updateStats statsr
        (with_todos (filter (λ todo, Todo.id todo ≠ oldId) (todos s)) s)
  end.

(** The filter expression
    ['user_id=eq.' + (supabase.auth.getUser() || {})?.data?.user?.id],
    where [getUserCall] is the value of the call [supabase.auth.getUser()]. *)
Definition realtimeFilter (getUserCall : value) : string :=
  "user_id=eq." +:+
  toString
    (optget (optget (optget (Js.or getUserCall (VObject [])) "data") "user") "id").

(** [supabase.auth.getUser()] is an async method: the call evaluates to
    a Promise, whatever that promise later settles to. *)
Definition getUserCall (settled : value) : value := VPromise settled.

(** The function [subscribeToRealtime] returns. *)
Inductive Cleanup :=
| Noop                       (* () => {} *)
| Release (ch : Channel).    (* unsubscribes newChannel, clears the state *)

(** [subscribeToRealtime()].  [settled] is what the promise of
    [supabase.auth.getUser()] will settle to. *)
Definition subscribeToRealtime (settled : value) (s : State)
  : State * list Effect * Cleanup :=
  match channel s with
  | Some _ => (s, [], Noop)
  | None =>
      let newChannel :=
        {| ch_name := "todos-changes";
           ch_filter := realtimeFilter (getUserCall settled) |} in
      (with_realtimeEnabled true (with_channel (Some newChannel) s),
       [Store AuthGetUser;
        ChannelSubscribe (ch_name newChannel) (ch_filter newChannel)],
       Release newChannel)
  end.

(** Calling the function [subscribeToRealtime] returned. *)
Definition runCleanup (c : Cleanup) (s : State) : State * list Effect :=
  match c with
  | Noop => (s, [])
  | Release ch =>
      (with_realtimeEnabled false (with_channel None s),
       [ChannelUnsubscribe (ch_name ch)])
  end.

(** [unsubscribeFromRealtime()] *)
Definition unsubscribeFromRealtime (s : State) : State * list Effect :=
  match channel s with
  | Some ch =>
      (with_realtimeEnabled false (with_channel None s),
       [ChannelUnsubscribe (ch_name ch)])
  | None => (s, [])
  end.

(** [reset()] *)
Definition reset (s : State) : State * list Effect :=
  (initial,
   match channel s with
   | Some ch => [ChannelUnsubscribe (ch_name ch)]
   | None => []
   end).

(** *** Reads and small setters *)

(** [clearError()] *)
Definition clearError (s : State) : State := with_error None s.

(** [setLoading(loading)] *)
Definition setLoading (v : bool) (s : State) : State := with_loading v s.

(** [getTodoById(id)]: [todos.find(todo => todo.id === id) || null]. *)
Definition getTodoById (id : string) (s : State) : option Todo.t :=
  find (λ todo, bool_decide (Todo.id todo = id)) (todos s).

(** [getFilteredTodos(filter = 'all')]; [None] is the omitted argument. *)
Definition getFilteredTodos (filterName : option string) (s : State)
  : list Todo.t :=
  let filterName := default "all" filterName in
  if String.eqb filterName "completed" then
    filter (λ todo, Todo.completed todo = true) (todos s)
  else if String.eqb filterName "pending" then
    filter (λ todo, Todo.completed todo = false) (todos s)
  else todos s.

(** The callback of the [filter] in [searchTodos]:
    [title.toLowerCase().includes(term) ||
     description.toLowerCase().includes(term)].  The right operand is
    evaluated only when the left one is false, and calling
    [toLowerCase] on a null description is a TypeError. *)
Definition matchesTerm (toLowerCase : jsstring → jsstring) (term : jsstring)
    (todo : Todo.t) : Result bool :=
  if includes (toLowerCase (Todo.title todo)) term then Ok true
  else
    match Todo.description todo with
    | None => Err "Cannot read properties of null (reading 'toLowerCase')"
    | Some description => Ok (includes (toLowerCase description) term)
    end.

(** [l.filter(p)] for a callback that may throw: the entries are
    visited in order and the first exception ends the call. *)
Fixpoint filterThrowing {A} (p : A → Result bool) (l : list A)
  : Result (list A) :=
  match l with
  | [] => Ok []
  | x :: l =>
      match p x with
      | Err m => Err m
      | Ok keep =>
          match filterThrowing p l with
          | Err m => Err m
          | Ok kept => Ok (if keep then x :: kept else kept)
          end
      end
  end.

(** [searchTodos(searchTerm)].  [toLowerCase] is the engine's
    [String.prototype.toLowerCase], a parameter here. *)
Definition searchTodos (toLowerCase : jsstring → jsstring)
    (searchTerm : jsstring) (s : State) : Result (list Todo.t) :=
  if falsy searchTerm || (length (trim searchTerm) =? 0)%nat then Ok (todos s)
  else
    let term := trim (toLowerCase searchTerm) in
    filterThrowing (matchesTerm toLowerCase term) (todos s).

(** *** Sequences of operations *)

(** One completed operation of the store, with what its awaited calls
    settled to.  [step] runs the operation from its first [set] to its
    last with no other operation of the store in between. *)
Inductive Op :=
| FetchTodos (listr : Reply.t (list Todo.t)) (statsr : Reply.t (list bool))
| CreateTodo (title : jsstring) (description : option jsstring)
    (auth : AuthReply) (ins : Todo.t + string) (statsr : Reply.t (list bool))
| UpdateTodo (id : string) (updates : Updates) (upd : Reply.t Todo.t)
    (statsr : Reply.t (list bool))
| ToggleTodo (id : string) (completed : bool) (upd : Reply.t Todo.t)
    (statsr : Reply.t (list bool))
| DeleteTodo (id : string) (del : option string) (statsr : Reply.t (list bool))
| Realtime (payload : Payload) (statsr : Reply.t (list bool)).

Definition step (s : State) (op : Op) : State :=
  match op with
  | FetchTodos listr statsr => (fetchTodos listr statsr s).1.1
  | CreateTodo title description auth ins statsr =>
      (createTodo title description auth ins statsr s).1.1
  | UpdateTodo id updates upd statsr => (updateTodo id updates upd statsr s).1.1
  | ToggleTodo id completed upd statsr => (toggleTodo id completed upd statsr s).1.1
  | DeleteTodo id del statsr => (deleteTodo id del statsr s).1.1
  | Realtime payload statsr => (onPayload payload statsr s).1
  end.

Definition run (s : State) (ops : list Op) : State := foldl step s ops.

End todoStore.

(* ===================================================================== *)
(** ** The channel objects of a session *)
(* ===================================================================== *)

Module Channels.

(** Each [supabase.channel('todos-changes')] of [subscribeToRealtime]
    creates a channel object of its own ("Crear nuevo canal").  The
    store's [channel] field refers to one of them, and so does every
    function [subscribeToRealtime] returned, through its [newChannel].
    The objects are numbered in the order of their creation. *)
Record World := mkWorld {
  store : todoStore.State;
  created : list todoStore.Channel;  (* the channel objects, by number *)
  held : option nat;                 (* the object [store.channel] refers to *)
  active : list nat                  (* subscribed, and not unsubscribed since *)
}.

Definition start : World :=
  {| store := todoStore.initial; created := []; held := None; active := [] |}.

(** [unsubscribe()] called on object [n]. *)
Definition release (n : nat) (active : list nat) : list nat :=
  filter (λ m, m ≠ n) active.

(** What can be called on the store in a session. *)
Inductive Call :=
| Subscribe (settled : value)     (* subscribeToRealtime() *)
| Cleanup (n : nat)               (* the function returned by the call of
                                     subscribeToRealtime that created object n *)
| Unsubscribe                     (* unsubscribeFromRealtime() *)
| Reset                           (* reset() *)
| Operation (op : todoStore.Op).  (* a task operation or a realtime event *)

Definition call (w : World) (c : Call) : World :=
  match c with
  | Subscribe settled =>
      match todoStore.subscribeToRealtime settled (store w) with
      | (s, _, todoStore.Release newChannel) =>
          let n := length (created w) in
          {| store := s; created := created w ++ [newChannel];
             held := Some n; active := active w ++ [n] |}
      | (s, _, todoStore.Noop) =>
          {| store := s; created := created w; held := held w;
             active := active w |}
      end
  | Cleanup n =>
      match created w !! n with
      | Some newChannel =>
          {| store :=
               (todoStore.runCleanup (todoStore.Release newChannel) (store w)).1;
             created := created w; held := None;
             active := release n (active w) |}
      | None => w
      end
  | Unsubscribe =>
      match todoStore.channel (store w) with
      | Some _ =>
          {| store := (todoStore.unsubscribeFromRealtime (store w)).1;
             created := created w; held := None;
             active := from_option (λ n, release n (active w)) (active w) (held w) |}
      | None => w
      end
  | Reset =>
      {| store := (todoStore.reset (store w)).1;
         created := created w; held := None;
         active :=
           match todoStore.channel (store w) with
           | Some _ => from_option (λ n, release n (active w)) (active w) (held w)
           | None => active w
           end |}
  | Operation op =>
      {| store := todoStore.step (store w) op; created := created w;
         held := held w; active := active w |}
  end.

Definition run (w : World) (calls : list Call) : World := foldl call w calls.

(** A returned function is called in time when the store's channel is
    not the object of a later subscription. *)
Definition timely (w : World) (c : Call) : Prop :=
  match c with
  | Cleanup n => held w = None ∨ held w = Some n
  | _ => True
  end.

Fixpoint timelyRun (w : World) (calls : list Call) : Prop :=
  match calls with
  | [] => True
  | c :: calls => timely w c ∧ timelyRun (call w c) calls
  end.

(** The store's [channel] field and the subscribed objects agree: the
    field is null exactly when it refers to no object, and the object
    it refers to is the only subscribed one. *)
Definition consistent (w : World) : Prop :=
  (held w = None ↔ todoStore.channel (store w) = None)
  ∧ active w = match held w with Some n => [n] | None => [] end.

End Channels.

(* ===================================================================== *)
(** ** TaskForm (frontend/src/components/TaskForm.jsx) *)
(* ===================================================================== *)

Module TaskForm.

(** What [handleSubmit] does with the form's fields: it sets a local
    error and returns, or it calls the store's [createTodo]. *)
Inductive Outcome :=
| LocalError (msg : string)
| CreateTodo (title description : jsstring).

Definition handleSubmit (taskTitle taskDescription : jsstring) : Outcome :=
  if falsy (trim taskTitle) then
    LocalError "El título de la tarea es requerido"
  else if (100 <? length (trim taskTitle))%nat then
    LocalError "El título no puede tener más de 100 caracteres"
  else if (500 <? length (trim taskDescription))%nat then
    LocalError "La descripción no puede tener más de 500 caracteres"
  else CreateTodo (trim taskTitle) (trim taskDescription).

End TaskForm.

(* ===================================================================== *)
(** ** TaskList (frontend/src/components/TaskList.jsx) *)
(* ===================================================================== *)

Module TaskList.

(** [getDisplayedTodos()], from the component's [filter] and
    [searchTerm] and the store's state. *)
Definition getDisplayedTodos (toLowerCase : jsstring → jsstring)
    (filterName : string) (searchTerm : jsstring) (s : todoStore.State)
  : Result (list Todo.t) :=
  let filteredTodos := todoStore.getFilteredTodos (Some filterName) s in
  if negb (falsy (trim searchTerm)) then
    todoStore.searchTodos toLowerCase searchTerm s
  else Ok filteredTodos.

End TaskList.

(* ===================================================================== *)
(** ** TaskItem (frontend/src/components/TaskItem.jsx) *)
(* ===================================================================== *)

Module TaskItem.

(** What a handler of the item asks of the store, if anything. *)
Inductive Outcome :=
| ToastOnly (msg : string)
| UpdateTodo (id : string) (updates : Updates)
| ToggleTodo (id : string) (completed : bool).

(** [handleSaveEdit()], with the item's [task] and the edit fields. *)
Definition handleSaveEdit (task : Todo.t) (editTitle editDescription : jsstring)
  : Outcome :=
  if falsy (trim editTitle) then ToastOnly "El título no puede estar vacío"
  else
    UpdateTodo (Todo.id task)
      {| u_title := Some (trim editTitle);
         u_description := Some (trim editDescription);
         u_completed := None; u_others := false |}.

(** [handleToggle()] *)
Definition handleToggle (task : Todo.t) : Outcome :=
  ToggleTodo (Todo.id task) (negb (Todo.completed task)).

End TaskItem.

(* ===================================================================== *)
(** ** todoController (backend/controllers/todoController.js) *)
(* ===================================================================== *)

Module todoController.

(** The JSON bodies the controller sends. *)
Inductive Body :=
| Failure (error : string) (field : option string) (details : option string)
| Success (data : option Todo.t) (message : string).

Record Response := mkResponse {
  status : Z;
  body : Body
}.

(** [/^[0-9a-f]{8}-[0-9a-f]{4}-[1-5][0-9a-f]{3}-[89ab][0-9a-f]{3}-[0-9a-f]{12}$/i] *)
Inductive CharClass := Hex | Dash | OneToFive | EightToB.

Definition inClass (c : CharClass) (a : Ascii.ascii) : bool :=
  let n := Ascii.N_of_ascii a in
  match c with
  | Hex => ((48 <=? n) && (n <=? 57) || (97 <=? n) && (n <=? 102)
            || (65 <=? n) && (n <=? 70))%N
  | Dash => (n =? 45)%N
  | OneToFive => ((49 <=? n) && (n <=? 53))%N
  | EightToB => ((n =? 56) || (n =? 57) || (n =? 97) || (n =? 98)
                 || (n =? 65) || (n =? 66))%N
  end.

Definition uuidPattern : list CharClass :=
  replicate 8 Hex ++ [Dash] ++ replicate 4 Hex ++ [Dash]
  ++ [OneToFive] ++ replicate 3 Hex ++ [Dash]
  ++ [EightToB] ++ replicate 3 Hex ++ [Dash] ++ replicate 12 Hex.

Fixpoint matches (pat : list CharClass) (s : string) : bool :=
  match pat, s with
  | [], EmptyString => true
  | c :: pat, String a s => inClass c a && matches pat s
  | _, _ => false
  end.

Definition uuidRegex_test (id : string) : bool := matches uuidPattern id.

(** A field of [req.body] as the JSON parser gives it: a string, or a
    value of another kind (null, a boolean, a number, an array, an
    object), of which the code only uses the truthiness before it calls
    [.trim()] on it. *)
Inductive Field :=
| Str (s : jsstring)
| NotStr (truthy : bool).

(** The [catch] block of a controller function, reached when [.trim]
    is called on a value that has none: [what] is the expression it was
    called on.  The awaited store request is taken to settle to a reply
    [{data, error}]. *)
Definition internalError (what : string) : Response :=
  mkResponse 500
    (Failure "Error interno del servidor" None
       (Some (what +:+ ".trim is not a function"))).

(** [createTodo]: [title] and [description] are the fields of
    [req.body] ([None] when absent), [ins] what the insert settles to. *)
Definition createTodo (userId : string) (title description : option Field)
    (ins : Reply.t Todo.t) : list Effect * Response :=
  match title with
  | None | Some (NotStr false) =>
      ([], mkResponse 400 (Failure "El título es requerido" (Some "title") None))
  | Some (NotStr true) => ([], internalError "title")
  | Some (Str title) =>
      if falsy title || falsy (trim title) then
        ([], mkResponse 400 (Failure "El título es requerido" (Some "title") None))
      else
        let cleanTitle := trim title in
        if (255 <? length cleanTitle)%nat then
          ([], mkResponse 400
                 (Failure "El título no puede exceder 255 caracteres"
                    (Some "title") None))
        else
          match description with
          | Some (NotStr true) => ([], internalError "description")
          | _ =>
              let cleanDescription :=
                match description with
                | Some (Str d) => if falsy d then [] else trim d
                | _ => []
                end in
              ([Store (InsertRow cleanTitle cleanDescription userId)],
               match Reply.error ins with
               | Some m =>
                   mkResponse 500
                     (Failure "Error al crear la tarea" None (Some m))
               | None =>
                   mkResponse 201
                     (Success (Reply.data ins) "Tarea creada exitosamente")
               end)
          end
  end.

(** [updateTodo]: [id] is [req.params.id]; the body fields are [None]
    when undefined. *)
Definition updateTodo (userId id : string)
    (title description : option Field) (completed : option bool)
    (upd : Reply.t Todo.t) : list Effect * Response :=
  if negb (uuidRegex_test id) then
    ([], mkResponse 400 (Failure "ID de tarea inválido" (Some "id") None))
  else
    let checkedTitle : Response + option jsstring :=
      match title with
      | None => inr None
      | Some (NotStr false) =>
          inl (mkResponse 400
                 (Failure "El título es requerido" (Some "title") None))
      | Some (NotStr true) => inl (internalError "title")
      | Some (Str title) =>
          if falsy title || falsy (trim title) then
            inl (mkResponse 400
                   (Failure "El título es requerido" (Some "title") None))
          else if (255 <? length (trim title))%nat then
            inl (mkResponse 400
                   (Failure "El título no puede exceder 255 caracteres"
                      (Some "title") None))
          else inr (Some (trim title))
      end in
    match checkedTitle with
    | inl resp => ([], resp)
    | inr cleanTitle =>
        match description with
        | Some (NotStr true) => ([], internalError "description")
        | _ =>
            let updates :=
              {| u_title := cleanTitle;
                 u_description :=
                   (λ d, match d with
                         | Str d => if falsy d then [] else trim d
                         | NotStr _ => []
                         end) <$> description;
                 u_completed := completed; u_others := false |} in
            if noKeys updates then
              ([], mkResponse 400
                     (Failure "No hay campos para actualizar" None None))
            else
              ([Store (UpdateRow id updates (Some userId))],
               match Reply.error upd with
               | Some m =>
                   mkResponse 500
                     (Failure "Error al actualizar la tarea" None (Some m))
               | None =>
                   match Reply.data upd with
                   | None =>
                       mkResponse 404
                         (Failure
                            "Tarea no encontrada o no tienes permisos para modificarla"
                            None None)
                   | Some row =>
                       mkResponse 200
                         (Success (Some row) "Tarea actualizada exitosamente")
                   end
               end)
        end
    end.

(** [deleteTodo]: [del] is what
    [.delete().eq('id', id).eq('user_id', userId).select().single()]
    settles to. *)
Definition deleteTodo (userId id : string) (del : Reply.t Todo.t)
  : list Effect * Response :=
  if negb (uuidRegex_test id) then
    ([], mkResponse 400 (Failure "ID de tarea inválido" (Some "id") None))
  else
    ([Store (DeleteRow id (Some userId))],
     match Reply.error del with
     | Some m =>
         mkResponse 500 (Failure "Error al eliminar la tarea" None (Some m))
     | None =>
         match Reply.data del with
         | None =>
             mkResponse 404
               (Failure
                  "Tarea no encontrada o no tienes permisos para eliminarla"
                  None None)
         | Some row =>
             mkResponse 200 (Success (Some row) "Tarea eliminada exitosamente")
         end
     end).

(** A request of the controller to the store: one of the calls above,
    or the read of one row,
    [.select(columns).eq('id', id).eq('user_id', owner).single()]. *)
Inductive Request :=
| Call (c : StoreCall)
| SelectById (columns : string) (id owner : string).

(** [toggleTodo]: [cur] is what the read of the row's [completed] flag
    settles to, [upd] what the update settles to. *)
Definition toggleTodo (userId id : string) (cur : Reply.t bool)
    (upd : Reply.t Todo.t) : list Request * Response :=
  if negb (uuidRegex_test id) then
    ([], mkResponse 400 (Failure "ID de tarea inválido" (Some "id") None))
  else
    match Reply.error cur with
    | Some m =>
        ([SelectById "completed" id userId],
         mkResponse 500 (Failure "Error al obtener la tarea" None (Some m)))
    | None =>
        match Reply.data cur with
        | None =>
            ([SelectById "completed" id userId],
             mkResponse 404
               (Failure
                  "Tarea no encontrada o no tienes permisos para modificarla"
                  None None))
        | Some completed =>
            let newCompletedState := negb completed in
            ([SelectById "completed" id userId;
              Call (UpdateRow id
                      {| u_title := None; u_description := None;
                         u_completed := Some newCompletedState; u_others := false |}
                      (Some userId))],
             match Reply.error upd with
             | Some m =>
                 mkResponse 500
                   (Failure "Error al actualizar el estado de la tarea" None
                      (Some m))
             | None =>
                 mkResponse 200
                   (Success (Reply.data upd)
                      ("Tarea " +:+
                       (if newCompletedState then "completada"
                        else "marcada como pendiente")))
             end)
        end
    end.

End todoController.

(* ===================================================================== *)
(** ** authMiddleware (backend/middleware/authMiddleware.js) *)
(* ===================================================================== *)

Module authMiddleware.

(** [s.replace(pattern, replacement)] with a string pattern: the first
    occurrence only. *)
Fixpoint dropChars (n : nat) (s : string) : string :=
  match n, s with
  | O, _ => s
  | S n, String _ r => dropChars n r
  | S _, EmptyString => EmptyString
  end.

Fixpoint replace (pattern replacement s : string) : string :=
  if String.prefix pattern s then
    replacement +:+ dropChars (String.length pattern) s
  else
    match s with
    | EmptyString => EmptyString
    | String c r => String c (replace pattern replacement r)
    end.

(** What a middleware does, in order. *)
Inductive Action :=
| GetUser (token : string)                    (* supabase.auth.getUser(token) *)
| Respond (status : Z) (error message : string)
| Next.

(** [req.user] after the middleware: never assigned, [null], or a user. *)
Inductive ReqUser :=
| Unassigned
| Null
| Verified (u : User).

(** What awaiting [supabase.auth.getUser(token)] gives: the reply it
    settled to, or an exception (the call threw, its promise was
    rejected, or destructuring its reply threw), which the [catch] of
    the middleware handles.  [next()] itself is taken to return: the
    handlers behind it are async functions. *)
Inductive GetUserOutcome :=
| Settled (auth : AuthReply)
| Threw (message : string).

(** [authMiddleware]: [authorization] is [req.headers.authorization],
    [outcome] what awaiting [getUser(token)] gives. *)
Definition authMiddleware (authorization : option string)
    (outcome : GetUserOutcome) : list Action * ReqUser :=
  match authorization with
  | None =>
      ([Respond 401 "Token de autorización requerido"
          "Debes incluir el header Authorization con el token JWT"],
       Unassigned)
  | Some authHeader =>
      if String.eqb authHeader "" then
        ([Respond 401 "Token de autorización requerido"
            "Debes incluir el header Authorization con el token JWT"],
         Unassigned)
      else
        let token := replace "Bearer " "" authHeader in
        if String.eqb token "" then
          ([Respond 401 "Token de autorización inválido"
              "El formato del token debe ser: Bearer <token>"],
           Unassigned)
        else
          match outcome with
          | Threw _ =>
              ([GetUser token;
                Respond 500 "Error interno del servidor"
                  "Error al procesar la autenticación"],
               Unassigned)
          | Settled auth =>
              match userError auth, user auth with
              | Some _, _ =>
                  ([GetUser token;
                    Respond 401 "Token inválido"
                      "El token proporcionado no es válido o ha expirado"],
                   Unassigned)
              | None, None =>
                  ([GetUser token;
                    Respond 401 "Usuario no encontrado"
                      "No se pudo identificar al usuario con el token proporcionado"],
                   Unassigned)
              | None, Some u => ([GetUser token; Next], Verified u)
              end
          end
  end.

(** [optionalAuthMiddleware] *)
Definition optionalAuthMiddleware (authorization : option string)
    (outcome : GetUserOutcome) : list Action * ReqUser :=
  match authorization with
  | None => ([Next], Null)
  | Some authHeader =>
      if String.eqb authHeader "" then ([Next], Null)
      else
        let token := replace "Bearer " "" authHeader in
        if String.eqb token "" then ([Next], Null)
        else
          match outcome with
          | Threw _ => ([GetUser token; Next], Null)
          | Settled auth =>
              match userError auth, user auth with
              | None, Some u => ([GetUser token; Next], Verified u)
              | _, _ => ([GetUser token; Next], Null)
              end
          end
  end.

End authMiddleware.

(* ===================================================================== *)
(** ** useAuthStore (frontend/src/store/authStore.js) with the parts of
       authService it calls, and ProtectedRoute *)
(* ===================================================================== *)

Module authService.

(** [s.includes(p)] on messages. *)
Fixpoint includes (s p : string) : bool :=
  String.prefix p s
  || match s with
     | EmptyString => false
     | String _ r => includes r p
     end.

(** A session, with the user it belongs to. *)
Record Session := mkSession { s_user : User }.

(** The [data] of a sign-up or sign-in: [{ user, session }]. *)
Record AuthData := mkAuthData {
  d_user : option User;
  d_session : option Session
}.

(** [signup(email, password)]: [r] is what [supabase.auth.signUp]
    settles to, its data or its error's message. *)
Definition signup (r : AuthData + string) : Result AuthData :=
  match r with
  | inr m =>
      if includes m "already registered" then
        Err "Este correo electrónico ya está registrado"
      else if includes m "password" then
        Err "La contraseña debe tener al menos 6 caracteres"
      else Err m
  | inl d => Ok d
  end.

(** [login(email, password)] *)
Definition login (r : AuthData + string) : Result AuthData :=
  match r with
  | inr m =>
      if includes m "Invalid login credentials" then
        Err "Email o contraseña incorrectos"
      else if includes m "Email not confirmed" then
        Err "Por favor confirma tu email antes de iniciar sesión"
      else Err m
  | inl d => Ok d
  end.

(** [logout()]: [r] is the [error] of what [signOut] settles to. *)
Definition logout (r : option string) : Result unit :=
  match r with
  | Some m => Err ("Error al cerrar sesión: " +:+ m)
  | None => Ok tt
  end.

(** [getCurrentUser()] *)
Definition getCurrentUser (auth : AuthReply) : option User :=
  match userError auth with
  | Some _ => None
  | None => user auth
  end.

End authService.

Module authStore.

Record State := mkState {
  user : option User;
  loading : bool;
  error : option string;
  initialized : bool;
  listeners : nat   (* the callbacks registered with onAuthStateChange *)
}.

Definition initial : State :=
  {| user := None; loading := false; error := None; initialized := false;
     listeners := 0 |}.

(** [initialize()].  [getCurrentUser] catches its own errors, so the
    [catch] of [initialize] has nothing to catch from it. *)
Definition initialize (auth : AuthReply) (s : State) : State :=
  {| user := authService.getCurrentUser auth;
     loading := false;
     error := None;
     initialized := true;
     listeners := S (listeners s) |}.

(** The listener [initialize] registers:
    [(_event, session) => set({ user: session?.user ?? null })]. *)
Definition onAuthStateChange (session : option authService.Session)
    (s : State) : State :=
  {| user := authService.s_user <$> session;
     loading := loading s; error := error s;
     initialized := initialized s; listeners := listeners s |}.

(** What [signup] resolves with. *)
Inductive SignupResult :=
| RequiresEmailConfirmation
| SignedUp (u : option User).

(** [signup(email, password)] *)
Definition signup (r : authService.AuthData + string) (s : State)
  : State * list Effect * Result SignupResult :=
  match authService.signup r with
  | Ok d =>
      match authService.d_session d with
      | None =>
          ({| user := user s; loading := false;
              error := Some "Por favor verifica tu email para activar tu cuenta";
              initialized := initialized s; listeners := listeners s |},
           [ToastSuccess
              "¡Registro exitoso! Verifica tu email para activar tu cuenta."],
           Ok RequiresEmailConfirmation)
      | Some _ =>
          ({| user := authService.d_user d; loading := false; error := None;
              initialized := initialized s; listeners := listeners s |},
           [ToastSuccess "¡Bienvenido! Cuenta creada exitosamente."],
           Ok (SignedUp (authService.d_user d)))
      end
  | Err m =>
      ({| user := user s; loading := false; error := Some m;
          initialized := initialized s; listeners := listeners s |},
       [ToastError (todoStore.messageOr m "Error al registrarse")],
       Err m)
  end.

(** [login(email, password)] *)
Definition login (r : authService.AuthData + string) (s : State)
  : State * list Effect * Result (option User) :=
  match authService.login r with
  | Ok d =>
      ({| user := authService.d_user d; loading := false; error := None;
          initialized := initialized s; listeners := listeners s |},
       [ToastSuccess "¡Bienvenido de nuevo!"],
       Ok (authService.d_user d))
  | Err m =>
      ({| user := user s; loading := false; error := Some m;
          initialized := initialized s; listeners := listeners s |},
       [ToastError (todoStore.messageOr m "Error al iniciar sesión")],
       Err m)
  end.

(** [logout()] *)
Definition logout (r : option string) (s : State)
  : State * list Effect * Result unit :=
  match authService.logout r with
  | Ok _ =>
      ({| user := None; loading := false; error := None;
          initialized := initialized s; listeners := listeners s |},
       [ToastSuccess "Sesión cerrada exitosamente"],
       Ok tt)
  | Err m =>
      ({| user := user s; loading := false; error := Some m;
          initialized := initialized s; listeners := listeners s |},
       [ToastError (todoStore.messageOr m "Error al cerrar sesión")],
       Err m)
  end.

End authStore.

Module ProtectedRoute.

(** What the component renders. *)
Inductive View :=
| Spinner
| RedirectToLogin
| Children.

(** The render of [ProtectedRoute] from the auth store's state. *)
Definition render (s : authStore.State) : View :=
  if authStore.loading s || negb (authStore.initialized s) then Spinner
  else
    match authStore.user s with
    | None => RedirectToLogin
    | Some _ => Children
    end.

End ProtectedRoute.

(* ===================================================================== *)
(** ** Vocabulary of the properties *)
(* ===================================================================== *)

Import todoStore.

(** The ids of a collection, in order. *)
Definition ids (l : list Todo.t) : list string := Todo.id <$> l.

(** The statistics of a collection: what [getTodoStats] computes from
    its [completed] flags. *)
Definition aggregate (l : list Todo.t) : Stats.t :=
  todoService.computeStats (Todo.completed <$> l).

(** The number of [true] flags. *)
Fixpoint countTrue (l : list bool) : Z :=
  match l with
  | [] => 0
  | b :: r => ((if b then 1 else 0) + countTrue r)%Z
  end.

(** round(completed / total × 100) in exact arithmetic, ties upwards:
    the rate as the specification words it. *)
Definition exactRate (completed total : Z) : Z :=
  ((200 * completed + total) / (2 * total))%Z.

(** The rate as [getTodoStats] computes it, in binary64. *)
Definition floatRate (completed total : Z) : number :=
  Math_round
    (f64_mul (f64_div (f64_of_Z completed) (f64_of_Z total)) (f64_of_Z 100)).

(** [floatRate] agrees with [exactRate] for every [completed <= total]
    with [total] in [1, bound). *)
Definition ratesAgreeBelow (bound : Z) : bool :=
  forallb
    (λ total,
       forallb
         (λ completed,
            match floatRate completed total with
            | Int z => (z =? exactRate completed total)%Z
            | _ => false
            end)
         (seqZ 0 (total + 1)))
    (seqZ 1 (bound - 1)).

(** [n] tasks of which the first [k] are completed. *)
Definition flags (k n : nat) : list bool :=
  replicate k true ++ replicate (n - k) false.

(** The reply of the statistics refetch an operation was given. *)
Definition statsReply (op : Op) : Reply.t (list bool) :=
  match op with
  | FetchTodos _ statsr
  | CreateTodo _ _ _ _ statsr
  | UpdateTodo _ _ _ statsr
  | ToggleTodo _ _ _ statsr
  | DeleteTodo _ _ statsr
  | Realtime _ statsr => statsr
  end.

Definition rejection {A} (r : Result A) : option string :=
  match r with Ok _ => None | Err m => Some m end.

(** The message an operation rejects with, [None] when it resolves (a
    realtime callback always does). *)
Definition outcome (s : State) (op : Op) : option string :=
  match op with
  | FetchTodos listr statsr => rejection (fetchTodos listr statsr s).2
  | CreateTodo title description auth ins statsr =>
      rejection (createTodo title description auth ins statsr s).2
  | UpdateTodo id updates upd statsr =>
      rejection (updateTodo id updates upd statsr s).2
  | ToggleTodo id completed upd statsr =>
      rejection (toggleTodo id completed upd statsr s).2
  | DeleteTodo id del statsr => rejection (deleteTodo id del statsr s).2
  | Realtime _ _ => None
  end.

(** The Gateway call of a mutation throws [Error(m)]. *)
Definition gatewayThrows (op : Op) (m : string) : Prop :=
  match op with
  | CreateTodo title description auth ins _ =>
      (todoService.createTodo title (Some (default [] description)) auth ins).2
      = Err m
  | UpdateTodo id updates upd _ =>
      (todoService.updateTodo id updates upd).2 = Err m
  | ToggleTodo id completed upd _ =>
      (todoService.updateTodo id
         {| u_title := None; u_description := None;
            u_completed := Some completed; u_others := false |} upd).2 = Err m
  | DeleteTodo id del _ => (todoService.deleteTodo id del).2 = Err m
  | FetchTodos _ _ | Realtime _ _ => False
  end.

(** What an operation may bring into a collection that has distinct ids
    without breaking that: fetched rows have distinct ids, a created or
    inserted row has an id the collection lacks, an update returns the
    row that was asked for. *)
Definition admissible (s : State) (op : Op) : Prop :=
  match op with
  | FetchTodos listr _ => NoDup (ids (default [] (Reply.data listr)))
  | CreateTodo title description auth ins _ =>
      ∀ row,
        (todoService.createTodo title (Some (default [] description)) auth ins).2
        = Ok row →
        Todo.id row ∉ ids (todos s)
  | UpdateTodo id updates upd _ =>
      ∀ row, (todoService.updateTodo id updates upd).2 = Ok row → Todo.id row = id
  | ToggleTodo id completed upd _ =>
      ∀ row,
        (todoService.updateTodo id
           {| u_title := None; u_description := None;
              u_completed := Some completed; u_others := false |} upd).2 = Ok row →
        Todo.id row = id
  | Realtime (INSERT new) _ => Todo.id new ∉ ids (todos s)
  | DeleteTodo _ _ _ | Realtime _ _ => True
  end.

Fixpoint admissibleRun (s : State) (ops : list Op) : Prop :=
  match ops with
  | [] => True
  | op :: ops => admissible s op ∧ admissibleRun (step s op) ops
  end.

(** The effects that are requests to the store. *)
Definition isStoreCall (e : Effect) : bool :=
  match e with Store _ => true | _ => false end.

(** What [supabase.auth.getUser()] settles to for a signed-in user. *)
Definition signedIn (userId : string) : value :=
  VObject [("data", VObject [("user", VObject [("id", VString userId)])]);
           ("error", VNull)].

(** Sample rows. *)
Definition sampleTodo (id : string) (title : string) (completed : bool) : Todo.t :=
  {| Todo.id := id; Todo.user_id := "7d0e6b0a-5a51-4c0b-9a3e-0c1d2e3f4a5b";
     Todo.title := lit title; Todo.description := Some [];
     Todo.completed := completed;
     Todo.created_at := "2024-05-01T10:00:00Z";
     Todo.updated_at := "2024-05-01T10:00:00Z" |}.

Definition rowsOk (rows : list bool) : Reply.t (list bool) :=
  Reply.mk (Some rows) None.

(** In-place replacement, [todos.map(todo => todo.id === id ? new : todo)]. *)
Definition replaceById (id : string) (new : Todo.t) (l : list Todo.t) : list Todo.t :=
  (λ todo, if decide (Todo.id todo = id) then new else todo) <$> l.

(** Removal, [todos.filter(todo => todo.id !== id)]. *)
Definition removeById (id : string) (l : list Todo.t) : list Todo.t :=
  filter (λ todo, Todo.id todo ≠ id) l.

(** What [updateStats] leaves in [stats]: the aggregate of the refetched
    rows, or the old value when the refetch failed. *)
Definition refetched (statsr : Reply.t (list bool)) (old : Stats.t) : Stats.t :=
  match Reply.error statsr with
  | None => todoService.computeStats (default [] (Reply.data statsr))
  | Some _ => old
  end.

(** A lower-casing of the letters A-Z, to run [searchTodos] with. *)
Definition asciiToLower (s : jsstring) : jsstring :=
  (λ c, if ((65 <=? c) && (c <=? 90))%N then (c + 32)%N else c) <$> s.

(** The operations a user starts, as opposed to realtime callbacks. *)
Definition isMutation (op : Op) : bool :=
  match op with
  | CreateTodo _ _ _ _ _ | UpdateTodo _ _ _ _ | ToggleTodo _ _ _ _
  | DeleteTodo _ _ _ => true
  | FetchTodos _ _ | Realtime _ _ => false
  end.

(** Everything an operation did to the outside. *)
Definition effects (s : State) (op : Op) : list Effect :=
  match op with
  | FetchTodos listr statsr => (fetchTodos listr statsr s).1.2
  | CreateTodo title description auth ins statsr =>
      (createTodo title description auth ins statsr s).1.2
  | UpdateTodo id updates upd statsr => (updateTodo id updates upd statsr s).1.2
  | ToggleTodo id completed upd statsr =>
      (toggleTodo id completed upd statsr s).1.2
  | DeleteTodo id del statsr => (deleteTodo id del statsr s).1.2
  | Realtime payload statsr => (onPayload payload statsr s).2
  end.

(** The requests of the Gateway call of a mutation. *)
Definition gatewayEffects (op : Op) : list Effect :=
  match op with
  | CreateTodo title description auth ins _ =>
      (todoService.createTodo title (Some (default [] description)) auth ins).1
  | UpdateTodo id updates upd _ => (todoService.updateTodo id updates upd).1
  | ToggleTodo id completed upd _ =>
      (todoService.updateTodo id
         {| u_title := None; u_description := None;
            u_completed := Some completed; u_others := false |} upd).1
  | DeleteTodo id del _ => (todoService.deleteTodo id del).1
  | FetchTodos _ _ | Realtime _ _ => []
  end.

(** The text of the success toast of a mutation. *)
Definition successToast (op : Op) : string :=
  match op with
  | CreateTodo _ _ _ _ _ => "Tarea creada exitosamente"
  | UpdateTodo _ _ _ _ | ToggleTodo _ _ _ _ => "Tarea actualizada"
  | DeleteTodo _ _ _ => "Tarea eliminada"
  | FetchTodos _ _ | Realtime _ _ => ""
  end.

(** A request of the controller touches only rows of [userId]. *)
Definition scopedTo (userId : string) (r : todoController.Request) : Prop :=
  match r with
  | todoController.Call (InsertRow _ _ owner) => owner = userId
  | todoController.Call (UpdateRow _ _ owner)
  | todoController.Call (DeleteRow _ owner) => owner = Some userId
  | todoController.Call (SelectAllOf owner) => owner = userId
  | todoController.Call _ => False
  | todoController.SelectById _ _ owner => owner = userId
  end.

(** No whitespace at either end. *)
Definition trimmed (s : jsstring) : Prop :=
  (∀ c, head s = Some c → isWhiteSpace c = false)
  ∧ (∀ c, last s = Some c → isWhiteSpace c = false).

(** The number of [unsubscribe()] calls among effects. *)
Definition isUnsubscribe (e : Effect) : bool :=
  match e with ChannelUnsubscribe _ => true | _ => false end.

Definition unsubscribes (fx : list Effect) : nat :=
  length (filter (λ e, isUnsubscribe e = true) fx).

(** The operations that put entries into the collection: a fetch, a
    creation, a realtime INSERT. *)
Definition addsEntries (op : Op) : bool :=
  match op with
  | FetchTodos _ _ | CreateTodo _ _ _ _ _ | Realtime (INSERT _) _ => true
  | _ => false
  end.

(** The realtime callbacks, as opposed to the operations a user starts. *)
Definition isRealtime (op : Op) : bool :=
  match op with Realtime _ _ => true | _ => false end.

(** The store requests among the effects of a controller function. *)
Definition requestsOf (fx : list Effect) : list todoController.Request :=
  omap (λ e, match e with
             | Store c => Some (todoController.Call c)
             | _ => None
             end) fx.

(** The number of calls of [next()] among the actions of a middleware. *)
Definition nextCalls (acts : list authMiddleware.Action) : nat :=
  length
    (filter
       (λ a, match a with authMiddleware.Next => true | _ => false end = true)
       acts).

(* ===================================================================== *)
(** ** Properties *)
(* ===================================================================== *)

(** *** Strings *)

Lemma trim_nil : trim [] = [].
Proof. reflexivity. Qed.

Lemma falsy_nil (s : jsstring) : falsy s = true ↔ s = [].
Proof. destruct s; simpl; split; congruence. Qed.

Lemma length_zero_nil {A} (l : list A) : (length l =? 0)%nat = true ↔ l = [].
Proof. destruct l; simpl; split; congruence. Qed.

(** *** Statistics *)

Section Statistics.

Local Open Scope Z_scope.

Lemma count_filter_true (l : list bool) :
  Z.of_nat (length (filter (λ b, b = true) l)) = countTrue l.
Proof.
  induction l as [|b l IH]; [reflexivity|].
  destruct b; rewrite ?filter_cons_True, ?filter_cons_False by done;
    cbn [countTrue length]; lia.
Qed.

Lemma countTrue_bounds (l : list bool) : 0 <= countTrue l <= Z.of_nat (length l).
Proof.
  induction l as [|b l IH]; cbn [countTrue length]; [lia|].
  destruct b; lia.
Qed.

Lemma computeStats_unfold (l : list bool) :
  todoService.computeStats l =
  {| Stats.total := Z.of_nat (length l);
     Stats.completed := countTrue l;
     Stats.pending := Z.of_nat (length l) - countTrue l;
     Stats.completionRate :=
       if Z.of_nat (length l) >? 0
       then floatRate (countTrue l) (Z.of_nat (length l))
       else Int 0 |}.
Proof.
  unfold todoService.computeStats, floatRate.
  rewrite count_filter_true. reflexivity.
Qed.

Lemma ratesAgreeBelow_40 : ratesAgreeBelow 40 = true.
Proof. vm_compute. reflexivity. Qed.

Lemma floatRate_exact_below_40 (completed total : Z) :
  0 <= completed <= total → 0 < total < 40 →
  floatRate completed total = Int (exactRate completed total).
Proof.
  intros Hc Ht.
  pose proof ratesAgreeBelow_40 as H.
  unfold ratesAgreeBelow in H.
  rewrite forallb_forall in H.
  specialize (H total).
  rewrite forallb_forall in H.
  assert (Hin : In total (seqZ 1 (40 - 1))).
  { apply list_elem_of_In, elem_of_seqZ. lia. }
  specialize (H Hin completed).
  assert (Hin' : In completed (seqZ 0 (total + 1))).
  { apply list_elem_of_In, elem_of_seqZ. lia. }
  specialize (H Hin').
  destruct (floatRate completed total); try discriminate.
  apply Z.eqb_eq in H. congruence.
Qed.

End Statistics.

(** C9, as stated, fails: of 40 tasks with 23 completed, the exact rate
    is 57.5, which rounds to 58, while [getTodoStats] answers 57 (the
    binary64 product is 57.49999999999999). *)
Lemma C9_counterexample :
  let st := todoService.computeStats (flags 23 40) in
  Stats.total st = 40%Z ∧ Stats.completed st = 23%Z
  ∧ Stats.completionRate st = Int 57
  ∧ exactRate 23 40 = 58%Z
  ∧ Stats.completionRate st ≠ Int (exactRate (Stats.completed st) (Stats.total st)).
Proof. vm_compute. repeat split; congruence. Qed.

(** C9, amended: for every list of tasks the statistics computation
    returns total = the list's length, completed = the number of tasks
    with completed = true, pending = total - completed, and
    completionRate = Math.round of the binary64 value of
    (completed / total) * 100 when total is positive, 0 when total is 0;
    that rate equals the exactly computed round(completed/total*100)
    whenever the list has fewer than 40 tasks. *)
Theorem C9_getTodoStats_aggregate (rows : list bool) :
  let st := todoService.computeStats rows in
  Stats.total st = Z.of_nat (length rows)
  ∧ Stats.completed st = countTrue rows
  ∧ (0 <= Stats.completed st <= Stats.total st)%Z
  ∧ Stats.pending st = (Stats.total st - Stats.completed st)%Z
  ∧ (rows = [] → Stats.completionRate st = Int 0)
  ∧ (rows ≠ [] →
     Stats.completionRate st = floatRate (countTrue rows) (Z.of_nat (length rows)))
  ∧ (rows ≠ [] → (length rows < 40)%nat →
     Stats.completionRate st
     = Int (exactRate (countTrue rows) (Z.of_nat (length rows)))).
Proof.
  cbn zeta. rewrite computeStats_unfold. cbn [Stats.total Stats.completed
    Stats.pending Stats.completionRate].
  pose proof (countTrue_bounds rows) as Hb.
  assert (Hpos : rows ≠ [] → (Z.of_nat (length rows) >? 0)%Z = true).
  { destruct rows; [congruence|]. intros _. apply Z.gtb_lt. cbn [length]. lia. }
  repeat split; try lia.
  - intros ->. reflexivity.
  - intros Hne. rewrite (Hpos Hne). reflexivity.
  - intros Hne Hlt. rewrite (Hpos Hne).
    apply floatRate_exact_below_40; [lia|].
    destruct rows; [congruence|]. cbn [length] in *. lia.
Qed.

Lemma C9_getTodoStats_aggregate_witness :
  let rows := [true; false; false] in
  let st := todoService.computeStats rows in
  Stats.total st = 3%Z ∧ Stats.completed st = 1%Z ∧ Stats.pending st = 2%Z
  ∧ Stats.completionRate st = Int 33.
Proof.
  pose proof (C9_getTodoStats_aggregate [true; false; false]) as H.
  cbn zeta in H.
  destruct H as (Ht & Hc & _ & Hp & _ & _ & Hr).
  assert (Hne : [true; false; false] ≠ @nil bool) by discriminate.
  assert (Hlen : (length [true; false; false] < 40)%nat) by (simpl; lia).
  specialize (Hr Hne Hlen).
  cbn zeta. rewrite Ht, Hc, Hp, Hr, Hc, Ht. vm_compute. repeat split.
Defined.

(** *** The store: what each operation does to [todos] and [stats] *)

Section StoreFacts.

Implicit Types (s : State) (statsr : Reply.t (list bool)).

Lemma updateStats_todos statsr s : todos (updateStats statsr s).1 = todos s.
Proof.
  unfold updateStats, todoService.getTodoStats.
  destruct (Reply.error statsr); reflexivity.
Qed.

Lemma updateStats_channel statsr s : channel (updateStats statsr s).1 = channel s.
Proof.
  unfold updateStats, todoService.getTodoStats.
  destruct (Reply.error statsr); reflexivity.
Qed.

Lemma updateStats_stats statsr s :
  stats (updateStats statsr s).1 =
  match Reply.error statsr with
  | None => todoService.computeStats (default [] (Reply.data statsr))
  | Some _ => stats s
  end.
Proof.
  unfold updateStats, todoService.getTodoStats.
  destruct (Reply.error statsr); reflexivity.
Qed.

Lemma todos_fetchTodos listr statsr s :
  todos (fetchTodos listr statsr s).1.1 =
  match Reply.error listr, Reply.error statsr with
  | None, None => default [] (Reply.data listr)
  | _, _ => todos s
  end.
Proof.
  unfold fetchTodos, todoService.getTodos, todoService.getTodoStats.
  destruct (Reply.error listr), (Reply.error statsr); reflexivity.
Qed.

Lemma todos_createTodo title description auth ins statsr s :
  todos (createTodo title description auth ins statsr s).1.1 =
  match (todoService.createTodo title (Some (default [] description)) auth ins).2 with
  | Ok newTodo => newTodo :: todos s
  | Err _ => todos s
  end.
Proof.
  unfold createTodo.
  destruct (todoService.createTodo _ _ _ _) as [fx [row|m]]; cbn [snd].
  - destruct (updateStats _ _) as [s' fx'] eqn:E. cbn [fst].
    change s' with (s', fx').1. rewrite <- E, updateStats_todos. reflexivity.
  - reflexivity.
Qed.

Lemma todos_updateTodo id updates upd statsr s :
  todos (updateTodo id updates upd statsr s).1.1 =
  match (todoService.updateTodo id updates upd).2 with
  | Ok updatedTodo => replaceById id updatedTodo (todos s)
  | Err _ => todos s
  end.
Proof.
  unfold updateTodo.
  destruct (todoService.updateTodo _ _ _) as [fx [row|m]]; cbn [snd].
  - destruct (updateStats _ _) as [s' fx'] eqn:E. cbn [fst].
    change s' with (s', fx').1. rewrite <- E, updateStats_todos. reflexivity.
  - reflexivity.
Qed.

Lemma todos_deleteTodo id del statsr s :
  todos (deleteTodo id del statsr s).1.1 =
  match (todoService.deleteTodo id del).2 with
  | Ok _ => removeById id (todos s)
  | Err _ => todos s
  end.
Proof.
  unfold deleteTodo.
  destruct (todoService.deleteTodo _ _) as [fx [[]|m]]; cbn [snd].
  - destruct (updateStats _ _) as [s' fx'] eqn:E. cbn [fst].
    change s' with (s', fx').1. rewrite <- E, updateStats_todos. reflexivity.
  - reflexivity.
Qed.

Lemma todos_onPayload payload statsr s :
  todos (onPayload payload statsr s).1 =
  match payload with
  | INSERT new => new :: todos s
  | UPDATE new => replaceById (Todo.id new) new (todos s)
  | DELETE oldId => removeById oldId (todos s)
  end.
Proof. destruct payload; cbn [onPayload]; rewrite updateStats_todos; reflexivity. Qed.

End StoreFacts.

(** *** Distinct ids *)

Section DistinctIds.

Lemma ids_replaceById (k : string) (new : Todo.t) (l : list Todo.t) :
  Todo.id new = k → ids (replaceById k new l) = ids l.
Proof.
  intros Hk. unfold ids, replaceById.
  induction l as [|todo l IH]; [reflexivity|].
  cbn [fmap list_fmap]. f_equal; [|exact IH].
  destruct (decide (Todo.id todo = k)); congruence.
Qed.

Lemma ids_removeById_subset (k x : string) (l : list Todo.t) :
  x ∈ ids (removeById k l) → x ∈ ids l.
Proof.
  unfold ids, removeById. rewrite !list_elem_of_fmap.
  intros (todo & -> & Hin). exists todo. split; [done|].
  by apply list_elem_of_filter in Hin as [_ ?].
Qed.

Lemma NoDup_ids_removeById (k : string) (l : list Todo.t) :
  NoDup (ids l) → NoDup (ids (removeById k l)).
Proof.
  induction l as [|todo l IH]; [done|].
  unfold ids, removeById in *. cbn [fmap list_fmap].
  rewrite NoDup_cons. intros [Hnotin Hnd].
  destruct (decide (Todo.id todo ≠ k)) as [Hne|Heq].
  - rewrite filter_cons_True by done. cbn [fmap list_fmap].
    apply NoDup_cons. split; [|by apply IH].
    intros Hin. apply Hnotin. by apply (ids_removeById_subset k).
  - rewrite filter_cons_False by done. by apply IH.
Qed.

Lemma removeById_absent (k : string) (l : list Todo.t) :
  k ∉ ids l → removeById k l = l.
Proof.
  unfold ids, removeById. induction l as [|todo l IH]; [done|].
  cbn [fmap list_fmap]. rewrite not_elem_of_cons. intros [Hne Hnotin].
  rewrite filter_cons_True by congruence. f_equal. by apply IH.
Qed.

Lemma replaceById_absent (k : string) (new : Todo.t) (l : list Todo.t) :
  k ∉ ids l → replaceById k new l = l.
Proof.
  unfold ids, replaceById. induction l as [|todo l IH]; [done|].
  cbn [fmap list_fmap]. rewrite not_elem_of_cons. intros [Hne Hnotin].
  destruct (decide (Todo.id todo = k)); [congruence|].
  f_equal. by apply IH.
Qed.

Lemma step_distinct (s : State) (op : Op) :
  NoDup (ids (todos s)) → admissible s op → NoDup (ids (todos (step s op))).
Proof.
  intros Hnd Hadm. destruct op as [listr statsr|title description auth ins statsr
    |k updates upd statsr|k completed upd statsr|k del statsr|payload statsr];
    cbn [step admissible] in *.
  - rewrite todos_fetchTodos.
    destruct (Reply.error listr), (Reply.error statsr); done.
  - rewrite todos_createTodo.
    destruct (todoService.createTodo _ _ _ _).2 as [row|m]; [|done].
    cbn [ids fmap list_fmap]. apply NoDup_cons. split; [|done].
    by apply Hadm.
  - rewrite todos_updateTodo.
    destruct (todoService.updateTodo _ _ _).2 as [row|m]; [|done].
    rewrite ids_replaceById; [done|]. by apply Hadm.
  - unfold toggleTodo. rewrite todos_updateTodo.
    destruct (todoService.updateTodo _ _ _).2 as [row|m]; [|done].
    rewrite ids_replaceById; [done|]. by apply Hadm.
  - rewrite todos_deleteTodo.
    destruct (todoService.deleteTodo _ _).2 as [[]|m]; [|done].
    by apply NoDup_ids_removeById.
  - rewrite todos_onPayload. destruct payload as [new|new|oldId].
    + cbn [ids fmap list_fmap]. apply NoDup_cons. done.
    + by rewrite ids_replaceById.
    + by apply NoDup_ids_removeById.
Qed.

Lemma run_distinct (ops : list Op) (s : State) :
  NoDup (ids (todos s)) → admissibleRun s ops → NoDup (ids (todos (run s ops))).
Proof.
  revert s. induction ops as [|op ops IH]; intros s Hnd Hadm; [done|].
  cbn [run foldl admissibleRun] in *. destruct Hadm as [Hop Hrest].
  apply IH; [by apply step_distinct|done].
Qed.

Lemma admissibleRun_take (n : nat) (ops : list Op) (s : State) :
  admissibleRun s ops → admissibleRun s (take n ops).
Proof.
  revert s ops. induction n as [|n IH]; intros s [|op ops]; cbn; try done.
  intros [Hop Hrest]. split; [done|]. by apply IH.
Qed.

Lemma length_replaceById (k : string) (new : Todo.t) (l : list Todo.t) :
  length (replaceById k new l) = length l.
Proof. unfold replaceById. apply length_fmap. Qed.

Lemma length_removeById (k : string) (l : list Todo.t) :
  (length (removeById k l) ≤ length l)%nat.
Proof. unfold removeById. apply length_filter. Qed.

Lemma step_adds_no_entry (s : State) (op : Op) :
  addsEntries op = false → (length (todos (step s op)) ≤ length (todos s))%nat.
Proof.
  destruct op as [listr statsr|title description auth ins statsr
    |k updates upd statsr|k completed upd statsr|k del statsr|payload statsr];
    cbn [step addsEntries]; try discriminate.
  - intros _. rewrite todos_updateTodo.
    destruct (todoService.updateTodo _ _ _).2 as [row|m]; [|done].
    by rewrite length_replaceById.
  - intros _. unfold toggleTodo. rewrite todos_updateTodo.
    destruct (todoService.updateTodo _ _ _).2 as [row|m]; [|done].
    by rewrite length_replaceById.
  - intros _. rewrite todos_deleteTodo.
    destruct (todoService.deleteTodo _ _).2 as [[]|m]; [|done].
    apply length_removeById.
  - destruct payload as [new|new|oldId]; [discriminate| |]; intros _;
      rewrite todos_onPayload.
    + by rewrite length_replaceById.
    + apply length_removeById.
Qed.

Lemma step_keeps_ids (s : State) (op : Op) :
  addsEntries op = false → admissible s op →
  ids (todos (step s op)) ⊆ ids (todos s).
Proof.
  destruct op as [listr statsr|title description auth ins statsr
    |k updates upd statsr|k completed upd statsr|k del statsr|payload statsr];
    cbn [step addsEntries admissible]; try discriminate.
  - intros _ Hadm. rewrite todos_updateTodo.
    destruct (todoService.updateTodo _ _ _).2 as [row|m]; [|done].
    rewrite ids_replaceById; [done|]. by apply Hadm.
  - intros _ Hadm. unfold toggleTodo. rewrite todos_updateTodo.
    destruct (todoService.updateTodo _ _ _).2 as [row|m]; [|done].
    rewrite ids_replaceById; [done|]. by apply Hadm.
  - intros _ _. rewrite todos_deleteTodo.
    destruct (todoService.deleteTodo _ _).2 as [[]|m]; [|done].
    intros x. apply ids_removeById_subset.
  - destruct payload as [new|new|oldId]; [discriminate| |]; intros _ _;
      rewrite todos_onPayload.
    + by rewrite ids_replaceById.
    + intros x. apply ids_removeById_subset.
Qed.

End DistinctIds.

(** C1, as stated, fails: a realtime INSERT whose id is already in the
    collection is prepended; the collection then holds that id twice. *)
Lemma C1_counterexample :
  let row := sampleTodo "a1" "Buy milk" false in
  let s := with_todos [row] initial in
  let s' := run s [Realtime (INSERT row) (rowsOk [false])] in
  NoDup (ids (todos s))
  ∧ todos s' = [row; row]
  ∧ ¬ NoDup (ids (todos s')).
Proof.
  cbn zeta. split; [|split].
  - vm_compute. apply NoDup_singleton.
  - reflexivity.
  - vm_compute. intros H. apply NoDup_cons in H as [Hnotin _].
    apply Hnotin. apply list_elem_of_here.
Qed.

(** C1, amended: starting from a collection with distinct ids, after
    every prefix of a sequence of store operations the collection still
    has distinct ids, provided every task a successful createTodo
    returns and every task a realtime INSERT delivers has an id the
    collection lacks at that moment (and every fetch returns rows with
    distinct ids, every successful update returns the task that was
    asked for).  updateTodo, toggleTodo, deleteTodo and the realtime
    UPDATE and DELETE handlers never add an entry: from any state, the
    collection is no longer after one of them than before, and holds no
    id it did not hold.  A realtime INSERT always prepends its task,
    also when the id is already present. *)
Theorem C1_distinct_ids_preserved (s : State) (ops : list Op) (n : nat) :
  NoDup (ids (todos s)) →
  admissibleRun s ops →
  NoDup (ids (todos (run s (take n ops))))
  ∧ (∀ new statsr s0, todos (onPayload (INSERT new) statsr s0).1 = new :: todos s0)
  ∧ (∀ s0 op, addsEntries op = false →
       (length (todos (step s0 op)) ≤ length (todos s0))%nat
       ∧ (admissible s0 op → ids (todos (step s0 op)) ⊆ ids (todos s0))).
Proof.
  intros Hnd Hadm. split; [|split].
  - apply run_distinct; [done|]. by apply admissibleRun_take.
  - intros new statsr s0. by rewrite todos_onPayload.
  - intros s0 op Hop. split.
    + by apply step_adds_no_entry.
    + by apply step_keeps_ids.
Qed.

Lemma C1_distinct_ids_preserved_witness :
  let a := sampleTodo "a1" "Buy milk" false in
  let b := sampleTodo "b2" "Call home" false in
  let b' := sampleTodo "b2" "Call home" true in
  let ops :=
    [Realtime (INSERT b) (rowsOk [false; false]);
     Realtime (UPDATE b') (rowsOk [true; false]);
     DeleteTodo "a1" None (rowsOk [true])] in
  NoDup (ids (todos (run (with_todos [a] initial) (take 3 ops)))).
Proof.
  cbn zeta.
  refine (proj1 (C1_distinct_ids_preserved _ _ 3 _ _)).
  - vm_compute. apply NoDup_singleton.
  - cbn. repeat split. vm_compute.
    intros H. apply list_elem_of_singleton in H. discriminate.
Defined.

(** *** Statistics after an operation *)

Section StatsFacts.

Implicit Types (s : State) (statsr : Reply.t (list bool)).

Lemma stats_fetchTodos listr statsr s :
  stats (fetchTodos listr statsr s).1.1 =
  match Reply.error listr with
  | None => refetched statsr (stats s)
  | Some _ => stats s
  end.
Proof.
  unfold fetchTodos, refetched, todoService.getTodos, todoService.getTodoStats.
  destruct (Reply.error listr), (Reply.error statsr); reflexivity.
Qed.

Lemma stats_createTodo title description auth ins statsr s :
  stats (createTodo title description auth ins statsr s).1.1 =
  match (todoService.createTodo title (Some (default [] description)) auth ins).2 with
  | Ok _ => refetched statsr (stats s)
  | Err _ => stats s
  end.
Proof.
  unfold createTodo.
  destruct (todoService.createTodo _ _ _ _) as [fx [row|m]]; cbn [snd].
  - destruct (updateStats _ _) as [s' fx'] eqn:E. cbn [fst].
    change s' with (s', fx').1. rewrite <- E, updateStats_stats. reflexivity.
  - reflexivity.
Qed.

Lemma stats_updateTodo id updates upd statsr s :
  stats (updateTodo id updates upd statsr s).1.1 =
  match (todoService.updateTodo id updates upd).2 with
  | Ok _ => refetched statsr (stats s)
  | Err _ => stats s
  end.
Proof.
  unfold updateTodo.
  destruct (todoService.updateTodo _ _ _) as [fx [row|m]]; cbn [snd].
  - destruct (updateStats _ _) as [s' fx'] eqn:E. cbn [fst].
    change s' with (s', fx').1. rewrite <- E, updateStats_stats. reflexivity.
  - reflexivity.
Qed.

Lemma stats_deleteTodo id del statsr s :
  stats (deleteTodo id del statsr s).1.1 =
  match (todoService.deleteTodo id del).2 with
  | Ok _ => refetched statsr (stats s)
  | Err _ => stats s
  end.
Proof.
  unfold deleteTodo.
  destruct (todoService.deleteTodo _ _) as [fx [[]|m]]; cbn [snd].
  - destruct (updateStats _ _) as [s' fx'] eqn:E. cbn [fst].
    change s' with (s', fx').1. rewrite <- E, updateStats_stats. reflexivity.
  - reflexivity.
Qed.

Lemma stats_onPayload payload statsr s :
  stats (onPayload payload statsr s).1 = refetched statsr (stats s).
Proof. destruct payload; cbn [onPayload]; rewrite updateStats_stats; reflexivity. Qed.

(** The result of each mutation is the Gateway's. *)
Lemma result_createTodo title description auth ins statsr s :
  rejection (createTodo title description auth ins statsr s).2 =
  rejection (todoService.createTodo title (Some (default [] description)) auth ins).2.
Proof.
  unfold createTodo.
  destruct (todoService.createTodo _ _ _ _) as [fx [row|m]]; cbn [snd];
    [destruct (updateStats _ _)|]; reflexivity.
Qed.

Lemma result_updateTodo id updates upd statsr s :
  rejection (updateTodo id updates upd statsr s).2 =
  rejection (todoService.updateTodo id updates upd).2.
Proof.
  unfold updateTodo.
  destruct (todoService.updateTodo _ _ _) as [fx [row|m]]; cbn [snd];
    [destruct (updateStats _ _)|]; reflexivity.
Qed.

Lemma result_deleteTodo id del statsr s :
  rejection (deleteTodo id del statsr s).2 =
  rejection (todoService.deleteTodo id del).2.
Proof.
  unfold deleteTodo.
  destruct (todoService.deleteTodo _ _) as [fx [[]|m]]; cbn [snd];
    [destruct (updateStats _ _)|]; reflexivity.
Qed.

Lemma result_fetchTodos listr statsr s :
  rejection (fetchTodos listr statsr s).2 =
  match Reply.error listr, Reply.error statsr with
  | Some m, _ => Some ("Error al cargar tareas: " +:+ m)
  | None, Some m => Some ("Error al obtener estadísticas: " +:+ m)
  | None, None => None
  end.
Proof.
  unfold fetchTodos, todoService.getTodos, todoService.getTodoStats.
  destruct (Reply.error listr), (Reply.error statsr); reflexivity.
Qed.

Lemma stats_step (s : State) (op : Op) :
  stats (step s op) =
  match outcome s op, Reply.error (statsReply op) with
  | None, None =>
      todoService.computeStats (default [] (Reply.data (statsReply op)))
  | _, _ => stats s
  end.
Proof.
  destruct op as [listr statsr|title description auth ins statsr
    |k updates upd statsr|k completed upd statsr|k del statsr|payload statsr];
    cbn [step outcome statsReply].
  - rewrite stats_fetchTodos, result_fetchTodos. unfold refetched.
    destruct (Reply.error listr), (Reply.error statsr); reflexivity.
  - rewrite stats_createTodo, result_createTodo. unfold refetched.
    destruct (todoService.createTodo _ _ _ _).2, (Reply.error statsr); reflexivity.
  - rewrite stats_updateTodo, result_updateTodo. unfold refetched.
    destruct (todoService.updateTodo _ _ _).2, (Reply.error statsr); reflexivity.
  - unfold toggleTodo. rewrite stats_updateTodo, result_updateTodo. unfold refetched.
    destruct (todoService.updateTodo _ _ _).2, (Reply.error statsr); reflexivity.
  - rewrite stats_deleteTodo, result_deleteTodo. unfold refetched.
    destruct (todoService.deleteTodo _ _).2, (Reply.error statsr); reflexivity.
  - rewrite stats_onPayload. unfold refetched.
    destruct (Reply.error statsr); reflexivity.
Qed.

End StatsFacts.

(** C2, as stated, fails.  First: createTodo succeeds, the statistics
    refetch fails (the failure is swallowed by updateStats), and stats
    stays at zero next to a collection of one task.  Second: the same
    row delivered twice by the realtime feed gives a collection of two
    entries with stats, refetched from the store's one row, at total 1. *)
Lemma C2_counterexample :
  let row := sampleTodo "a1" "Buy milk" false in
  let auth := mkAuthReply (Some (mkUser "u1")) None in
  let s1 :=
    step initial
      (CreateTodo (lit "Buy milk") None auth (inl row)
         (Reply.mk None (Some "Failed to fetch"))) in
  let s2 :=
    run initial [Realtime (INSERT row) (rowsOk [false]);
                 Realtime (INSERT row) (rowsOk [false])] in
  (todos s1 = [row] ∧ stats s1 = Stats.zero ∧ stats s1 ≠ aggregate (todos s1)
   ∧ Stats.total (stats s1) ≠ Z.of_nat (length (todos s1)))
  ∧ (todos s2 = [row; row] ∧ Stats.total (stats s2) = 1%Z
     ∧ Stats.total (stats s2) ≠ Z.of_nat (length (todos s2))).
Proof. vm_compute. repeat split; congruence. Qed.

(** C2, amended: after every store operation the stats field equals
    the aggregate getTodoStats computed from the rows the store returned
    to that operation's statistics refetch, when the operation resolved
    and the refetch succeeded; otherwise stats keeps its previous value.
    That aggregate has total = the number of returned rows, completed =
    the number of them with completed = true, pending = total -
    completed; it is the aggregate of the local collection whenever the
    returned rows carry the local collection's completed flags. *)
Theorem C2_stats_follow_refetch (s : State) (op : Op) :
  stats (step s op) =
    match outcome s op, Reply.error (statsReply op) with
    | None, None =>
        todoService.computeStats (default [] (Reply.data (statsReply op)))
    | _, _ => stats s
    end
  ∧ (∀ rows,
       outcome s op = None →
       statsReply op = rowsOk rows →
       Stats.total (stats (step s op)) = Z.of_nat (length rows)
       ∧ Stats.completed (stats (step s op)) = countTrue rows
       ∧ Stats.pending (stats (step s op))
         = (Z.of_nat (length rows) - countTrue rows)%Z
       ∧ (rows = Todo.completed <$> todos (step s op) →
          stats (step s op) = aggregate (todos (step s op)))).
Proof.
  split; [apply stats_step|].
  intros rows Hok Hrows. rewrite stats_step, Hok, Hrows. cbn [rowsOk Reply.error
    Reply.data default]. rewrite computeStats_unfold.
  cbn [Stats.total Stats.completed Stats.pending]. repeat split.
  intros ->. unfold aggregate. rewrite computeStats_unfold. reflexivity.
Qed.

Lemma C2_stats_follow_refetch_witness :
  let row := sampleTodo "a1" "Buy milk" false in
  let auth := mkAuthReply (Some (mkUser "u1")) None in
  let op := CreateTodo (lit "Buy milk") None auth (inl row) (rowsOk [false]) in
  stats (step initial op) = aggregate (todos (step initial op))
  ∧ Stats.total (stats (step initial op)) = 1%Z.
Proof.
  cbn zeta.
  destruct (C2_stats_follow_refetch initial
              (CreateTodo (lit "Buy milk") None
                 (mkAuthReply (Some (mkUser "u1")) None)
                 (inl (sampleTodo "a1" "Buy milk" false)) (rowsOk [false])))
    as [_ H].
  destruct (H [false]) as (Ht & _ & _ & Hagg); [reflexivity|reflexivity|].
  split; [apply Hagg; reflexivity|exact Ht].
Defined.

(** *** Updates *)

Lemma replaceById_length (k : string) (new : Todo.t) (l : list Todo.t) :
  length (replaceById k new l) = length l.
Proof. unfold replaceById. apply length_fmap. Qed.

Lemma replaceById_lookup (k : string) (new : Todo.t) (l : list Todo.t) (i : nat) :
  (replaceById k new l !! i) =
  ((λ todo, if decide (Todo.id todo = k) then new else todo) <$> (l !! i)).
Proof. unfold replaceById. apply list_lookup_fmap. Qed.

(** C3, as stated, fails: an update for an id the collection lacks, be
    it delivered by the realtime feed or returned to a local
    updateTodo, leaves the collection as it was; the task is not put at
    its head. *)
Lemma C3_counterexample :
  let a := sampleTodo "a1" "Buy milk" false in
  let b := sampleTodo "b2" "Call home" true in
  let s := with_todos [a] initial in
  let remote := (onPayload (UPDATE b) (rowsOk [false; true]) s).1 in
  let local :=
    (updateTodo "b2"
       {| u_title := None; u_description := None; u_completed := Some true; u_others := false |}
       (Reply.mk (Some b) None) (rowsOk [false; true]) s).1.1 in
  ("b2" ∉ ids (todos s))
  ∧ todos remote = [a] ∧ todos remote ≠ b :: todos s
  ∧ todos local = [a] ∧ todos local ≠ b :: todos s.
Proof.
  cbn zeta. split; [|repeat split; try reflexivity; vm_compute; congruence].
  vm_compute. intros H. apply list_elem_of_singleton in H. discriminate.
Qed.

(** C3, amended: an update (a successful local updateTodo, or a
    realtime UPDATE event) replaces, at its position, every entry whose
    id is the update's, and leaves the other entries and the length of
    the collection as they were; when the id is not present in the
    collection, the collection is left unchanged and the task is not
    inserted. *)
Theorem C3_update_replaces_in_place (s : State) (statsr : Reply.t (list bool))
    (new : Todo.t) (k : string) (updates : Updates) (upd : Reply.t Todo.t) :
  let remote := todos (onPayload (UPDATE new) statsr s).1 in
  let local := todos (updateTodo k updates upd statsr s).1.1 in
  (length remote = length (todos s)
   ∧ (∀ i todo, todos s !! i = Some todo →
        remote !! i = Some (if decide (Todo.id todo = Todo.id new) then new else todo))
   ∧ (Todo.id new ∉ ids (todos s) → remote = todos s))
  ∧ ((todoService.updateTodo k updates upd).2 = Ok new →
     length local = length (todos s)
     ∧ (∀ i todo, todos s !! i = Some todo →
          local !! i = Some (if decide (Todo.id todo = k) then new else todo))
     ∧ (k ∉ ids (todos s) → local = todos s)).
Proof.
  cbn zeta. rewrite todos_onPayload, todos_updateTodo. split.
  - split; [apply replaceById_length|]. split.
    + intros i todo Hi. rewrite replaceById_lookup, Hi. reflexivity.
    + apply replaceById_absent.
  - intros ->. split; [apply replaceById_length|]. split.
    + intros i todo Hi. rewrite replaceById_lookup, Hi. reflexivity.
    + apply replaceById_absent.
Qed.

Lemma C3_update_replaces_in_place_witness :
  let a := sampleTodo "a1" "Buy milk" false in
  let b := sampleTodo "b2" "Call home" false in
  let b' := sampleTodo "b2" "Call home" true in
  let s := with_todos [a; b] initial in
  let toggled :=
    {| u_title := None; u_description := None; u_completed := Some true; u_others := false |} in
  todos (onPayload (UPDATE b') (rowsOk [false; true]) s).1 !! 1%nat = Some b'
  ∧ todos (updateTodo "b2" toggled (Reply.mk (Some b') None)
             (rowsOk [false; true]) s).1.1 !! 1%nat = Some b'.
Proof.
  cbn zeta.
  destruct (C3_update_replaces_in_place
              (with_todos [sampleTodo "a1" "Buy milk" false;
                           sampleTodo "b2" "Call home" false] initial)
              (rowsOk [false; true])
              (sampleTodo "b2" "Call home" true) "b2"
              {| u_title := None; u_description := None; u_completed := Some true; u_others := false |}
              (Reply.mk (Some (sampleTodo "b2" "Call home" true)) None))
    as [(_ & Hr & _) Hl].
  destruct Hl as (_ & Hl & _); [reflexivity|].
  split.
  - exact (Hr 1%nat (sampleTodo "b2" "Call home" false) eq_refl).
  - exact (Hl 1%nat (sampleTodo "b2" "Call home" false) eq_refl).
Defined.

(** *** Failed mutations *)

(** C5: when the Gateway call of createTodo, updateTodo, toggleTodo or
    deleteTodo throws, the store operation rejects with that same error
    and the collection and the statistics are what they were before the
    call. *)
Theorem C5_failed_mutation_leaves_state (s : State) (op : Op) (m : string) :
  gatewayThrows op m →
  outcome s op = Some m
  ∧ todos (step s op) = todos s
  ∧ stats (step s op) = stats s.
Proof.
  destruct op as [listr statsr|title description auth ins statsr
    |k updates upd statsr|k completed upd statsr|k del statsr|payload statsr];
    cbn [gatewayThrows step outcome]; intros H; try done.
  - rewrite result_createTodo, todos_createTodo, stats_createTodo, H. done.
  - rewrite result_updateTodo, todos_updateTodo, stats_updateTodo, H. done.
  - unfold toggleTodo.
    rewrite result_updateTodo, todos_updateTodo, stats_updateTodo, H. done.
  - rewrite result_deleteTodo, todos_deleteTodo, stats_deleteTodo, H. done.
Qed.

Lemma C5_failed_mutation_leaves_state_witness :
  let a := sampleTodo "a1" "Buy milk" false in
  let s := with_stats (aggregate [a]) (with_todos [a] initial) in
  let op := DeleteTodo "a1" (Some "Failed to fetch") (rowsOk []) in
  outcome s op = Some "Error al eliminar tarea: Failed to fetch"
  ∧ todos (step s op) = [a]
  ∧ stats (step s op) = aggregate [a].
Proof.
  cbn zeta.
  apply (C5_failed_mutation_leaves_state
           (with_stats (aggregate [sampleTodo "a1" "Buy milk" false])
              (with_todos [sampleTodo "a1" "Buy milk" false] initial))
           (DeleteTodo "a1" (Some "Failed to fetch") (rowsOk []))
           "Error al eliminar tarea: Failed to fetch").
  reflexivity.
Defined.

(** *** Realtime subscription *)

Lemma realtimeFilter_getUserCall (settled : value) :
  realtimeFilter (getUserCall settled) = "user_id=eq.undefined".
Proof. reflexivity. Qed.

(** Evaluated on the settled value itself (as an [await] would have
    it), the same expression gives the user's filter. *)
Lemma realtimeFilter_signedIn (userId : string) :
  realtimeFilter (signedIn userId) = "user_id=eq." +:+ userId.
Proof. reflexivity. Qed.

Lemma append_inj_l (p a b : string) : p +:+ a = p +:+ b → a = b.
Proof.
  induction p as [|c p IH]; simpl; [done|]. intros H. apply IH.
  by injection H.
Qed.

(** C4: whatever the promise of getUser settles to, the filter string
    subscribeToRealtime passes to the channel is the constant
    "user_id=eq.undefined": the channel a first call creates and
    subscribes carries it, and it differs from the filter of the
    signed-in user's id (unless that id is the text "undefined"). *)
Theorem C4_realtime_filter_is_constant (settled : value) (s : State) :
  realtimeFilter (getUserCall settled) = "user_id=eq.undefined"
  ∧ (channel s = None →
     (subscribeToRealtime settled s).1.2
       = [Store AuthGetUser;
          ChannelSubscribe "todos-changes" "user_id=eq.undefined"]
     ∧ ch_filter <$> channel (subscribeToRealtime settled s).1.1
       = Some "user_id=eq.undefined")
  ∧ (∀ userId, userId ≠ "undefined" →
       realtimeFilter (getUserCall (signedIn userId))
       ≠ realtimeFilter (signedIn userId)).
Proof.
  split; [reflexivity|]. split.
  - intros Hnone. unfold subscribeToRealtime. rewrite Hnone. split; reflexivity.
  - intros userId Hne. rewrite realtimeFilter_getUserCall, realtimeFilter_signedIn.
    intros H. change "user_id=eq.undefined" with ("user_id=eq." +:+ "undefined") in H.
    apply append_inj_l in H. congruence.
Qed.

Lemma C4_realtime_filter_is_constant_witness :
  let settled := signedIn "7d0e6b0a-5a51-4c0b-9a3e-0c1d2e3f4a5b" in
  ch_filter <$> channel (subscribeToRealtime settled initial).1.1
    = Some "user_id=eq.undefined"
  ∧ realtimeFilter (getUserCall settled)
    ≠ "user_id=eq.7d0e6b0a-5a51-4c0b-9a3e-0c1d2e3f4a5b".
Proof.
  cbn zeta.
  destruct (C4_realtime_filter_is_constant
              (signedIn "7d0e6b0a-5a51-4c0b-9a3e-0c1d2e3f4a5b") initial)
    as (_ & Hsub & Hne).
  split.
  - apply Hsub. reflexivity.
  - apply (Hne "7d0e6b0a-5a51-4c0b-9a3e-0c1d2e3f4a5b"). discriminate.
Defined.

Section Subscriptions.

Lemma step_keeps_channel (s : State) (op : Op) :
  channel (step s op) = channel s.
Proof.
  destruct op as [listr statsr|title description auth ins statsr
    |k updates upd statsr|k completed upd statsr|k del statsr|payload statsr];
    cbn [step];
    unfold fetchTodos, createTodo, toggleTodo, updateTodo, deleteTodo,
      onPayload, updateStats, failed, todoService.getTodos,
      todoService.getTodoStats.
  - destruct (Reply.error listr), (Reply.error statsr); done.
  - destruct (todoService.createTodo _ _ _ _) as [fx [row|m]];
      destruct (Reply.error statsr); done.
  - destruct (todoService.updateTodo _ _ _) as [fx [row|m]];
      destruct (Reply.error statsr); done.
  - destruct (todoService.updateTodo _ _ _) as [fx [row|m]];
      destruct (Reply.error statsr); done.
  - destruct (todoService.deleteTodo _ _) as [fx [[]|m]];
      destruct (Reply.error statsr); done.
  - destruct payload; destruct (Reply.error statsr); done.
Qed.

Lemma release_only (n : nat) : Channels.release n [n] = [].
Proof.
  unfold Channels.release. rewrite filter_cons_False by (intros H; by apply H).
  reflexivity.
Qed.

Lemma subscribe_guard (settled : value) (s : State) (ch : Channel) :
  channel s = Some ch → subscribeToRealtime settled s = (s, [], Noop).
Proof. intros Hch. unfold subscribeToRealtime. by rewrite Hch. Qed.

Lemma subscribe_first (settled : value) (s : State) :
  channel s = None →
  ∃ ch, subscribeToRealtime settled s
        = (with_realtimeEnabled true (with_channel (Some ch) s),
           [Store AuthGetUser; ChannelSubscribe (ch_name ch) (ch_filter ch)],
           Release ch).
Proof.
  intros Hnone. unfold subscribeToRealtime. rewrite Hnone. by eexists.
Qed.

Lemma start_consistent : Channels.consistent Channels.start.
Proof. split; [split|]; reflexivity. Qed.

Lemma call_consistent (w : Channels.World) (c : Channels.Call) :
  Channels.consistent w → Channels.timely w c →
  Channels.consistent (Channels.call w c).
Proof.
  intros [Hheld Hactive] Htimely.
  destruct c as [settled|n| | |op]; cbn [Channels.call Channels.timely] in *.
  - destruct (channel (Channels.store w)) as [ch|] eqn:Hch.
    + rewrite (subscribe_guard settled _ ch Hch).
      split; cbn; [by rewrite Hch|done].
    + destruct (subscribe_first settled _ Hch) as [new ->].
      assert (Hnone : Channels.held w = None) by (by apply Hheld).
      rewrite Hnone in Hactive.
      split; cbn; [split; discriminate|by rewrite Hactive].
  - destruct (Channels.created w !! n) as [new|]; [|by split].
    split; cbn; [done|].
    rewrite Hactive. destruct Htimely as [->| ->]; [reflexivity|].
    apply release_only.
  - destruct (channel (Channels.store w)) as [ch|] eqn:Hch;
      [|split; [by rewrite Hch|done]].
    unfold unsubscribeFromRealtime. rewrite Hch.
    split; cbn; [done|].
    rewrite Hactive. destruct (Channels.held w) as [n|]; [|reflexivity].
    apply release_only.
  - split; cbn; [done|].
    rewrite Hactive.
    destruct (channel (Channels.store w)), (Channels.held w) as [n|];
      try reflexivity; [apply release_only|].
    discriminate (proj2 Hheld eq_refl).
  - split; cbn; [by rewrite step_keeps_channel|done].
Qed.

Lemma run_consistent (calls : list Channels.Call) (w : Channels.World) :
  Channels.consistent w → Channels.timelyRun w calls →
  Channels.consistent (Channels.run w calls).
Proof.
  revert w. induction calls as [|c calls IH]; intros w Hw Htimely; [done|].
  destruct Htimely as [Hc Hrest].
  change (Channels.run w (c :: calls))
    with (Channels.run (Channels.call w c) calls).
  apply IH; [by apply call_consistent|done].
Qed.

End Subscriptions.

(** C8, as stated, fails: the function a call of subscribeToRealtime
    returned clears the stored channel whenever it is called, also when
    that channel belongs to a later subscription.  After subscribe,
    its function, subscribe, the first function again, subscribe, the
    channels of the second and of the third subscription are both
    subscribed: the second was dropped from the state without being
    unsubscribed. *)
Lemma C8_counterexample :
  let calls :=
    [Channels.Subscribe VNull; Channels.Cleanup 0;
     Channels.Subscribe VNull; Channels.Cleanup 0;
     Channels.Subscribe VNull] in
  let before := Channels.run Channels.start (take 4 calls) in
  let w := Channels.run Channels.start calls in
  Channels.active before = [1%nat]
  ∧ channel (Channels.store before) = None
  ∧ Channels.active w = [1%nat; 2%nat]
  ∧ Channels.held w = Some 2%nat
  ∧ ¬ (length (Channels.active w) ≤ 1)%nat.
Proof.
  cbn zeta. repeat split; try reflexivity.
  vm_compute. lia.
Qed.

(** C8, amended: while a channel is stored, subscribeToRealtime changes
    nothing, creates no channel and returns a function that does
    nothing; without a stored channel it creates and stores one, and a
    call that follows is again without effect.  At most one realtime
    subscription is active after any sequence of store calls
    (subscribeToRealtime, the functions it returned,
    unsubscribeFromRealtime, reset, the task operations and realtime
    events), provided no function returned by subscribeToRealtime is
    called while the stored channel belongs to a later subscription:
    the active subscription is then the stored channel's, and there is
    none when no channel is stored. *)
Theorem C8_single_subscription (settled settled' : value) (s : State)
    (calls : list Channels.Call) :
  Channels.timelyRun Channels.start calls →
  let w := Channels.run Channels.start calls in
  (∀ ch, channel s = Some ch →
     subscribeToRealtime settled s = (s, [], Noop)
     ∧ ∀ s0, runCleanup Noop s0 = (s0, []))
  ∧ (channel s = None →
     let '(s1, fx, cleanup) := subscribeToRealtime settled s in
     (∃ ch, channel s1 = Some ch ∧ cleanup = Release ch
            ∧ ChannelSubscribe (ch_name ch) (ch_filter ch) ∈ fx)
     ∧ subscribeToRealtime settled' s1 = (s1, [], Noop))
  ∧ (length (Channels.active w) ≤ 1)%nat
  ∧ Channels.active w
    = match Channels.held w with Some n => [n] | None => [] end
  ∧ (Channels.held w = None ↔ channel (Channels.store w) = None).
Proof.
  intros Htimely. cbn zeta. split; [|split].
  - intros ch Hch. unfold subscribeToRealtime. rewrite Hch. done.
  - intros Hnone. unfold subscribeToRealtime. rewrite Hnone. cbn.
    split; [|reflexivity].
    eexists. split; [reflexivity|]. split; [reflexivity|].
    apply list_elem_of_further, list_elem_of_here.
  - destruct (run_consistent calls Channels.start start_consistent Htimely)
      as [Hheld Hactive].
    split; [|by split].
    rewrite Hactive. destruct (Channels.held _); cbn; lia.
Qed.

Lemma C8_single_subscription_witness :
  let calls :=
    [Channels.Subscribe VNull; Channels.Subscribe VNull;
     Channels.Cleanup 0; Channels.Subscribe VNull;
     Channels.Operation (Realtime (DELETE "a1") (rowsOk []));
     Channels.Reset; Channels.Subscribe VNull] in
  Channels.timelyRun Channels.start calls
  ∧ (length (Channels.active (Channels.run Channels.start calls)) ≤ 1)%nat
  ∧ Channels.active (Channels.run Channels.start calls) = [2%nat].
Proof.
  cbn zeta.
  assert (Htimely :
    Channels.timelyRun Channels.start
      [Channels.Subscribe VNull; Channels.Subscribe VNull;
       Channels.Cleanup 0; Channels.Subscribe VNull;
       Channels.Operation (Realtime (DELETE "a1") (rowsOk []));
       Channels.Reset; Channels.Subscribe VNull]).
  { vm_compute. repeat split. by right. }
  split; [exact Htimely|].
  destruct (C8_single_subscription VNull VNull initial _ Htimely)
    as (_ & _ & Hone & _).
  split; [exact Hone|reflexivity].
Defined.

(** *** Validation of the title *)

Section TitleFacts.

Lemma emptyTitle_iff (title : jsstring) :
  falsy title || (length (trim title) =? 0)%nat = true ↔ trim title = [].
Proof.
  rewrite orb_true_iff, falsy_nil, length_zero_nil. split; [|by right].
  intros [->|H]; [reflexivity|exact H].
Qed.

Lemma emptyTitle_iff' (title : jsstring) :
  falsy title || falsy (trim title) = true ↔ trim title = [].
Proof.
  rewrite orb_true_iff, !falsy_nil. split; [|by right].
  intros [->|H]; [reflexivity|exact H].
Qed.

Lemma service_createTodo_rejected title description auth ins :
  trim title = [] →
  todoService.createTodo title description auth ins =
  ([], Err "Error al crear tarea: El título de la tarea es requerido").
Proof.
  intros H. apply emptyTitle_iff in H. unfold todoService.createTodo.
  rewrite H. reflexivity.
Qed.

Lemma service_createTodo_accepted title description u ins :
  trim title ≠ [] →
  todoService.createTodo title description (mkAuthReply (Some u) None) ins =
  ([Store AuthGetUser;
    Store (InsertRow (trim title) (trim (default [] description)) (uid u))],
   match ins with
   | inl row => Ok row
   | inr m => Err ("Error al crear tarea: " +:+ m)
   end).
Proof.
  intros H. unfold todoService.createTodo.
  destruct (falsy title || (length (trim title) =? 0)%nat) eqn:E.
  - apply emptyTitle_iff in E. congruence.
  - reflexivity.
Qed.

Lemma service_createTodo_sends title description auth ins t d u :
  Store (InsertRow t d u) ∈ (todoService.createTodo title description auth ins).1 →
  t = trim title ∧ d = trim (default [] description) ∧ t ≠ [].
Proof.
  unfold todoService.createTodo.
  destruct (falsy title || (length (trim title) =? 0)%nat) eqn:E; cbn [fst].
  - intros H. by apply elem_of_nil in H.
  - assert (Hne : trim title ≠ []).
    { intros H. apply emptyTitle_iff in H. congruence. }
    destruct (userError auth), (user auth); cbn [fst]; intros H;
      repeat (apply elem_of_cons in H as [H|H]; [try discriminate|]);
      try (by apply elem_of_nil in H).
    injection H as -> -> ->. done.
Qed.

End TitleFacts.

(** C7: a title that is empty, or empty once trimmed, makes createTodo
    reject with the validation error without any request to the store,
    the collection unchanged; an accepted title and its description are
    sent to the store trimmed. *)
Theorem C7_createTodo_validates_and_trims (title : jsstring)
    (description : option jsstring) (auth : AuthReply) (ins : Todo.t + string)
    (statsr : Reply.t (list bool)) (s : State) :
  let rejected : string :=
    "Error al crear tarea: El título de la tarea es requerido" in
  (title = [] ∨ trim title = [] →
     todoService.createTodo title description auth ins = ([], Err rejected)
     ∧ (createTodo title description auth ins statsr s).2 = Err rejected
     ∧ (∀ c, Store c ∉ (createTodo title description auth ins statsr s).1.2)
     ∧ todos (createTodo title description auth ins statsr s).1.1 = todos s)
  ∧ (∀ u, trim title ≠ [] → auth = mkAuthReply (Some u) None →
       (todoService.createTodo title description auth ins).1
       = [Store AuthGetUser;
          Store (InsertRow (trim title) (trim (default [] description)) (uid u))])
  ∧ (∀ t d u,
       Store (InsertRow t d u) ∈ (createTodo title description auth ins statsr s).1.2 →
       t = trim title ∧ d = trim (default [] description) ∧ t ≠ []).
Proof.
  cbn zeta. split; [|split].
  - intros H. assert (Ht : trim title = []) by (destruct H as [->|H]; done).
    split; [by apply service_createTodo_rejected|].
    unfold createTodo. rewrite service_createTodo_rejected by done.
    cbn. split; [reflexivity|]. split; [|reflexivity].
    intros c Hc. apply list_elem_of_singleton in Hc. discriminate.
  - intros u Hne ->. by rewrite service_createTodo_accepted.
  - intros t d u. unfold createTodo.
    pose proof (service_createTodo_sends title (Some (default [] description))
                  auth ins t d u) as Hsend.
    destruct (todoService.createTodo _ _ _ _) as [fx [row|m]]; cbn [fst snd] in *.
    + unfold updateStats, todoService.getTodoStats.
      destruct (Reply.error statsr); cbn [fst snd];
        rewrite !elem_of_app; intros [H|[H|H]]; try (by apply Hsend);
        repeat (apply elem_of_cons in H as [H|H]; [discriminate|]);
        by apply elem_of_nil in H.
    + unfold failed. cbn [fst snd]. rewrite elem_of_app. intros [H|H];
        [by apply Hsend|].
      apply list_elem_of_singleton in H. discriminate.
Qed.

Lemma C7_createTodo_validates_and_trims_witness :
  let s := with_todos [sampleTodo "a1" "Buy milk" false] initial in
  let auth := mkAuthReply (Some (mkUser "u1")) None in
  let row := sampleTodo "b2" "Call home" false in
  (createTodo (lit "   ") (Some (lit "desc")) auth (inl row) (rowsOk []) s).2
    = Err "Error al crear tarea: El título de la tarea es requerido"
  ∧ todos (createTodo (lit "   ") (Some (lit "desc")) auth (inl row) (rowsOk []) s).1.1
    = todos s
  ∧ (todoService.createTodo (lit " Call home ") (Some (lit " soon  ")) auth (inl row)).1
    = [Store AuthGetUser; Store (InsertRow (lit "Call home") (lit "soon") "u1")].
Proof.
  cbn zeta.
  destruct (C7_createTodo_validates_and_trims (lit "   ") (Some (lit "desc"))
              (mkAuthReply (Some (mkUser "u1")) None)
              (inl (sampleTodo "b2" "Call home" false)) (rowsOk [])
              (with_todos [sampleTodo "a1" "Buy milk" false] initial))
    as (Hrej & _ & _).
  destruct Hrej as (_ & Hr & _ & Ht); [right; reflexivity|].
  destruct (C7_createTodo_validates_and_trims (lit " Call home ")
              (Some (lit " soon  "))
              (mkAuthReply (Some (mkUser "u1")) None)
              (inl (sampleTodo "b2" "Call home" false)) (rowsOk [])
              (with_todos [sampleTodo "a1" "Buy milk" false] initial))
    as (_ & Hacc & _).
  split; [exact Hr|]. split; [exact Ht|].
  apply (Hacc (mkUser "u1")); [discriminate|reflexivity].
Defined.

(** *** Deleting a row that is not there *)

(** The service's [deleteTodo] reads only the [error] of the reply: for
    every id, a reply without error resolves. *)
Lemma service_deleteTodo_resolves (k : string) :
  k ≠ "" →
  todoService.deleteTodo k None = ([Store (DeleteRow k None)], Ok tt).
Proof.
  intros Hk. unfold todoService.deleteTodo.
  destruct (String.eqb_spec k ""); [congruence|reflexivity].
Qed.

Lemma store_deleteTodo_absent (k : string) (statsr : Reply.t (list bool)) (s : State) :
  k ≠ "" → k ∉ ids (todos s) →
  (deleteTodo k None statsr s).2 = Ok tt
  ∧ todos (deleteTodo k None statsr s).1.1 = todos s
  ∧ error (deleteTodo k None statsr s).1.1 = None.
Proof.
  intros Hk Habs. unfold deleteTodo. rewrite service_deleteTodo_resolves by done.
  fold (removeById k (todos (with_error None (with_loading true s)))).
  cbn [todos with_error with_loading]. rewrite removeById_absent by done.
  unfold updateStats, todoService.getTodoStats.
  destruct (Reply.error statsr); done.
Qed.

(** C6, at the failing input: the row was already removed by a realtime
    DELETE, and the store answers the local delete (which matches no
    row) without an error.  The service resolves, and the store
    operation reports success: no NotFoundError is raised.  The HTTP
    controller, given the same empty result, answers 404. *)
Lemma C6_delete_of_missing_row_resolves :
  let k := "3f2b8c1e-7a4d-4e9b-8c2a-1d5e6f7a8b9c" in
  let x := sampleTodo k "Buy milk" false in
  let s0 := with_stats (aggregate [x]) (with_todos [x] initial) in
  let s := (onPayload (DELETE k) (rowsOk []) s0).1 in
  let '(s', fx, r) := deleteTodo k None (rowsOk []) s in
  todos s = []
  ∧ todoService.deleteTodo k None = ([Store (DeleteRow k None)], Ok tt)
  ∧ r = Ok tt
  ∧ error s' = None
  ∧ todos s' = todos s
  ∧ fx = [Store (DeleteRow k None); Store SelectCompleted;
          ToastSuccess "Tarea eliminada"]
  ∧ todoController.status
      (todoController.deleteTodo "u1" k (Reply.mk None None)).2 = 404%Z.
Proof. vm_compute. repeat split. Qed.

(** *** The length of the title *)

Section TitleLength.

Import todoController.

Lemma lt_false_le (a b : nat) : (a <? b)%nat = false → (b ≤ a)%nat.
Proof. intros H. apply Nat.ltb_ge in H. exact H. Qed.

Lemma controller_createTodo_cases (userId : string) (title : jsstring)
    (description : option Field) (ins : Reply.t Todo.t) :
  let out := createTodo userId (Some (Str title)) description ins in
  (trim title = [] ∨ (255 < length (trim title))%nat →
     out.1 = [] ∧ status out.2 = 400%Z)
  ∧ (trim title ≠ [] → (length (trim title) ≤ 255)%nat →
     description ≠ Some (NotStr true) →
     ∃ d, out.1 = [Store (InsertRow (trim title) d userId)]).
Proof.
  cbn zeta. unfold createTodo.
  destruct (falsy title || falsy (trim title)) eqn:E.
  - apply emptyTitle_iff' in E. split; [done|congruence].
  - assert (Hne : trim title ≠ []).
    { intros H. apply emptyTitle_iff' in H. congruence. }
    destruct (255 <? length (trim title))%nat eqn:L.
    + apply Nat.ltb_lt in L. split; [done|lia].
    + apply lt_false_le in L. split.
      * intros [H|H]; [congruence|lia].
      * intros _ _ Hd. destruct description as [[d|[|]]|]; try done;
          eexists; reflexivity.
Qed.

Lemma controller_updateTodo_cases (userId k : string) (title : jsstring)
    (description : option Field) (completed : option bool)
    (upd : Reply.t Todo.t) :
  let out := updateTodo userId k (Some (Str title)) description completed upd in
  (trim title = [] ∨ (255 < length (trim title))%nat →
     out.1 = [] ∧ status out.2 = 400%Z)
  ∧ (uuidRegex_test k = true →
     trim title ≠ [] → (length (trim title) ≤ 255)%nat →
     description ≠ Some (NotStr true) →
     ∃ d, out.1 = [Store (UpdateRow k (mkUpdates (Some (trim title)) d completed)
                            (Some userId))]).
Proof.
  cbn zeta. unfold updateTodo.
  destruct (uuidRegex_test k); cbn [negb]; [|split; done].
  destruct (falsy title || falsy (trim title)) eqn:E.
  - apply emptyTitle_iff' in E. split; [done|congruence].
  - assert (Hne : trim title ≠ []).
    { intros H. apply emptyTitle_iff' in H. congruence. }
    destruct (255 <? length (trim title))%nat eqn:L.
    + apply Nat.ltb_lt in L. split; [done|lia].
    + apply lt_false_le in L. split.
      * intros [H|H]; [congruence|lia].
      * intros _ _ _ Hd. destruct description as [[d|[|]]|]; try done;
          eexists; reflexivity.
Qed.

Lemma controller_createTodo_sends (userId : string) (title description : option Field)
    (ins : Reply.t Todo.t) (t d : jsstring) (o : string) :
  Store (InsertRow t d o) ∈ (createTodo userId title description ins).1 →
  ∃ title0, title = Some (Str title0) ∧ t = trim title0 ∧ t ≠ []
            ∧ (length t ≤ 255)%nat.
Proof.
  unfold createTodo. destruct title as [[title0|[|]]|];
    try (cbn; intros H; by apply elem_of_nil in H).
  destruct (falsy title0 || falsy (trim title0)) eqn:E;
    [cbn; intros H; by apply elem_of_nil in H|].
  assert (Hne : trim title0 ≠ []).
  { intros H. apply emptyTitle_iff' in H. congruence. }
  destruct (255 <? length (trim title0))%nat eqn:L;
    [cbn; intros H; by apply elem_of_nil in H|].
  apply lt_false_le in L.
  destruct description as [[d0|[|]]|]; cbn [fst]; intros H;
    try (by apply elem_of_nil in H);
    apply list_elem_of_singleton in H; injection H as -> _ _; by eauto.
Qed.

Lemma service_updateTodo_title (k : string) (title : jsstring)
    (description : option jsstring) (completed : option bool)
    (upd : Reply.t Todo.t) :
  k ≠ "" → trim title ≠ [] →
  (todoService.updateTodo k (mkUpdates (Some title) description completed) upd).1
  = [Store (UpdateRow k (mkUpdates (Some (trim title)) (trim <$> description)
                           completed) None)].
Proof.
  intros Hk Hne. unfold todoService.updateTodo, todoService.cleanUpdates, noKeys.
  destruct (String.eqb_spec k ""); [congruence|].
  cbn [u_title u_description u_completed u_others].
  destruct (falsy title || (length (trim title) =? 0)%nat) eqn:E.
  - apply emptyTitle_iff in E. congruence.
  - reflexivity.
Qed.

Lemma service_updateTodo_blank (k : string) (u : Updates) (title : jsstring)
    (upd : Reply.t Todo.t) :
  u_title u = Some title → trim title = [] →
  (todoService.updateTodo k u upd).1 = [].
Proof.
  intros Ht Hb. apply emptyTitle_iff in Hb.
  unfold todoService.updateTodo, todoService.cleanUpdates.
  destruct (String.eqb k ""); [done|]. destruct (noKeys u); [done|].
  by rewrite Ht, Hb.
Qed.

Lemma controller_updateTodo_sends_title (userId k : string) (title : jsstring)
    (description : option Field) (completed : option bool) (upd : Reply.t Todo.t)
    (k' : string) (c : Updates) (o : option string) :
  Store (UpdateRow k' c o)
  ∈ (updateTodo userId k (Some (Str title)) description completed upd).1 →
  u_title c = Some (trim title) ∧ trim title ≠ [].
Proof.
  unfold updateTodo. destruct (uuidRegex_test k); cbn [negb];
    [|cbn; intros H; by apply elem_of_nil in H].
  destruct (falsy title || falsy (trim title)) eqn:E;
    [cbn; intros H; by apply elem_of_nil in H|].
  assert (Hne : trim title ≠ []).
  { intros H. apply emptyTitle_iff' in H. congruence. }
  destruct (255 <? length (trim title))%nat;
    [cbn; intros H; by apply elem_of_nil in H|].
  destruct description as [[d0|[|]]|];
    try (cbn; intros H; by apply elem_of_nil in H);
    match goal with |- context [noKeys ?u] => destruct (noKeys u) end;
    cbn [fst]; intros H; try (by apply elem_of_nil in H);
    apply list_elem_of_singleton in H; injection H as _ -> _; done.
Qed.

Lemma service_updateTodo_sends_title (k : string) (title : jsstring)
    (description : option jsstring) (completed : option bool) (others : bool)
    (upd : Reply.t Todo.t) (k' : string) (c : Updates) (o : option string) :
  Store (UpdateRow k' c o)
  ∈ (todoService.updateTodo k
       (mkUpdatesWith (Some title) description completed others) upd).1 →
  u_title c = Some (trim title) ∧ trim title ≠ [].
Proof.
  unfold todoService.updateTodo, todoService.cleanUpdates.
  destruct (String.eqb k ""); [cbn; intros H; by apply elem_of_nil in H|].
  destruct (noKeys _); [cbn; intros H; by apply elem_of_nil in H|].
  cbn [u_title].
  destruct (falsy title || (length (trim title) =? 0)%nat) eqn:E;
    [cbn; intros H; by apply elem_of_nil in H|].
  assert (Hne : trim title ≠ []).
  { intros H. apply emptyTitle_iff in H. congruence. }
  cbn [fst]. intros H. apply list_elem_of_singleton in H.
  injection H as _ -> _. done.
Qed.

Lemma handleSubmit_cases (taskTitle taskDescription : jsstring) :
  ((100 < length (trim taskTitle))%nat →
     TaskForm.handleSubmit taskTitle taskDescription
     = TaskForm.LocalError "El título no puede tener más de 100 caracteres")
  ∧ (∀ t d, TaskForm.handleSubmit taskTitle taskDescription = TaskForm.CreateTodo t d →
       t = trim taskTitle ∧ t ≠ [] ∧ (length t ≤ 100)%nat).
Proof.
  unfold TaskForm.handleSubmit. destruct (falsy (trim taskTitle)) eqn:E.
  - apply falsy_nil in E. rewrite E. cbn [length]. split; [lia|done].
  - assert (Hne : trim taskTitle ≠ []).
    { intros H. apply falsy_nil in H. congruence. }
    destruct (100 <? length (trim taskTitle))%nat eqn:L.
    + split; done.
    + apply lt_false_le in L. split; [lia|].
      destruct (500 <? length (trim taskDescription))%nat; [done|].
      intros t d [= <- <-]. done.
Qed.

Lemma handleSaveEdit_cases (task : Todo.t) (editTitle editDescription : jsstring) :
  (trim editTitle = [] →
     TaskItem.handleSaveEdit task editTitle editDescription
     = TaskItem.ToastOnly "El título no puede estar vacío")
  ∧ (trim editTitle ≠ [] →
     TaskItem.handleSaveEdit task editTitle editDescription
     = TaskItem.UpdateTodo (Todo.id task)
         (mkUpdates (Some (trim editTitle)) (Some (trim editDescription)) None)).
Proof.
  unfold TaskItem.handleSaveEdit. split.
  - intros H. by rewrite H.
  - intros Hne. destruct (falsy (trim editTitle)) eqn:E; [|reflexivity].
    apply falsy_nil in E. congruence.
Qed.

End TitleLength.

(** C10, as stated, fails: a title of 101 characters is accepted by the
    service's createTodo and updateTodo and by the controller's
    createTodo (201) and updateTodo (200), and is sent to the store. *)
Lemma C10_counterexample :
  let title := replicate 101 97%N in
  let k := "3f2b8c1e-7a4d-4e9b-8c2a-1d5e6f7a8b9c" in
  let row :=
    {| Todo.id := k; Todo.user_id := "u1"; Todo.title := title;
       Todo.description := Some []; Todo.completed := false;
       Todo.created_at := "2024-05-01T10:00:00Z";
       Todo.updated_at := "2024-05-01T10:00:00Z" |} in
  let auth := mkAuthReply (Some (mkUser "u1")) None in
  let stored := Reply.mk (Some row) None in
  length (trim title) = 101%nat
  ∧ todoService.createTodo title None auth (inl row)
    = ([Store AuthGetUser; Store (InsertRow title [] "u1")], Ok row)
  ∧ todoService.updateTodo k (mkUpdates (Some title) None None) stored
    = ([Store (UpdateRow k (mkUpdates (Some title) None None) None)], Ok row)
  ∧ todoController.createTodo "u1" (Some (todoController.Str title)) None stored
    = ([Store (InsertRow title [] "u1")],
       todoController.mkResponse 201
         (todoController.Success (Some row) "Tarea creada exitosamente"))
  ∧ todoController.updateTodo "u1" k (Some (todoController.Str title)) None None
      stored
    = ([Store (UpdateRow k (mkUpdates (Some title) None None) (Some "u1"))],
       todoController.mkResponse 200
         (todoController.Success (Some row) "Tarea actualizada exitosamente")).
Proof. vm_compute. repeat split. Qed.

(** C10, amended: every title the create and update operations send to
    the store is trimmed and non-empty, and a title that is empty once
    trimmed is rejected without a request to the store.  The bound on
    its length depends on the layer: the HTTP controller rejects, with
    status 400 and no request to the store, a trimmed title of more
    than 255 characters and accepts every non-empty one up to 255; the
    service (todoService) sets no upper bound; of the two components
    that call the store, TaskForm.handleSubmit reports a local error
    instead of calling the store when the trimmed title has more than
    100 characters, and TaskItem.handleSaveEdit checks only that the
    trimmed title is not empty and passes a title of any length on. *)
Theorem C10_title_length_by_layer (userId k : string) (title : jsstring)
    (description : option jsstring) (completed : option bool)
    (u : User) (ins : Todo.t + string) (stored : Reply.t Todo.t)
    (task : Todo.t) :
  let sent : list Effect :=
    (todoController.createTodo userId (Some (todoController.Str title))
       (todoController.Str <$> description) stored).1
    ++ (todoController.updateTodo userId k (Some (todoController.Str title))
          (todoController.Str <$> description) completed stored).1
    ++ (todoService.createTodo title description (mkAuthReply (Some u) None) ins).1
    ++ (todoService.updateTodo k (mkUpdates (Some title) description completed)
          stored).1 in
  (* the controller *)
  (trim title = [] ∨ (255 < length (trim title))%nat →
     (todoController.createTodo userId (Some (todoController.Str title))
        (todoController.Str <$> description) stored).1 = []
     ∧ todoController.status
         (todoController.createTodo userId (Some (todoController.Str title))
            (todoController.Str <$> description) stored).2
       = 400%Z
     ∧ (todoController.updateTodo userId k (Some (todoController.Str title))
          (todoController.Str <$> description) completed stored).1 = []
     ∧ todoController.status
         (todoController.updateTodo userId k (Some (todoController.Str title))
            (todoController.Str <$> description) completed stored).2 = 400%Z)
  ∧ (trim title ≠ [] → (length (trim title) ≤ 255)%nat →
     (∃ d, (todoController.createTodo userId (Some (todoController.Str title))
              (todoController.Str <$> description) stored).1
           = [Store (InsertRow (trim title) d userId)])
     ∧ (todoController.uuidRegex_test k = true →
        ∃ d, (todoController.updateTodo userId k (Some (todoController.Str title))
                (todoController.Str <$> description) completed stored).1
             = [Store (UpdateRow k (mkUpdates (Some (trim title)) d completed)
                         (Some userId))]))
  (* the service *)
  ∧ (trim title ≠ [] →
     (todoService.createTodo title description (mkAuthReply (Some u) None) ins).1
     = [Store AuthGetUser;
        Store (InsertRow (trim title) (trim (default [] description)) (uid u))]
     ∧ (k ≠ "" →
        (todoService.updateTodo k (mkUpdates (Some title) description completed)
           stored).1
        = [Store (UpdateRow k (mkUpdates (Some (trim title)) (trim <$> description)
                                 completed) None)]))
  (* the form *)
  ∧ ((100 < length (trim title))%nat →
     TaskForm.handleSubmit title (default [] description)
     = TaskForm.LocalError "El título no puede tener más de 100 caracteres")
  ∧ (∀ t d, TaskForm.handleSubmit title (default [] description)
            = TaskForm.CreateTodo t d →
       t = trim title ∧ t ≠ [] ∧ (length t ≤ 100)%nat)
  (* a blank title sends nothing; what is sent is trimmed and non-empty *)
  ∧ (trim title = [] → sent = [])
  ∧ (∀ t d o, Store (InsertRow t d o) ∈ sent → t = trim title ∧ t ≠ [])
  ∧ (∀ k' c o, Store (UpdateRow k' c o) ∈ sent →
       u_title c = Some (trim title) ∧ trim title ≠ [])
  (* the item *)
  ∧ (trim title = [] →
     TaskItem.handleSaveEdit task title (default [] description)
     = TaskItem.ToastOnly "El título no puede estar vacío")
  ∧ (trim title ≠ [] →
     TaskItem.handleSaveEdit task title (default [] description)
     = TaskItem.UpdateTodo (Todo.id task)
         (mkUpdates (Some (trim title)) (Some (trim (default [] description)))
            None)).
Proof.
  pose proof (controller_createTodo_cases userId title
                (todoController.Str <$> description) stored) as [Hc1 Hc2].
  pose proof (controller_updateTodo_cases userId k title
                (todoController.Str <$> description) completed stored)
    as [Hu1 Hu2].
  pose proof (handleSubmit_cases title (default [] description)) as [Hf1 Hf2].
  pose proof (handleSaveEdit_cases task title (default [] description)) as [Hi1 Hi2].
  assert (Hd : todoController.Str <$> description
               ≠ Some (todoController.NotStr true)) by (by destruct description).
  cbn zeta in *.
  split; [|split; [|split; [|split; [|split; [|split; [|split; [|split; [|split]]]]]]]].
  - intros H. destruct (Hc1 H), (Hu1 H). done.
  - intros Hne Hlen. split; [by apply Hc2|]. intros Hk. by apply Hu2.
  - intros Hne. split; [by rewrite service_createTodo_accepted|].
    intros Hk. by apply service_updateTodo_title.
  - exact Hf1.
  - exact Hf2.
  - intros Hb. destruct (Hc1 (or_introl Hb)) as [-> _].
    destruct (Hu1 (or_introl Hb)) as [-> _].
    rewrite service_createTodo_rejected by done.
    rewrite (service_updateTodo_blank k _ title) by done. reflexivity.
  - intros t d o. rewrite !elem_of_app. intros [H|[H|[H|H]]].
    + apply controller_createTodo_sends in H as (t0 & [= <-] & -> & Hne & _). done.
    + unfold todoController.updateTodo in H. revert H.
      repeat match goal with
      | |- context [match ?x with _ => _ end] => destruct x
      end; cbn [fst]; intros H;
        repeat (apply elem_of_cons in H as [H|H]; [discriminate|]);
        by apply elem_of_nil in H.
    + apply service_createTodo_sends in H as (-> & _ & Hne). done.
    + unfold todoService.updateTodo in H. revert H.
      repeat match goal with
      | |- context [match ?x with _ => _ end] => destruct x
      end; cbn [fst]; intros H;
        repeat (apply elem_of_cons in H as [H|H]; [discriminate|]);
        by apply elem_of_nil in H.
  - intros k' c o. rewrite !elem_of_app. intros [H|[H|[H|H]]].
    + unfold todoController.createTodo in H. revert H.
      repeat match goal with
      | |- context [match ?x with _ => _ end] => destruct x
      end; cbn [fst]; intros H;
        repeat (apply elem_of_cons in H as [H|H]; [discriminate|]);
        by apply elem_of_nil in H.
    + by apply controller_updateTodo_sends_title in H.
    + unfold todoService.createTodo in H. revert H.
      repeat match goal with
      | |- context [match ?x with _ => _ end] => destruct x
      end; cbn [fst]; intros H;
        repeat (apply elem_of_cons in H as [H|H]; [discriminate|]);
        by apply elem_of_nil in H.
    + by apply service_updateTodo_sends_title in H.
  - exact Hi1.
  - exact Hi2.
Qed.

Lemma C10_title_length_by_layer_witness :
  let long := replicate 256 97%N in
  let k := "3f2b8c1e-7a4d-4e9b-8c2a-1d5e6f7a8b9c" in
  todoController.status
    (todoController.createTodo "u1" (Some (todoController.Str long)) None
       (Reply.mk None None)).2
    = 400%Z
  ∧ TaskForm.handleSubmit long []
    = TaskForm.LocalError "El título no puede tener más de 100 caracteres"
  ∧ (todoService.createTodo long None (mkAuthReply (Some (mkUser "u1")) None)
       (inr "x")).1
    = [Store AuthGetUser; Store (InsertRow long [] "u1")]
  ∧ TaskItem.handleSaveEdit (sampleTodo k "Buy milk" false) long []
    = TaskItem.UpdateTodo k (mkUpdates (Some long) (Some []) None).
Proof.
  cbn zeta.
  destruct (C10_title_length_by_layer "u1" "3f2b8c1e-7a4d-4e9b-8c2a-1d5e6f7a8b9c"
              (replicate 256 97%N) None None (mkUser "u1") (inr "x")
              (Reply.mk None None)
              (sampleTodo "3f2b8c1e-7a4d-4e9b-8c2a-1d5e6f7a8b9c" "Buy milk" false))
    as (Hrej & _ & Hsvc & Hform & _ & _ & _ & _ & _ & Hitem).
  destruct Hrej as (_ & H400 & _); [right; vm_compute; lia|].
  destruct Hsvc as [Hcreate _]; [vm_compute; discriminate|].
  split; [exact H400|]. split; [|split; [exact Hcreate|]].
  - apply Hform. vm_compute. lia.
  - apply Hitem. vm_compute. discriminate.
Defined.

(* ===================================================================== *)
(** ** Further properties of the store *)
(* ===================================================================== *)

Import Stdlib.Strings.Ascii.

(** *** Reading the collection *)

Section Reads.

Lemma filter_not_completed (l : list Todo.t) :
  filter (λ todo, Todo.completed todo = false) l
  = filter (λ todo, ¬ Todo.completed todo = true) l.
Proof.
  apply list_filter_iff. intros todo. destruct (Todo.completed todo); split; congruence.
Qed.

Lemma getFilteredTodos_completed (s : State) :
  getFilteredTodos (Some "completed") s
  = filter (λ todo, Todo.completed todo = true) (todos s).
Proof. reflexivity. Qed.

Lemma getFilteredTodos_pending (s : State) :
  getFilteredTodos (Some "pending") s
  = filter (λ todo, Todo.completed todo = false) (todos s).
Proof. reflexivity. Qed.

Lemma countTrue_completed (l : list Todo.t) :
  countTrue (Todo.completed <$> l)
  = Z.of_nat (length (filter (λ todo, Todo.completed todo = true) l)).
Proof.
  induction l as [|todo l IH]; [reflexivity|].
  cbn [fmap list_fmap countTrue]. rewrite IH.
  destruct (Todo.completed todo) eqn:E.
  - rewrite filter_cons_True by done. cbn [length]. lia.
  - rewrite filter_cons_False by congruence. lia.
Qed.

Lemma find_none_ids (k : string) (l : list Todo.t) :
  find (λ todo, bool_decide (Todo.id todo = k)) l = None ↔ k ∉ ids l.
Proof.
  unfold ids. induction l as [|todo l IH]; cbn [find fmap list_fmap].
  - split; [intros _; apply not_elem_of_nil|done].
  - rewrite not_elem_of_cons. case_bool_decide as E.
    + split; [done|]. intros [? _]. congruence.
    + rewrite IH. split; [intros ?; split; congruence|intros [_ ?]; done].
Qed.

Lemma find_head_match (k : string) (todo : Todo.t) (l : list Todo.t) :
  Todo.id todo = k →
  find (λ t, bool_decide (Todo.id t = k)) (todo :: l) = Some todo.
Proof. intros H. cbn [find]. by rewrite bool_decide_eq_true_2. Qed.

Lemma find_removeById (k k' : string) (l : list Todo.t) :
  find (λ t, bool_decide (Todo.id t = k')) (removeById k l)
  = if decide (k' = k) then None
    else find (λ t, bool_decide (Todo.id t = k')) l.
Proof.
  unfold removeById. induction l as [|todo l IH].
  - by destruct (decide (k' = k)).
  - destruct (decide (Todo.id todo ≠ k)) as [Hne|Heq].
    + rewrite filter_cons_True by done. cbn [find].
      case_bool_decide as E.
      * destruct (decide (k' = k)); [congruence|done].
      * exact IH.
    + rewrite filter_cons_False by done. rewrite IH.
      destruct (decide (k' = k)); [done|]. cbn [find].
      apply dec_stable in Heq.
      rewrite bool_decide_eq_false_2 by congruence. done.
Qed.

Lemma find_replaceById (k k' : string) (new : Todo.t) (l : list Todo.t) :
  Todo.id new = k →
  find (λ t, bool_decide (Todo.id t = k')) (replaceById k new l)
  = if decide (k' = k) then
      (if decide (k ∈ ids l) then Some new else None)
    else find (λ t, bool_decide (Todo.id t = k')) l.
Proof.
  intros Hnew. unfold replaceById, ids. induction l as [|todo l IH].
  - cbn [fmap list_fmap find]. destruct (decide (k' = k)); [|done].
    destruct (decide (k ∈ [])) as [H|H]; [by apply elem_of_nil in H|done].
  - cbn [fmap list_fmap find].
    destruct (decide (Todo.id todo = k)) as [Heq|Hne].
    + destruct (decide (k' = k)) as [->|Hk].
      * rewrite bool_decide_eq_true_2 by done.
        rewrite decide_True; [done|]. rewrite Heq. apply list_elem_of_here.
      * rewrite !bool_decide_eq_false_2 by congruence.
        by rewrite IH.
    + destruct (decide (k' = k)) as [->|Hk].
      * rewrite bool_decide_eq_false_2 by done. rewrite IH.
        destruct (decide (k ∈ Todo.id <$> l)) as [Hin|Hnin].
        -- rewrite decide_True; [done|]. by apply list_elem_of_further.
        -- rewrite decide_False; [done|]. rewrite not_elem_of_cons. done.
      * case_bool_decide; [done|]. by rewrite IH.
Qed.

End Reads.

(** X1: the 'completed' and 'pending' views of getFilteredTodos split
    the collection: each task is in exactly one of them, together they
    are a rearrangement of the collection; any other filter name, or
    none, gives the whole collection. *)
Theorem X1_filters_partition (s : State) (name : string) :
  let done_ := getFilteredTodos (Some "completed") s in
  let open_ := getFilteredTodos (Some "pending") s in
  (length done_ + length open_ = length (todos s))%nat
  ∧ done_ ++ open_ ≡ₚ todos s
  ∧ (∀ todo, todo ∈ done_ ↔ todo ∈ todos s ∧ Todo.completed todo = true)
  ∧ (∀ todo, todo ∈ open_ ↔ todo ∈ todos s ∧ Todo.completed todo = false)
  ∧ (name ≠ "completed" → name ≠ "pending" →
     getFilteredTodos (Some name) s = todos s)
  ∧ getFilteredTodos None s = todos s.
Proof.
  cbn zeta. rewrite getFilteredTodos_completed, getFilteredTodos_pending.
  assert (Hperm :
    filter (λ todo, Todo.completed todo = true) (todos s)
    ++ filter (λ todo, Todo.completed todo = false) (todos s) ≡ₚ todos s).
  { rewrite filter_not_completed. apply filter_app_complement. }
  split; [|split; [exact Hperm|]].
  - rewrite <- length_app. by rewrite Hperm.
  - split; [|split; [|split]].
    + intros todo. rewrite list_elem_of_filter. tauto.
    + intros todo. rewrite list_elem_of_filter. tauto.
    + intros H1 H2. unfold getFilteredTodos.
      change (default "all" (Some name)) with name. cbv zeta.
      destruct (String.eqb_spec name "completed"); [done|].
      destruct (String.eqb_spec name "pending"); done.
    + reflexivity.
Qed.

Lemma X1_filters_partition_witness :
  let s :=
    with_todos [sampleTodo "a1" "Buy milk" true;
                sampleTodo "b2" "Call home" false] initial in
  getFilteredTodos (Some "archived") s = todos s.
Proof.
  cbn zeta.
  apply (X1_filters_partition
           (with_todos [sampleTodo "a1" "Buy milk" true;
                        sampleTodo "b2" "Call home" false] initial)
           "archived"); discriminate.
Defined.

(** X2: the sizes of the 'completed' and 'pending' views are the
    completed and pending counts of the collection's aggregate
    statistics, and they add up to its total. *)
Theorem X2_filtered_counts_match_aggregate (s : State) :
  Z.of_nat (length (getFilteredTodos (Some "completed") s))
  = Stats.completed (aggregate (todos s))
  ∧ Z.of_nat (length (getFilteredTodos (Some "pending") s))
    = Stats.pending (aggregate (todos s))
  ∧ Z.of_nat (length (getFilteredTodos (Some "all") s))
    = Stats.total (aggregate (todos s)).
Proof.
  unfold aggregate. rewrite computeStats_unfold.
  cbn [Stats.completed Stats.pending Stats.total].
  rewrite length_fmap, countTrue_completed.
  rewrite getFilteredTodos_completed, getFilteredTodos_pending.
  pose proof (filter_app_complement (λ todo, Todo.completed todo = true) (todos s))
    as Hperm.
  apply Permutation_length in Hperm. rewrite length_app in Hperm.
  rewrite filter_not_completed.
  split; [reflexivity|]. split; [lia|reflexivity].
Qed.

(** X3: getTodoById answers null exactly when no entry has the id;
    otherwise it answers the first entry of the collection with that
    id. *)
Theorem X3_getTodoById_first_match (k : string) (s : State) :
  (getTodoById k s = None ↔ k ∉ ids (todos s))
  ∧ (∀ todo, getTodoById k s = Some todo →
       Todo.id todo = k
       ∧ ∃ i, todos s !! i = Some todo
              ∧ ∀ j other, (j < i)%nat → todos s !! j = Some other →
                  Todo.id other ≠ k).
Proof.
  unfold getTodoById. split; [apply find_none_ids|].
  induction (todos s) as [|first l IH]; intros todo; cbn [find]; [done|].
  case_bool_decide as E.
  - intros [= <-]. split; [done|]. exists 0%nat. split; [done|]. intros; lia.
  - intros Hfind. destruct (IH todo Hfind) as (Hid & i & Hi & Hbefore).
    split; [done|]. exists (S i). split; [done|].
    intros [|j] other Hj Hother; cbn in Hother.
    + congruence.
    + apply (Hbefore j); [lia|done].
Qed.

Lemma X3_getTodoById_first_match_witness :
  let s :=
    with_todos [sampleTodo "a1" "Buy milk" true;
                sampleTodo "b2" "Call home" false;
                sampleTodo "b2" "Call home again" true] initial in
  getTodoById "b2" s = Some (sampleTodo "b2" "Call home" false)
  ∧ ∃ i, todos s !! i = Some (sampleTodo "b2" "Call home" false).
Proof.
  cbn zeta. split; [reflexivity|].
  destruct (X3_getTodoById_first_match "b2"
              (with_todos [sampleTodo "a1" "Buy milk" true;
                           sampleTodo "b2" "Call home" false;
                           sampleTodo "b2" "Call home again" true] initial))
    as [_ H].
  destruct (H (sampleTodo "b2" "Call home" false) eq_refl) as (_ & i & Hi & _).
  exists i. exact Hi.
Defined.

(** X4: a task that createTodo returned, or that a realtime INSERT
    delivered, is at the head of the collection afterwards, and
    getTodoById finds it under its id (also when an older entry has the
    same id). *)
Theorem X4_created_task_is_found (s : State) (title : jsstring)
    (description : option jsstring) (auth : AuthReply) (ins : Todo.t + string)
    (statsr : Reply.t (list bool)) (row : Todo.t) :
  ((todoService.createTodo title (Some (default [] description)) auth ins).2
   = Ok row →
   let s' := step s (CreateTodo title description auth ins statsr) in
   todos s' = row :: todos s ∧ getTodoById (Todo.id row) s' = Some row)
  ∧ (let s' := step s (Realtime (INSERT row) statsr) in
     todos s' = row :: todos s ∧ getTodoById (Todo.id row) s' = Some row).
Proof.
  cbn zeta. unfold getTodoById. cbn [step]. split.
  - intros H. rewrite todos_createTodo, H. split; [done|].
    by apply find_head_match.
  - rewrite todos_onPayload. split; [done|]. by apply find_head_match.
Qed.

Lemma X4_created_task_is_found_witness :
  let old := sampleTodo "a1" "Buy milk" false in
  let row := sampleTodo "b2" "Call home" false in
  let auth := mkAuthReply (Some (mkUser "u1")) None in
  getTodoById "b2"
    (step (with_todos [old] initial)
       (CreateTodo (lit "Call home") None auth (inl row) (rowsOk [false; false])))
  = Some row.
Proof.
  cbn zeta.
  destruct (X4_created_task_is_found
              (with_todos [sampleTodo "a1" "Buy milk" false] initial)
              (lit "Call home") None (mkAuthReply (Some (mkUser "u1")) None)
              (inl (sampleTodo "b2" "Call home" false))
              (rowsOk [false; false]) (sampleTodo "b2" "Call home" false))
    as [H _].
  destruct H as [_ H]; [reflexivity|exact H].
Defined.

(** X5: after a successful deleteTodo, or a realtime DELETE, no entry
    with that id is left (however many there were), getTodoById answers
    null for it, and the lookup of every other id is as before. *)
Theorem X5_deleted_task_is_gone (s : State) (k : string) (del : option string)
    (statsr : Reply.t (list bool)) :
  let gone (s' : State) :=
    (k ∉ ids (todos s'))
    ∧ getTodoById k s' = None
    ∧ (length (todos s') ≤ length (todos s))%nat
    ∧ ∀ k', k' ≠ k → getTodoById k' s' = getTodoById k' s in
  gone (step s (Realtime (DELETE k) statsr))
  ∧ ((todoService.deleteTodo k del).2 = Ok tt →
     gone (step s (DeleteTodo k del statsr))).
Proof.
  cbn zeta. cbn [step].
  assert (Hgone : ∀ s', todos s' = removeById k (todos s) →
    (k ∉ ids (todos s')) ∧ getTodoById k s' = None
    ∧ (length (todos s') ≤ length (todos s))%nat
    ∧ ∀ k', k' ≠ k → getTodoById k' s' = getTodoById k' s).
  { intros s' Hs'. unfold getTodoById. rewrite Hs'.
    assert (Hnone : find (λ t, bool_decide (Todo.id t = k)) (removeById k (todos s))
                    = None).
    { rewrite find_removeById. by rewrite decide_True. }
    split; [by apply find_none_ids|]. split; [done|]. split.
    - unfold removeById. apply length_filter.
    - intros k' Hk'. rewrite find_removeById. by rewrite decide_False. }
  split.
  - apply Hgone. by rewrite todos_onPayload.
  - intros H. apply Hgone. by rewrite todos_deleteTodo, H.
Qed.

Lemma X5_deleted_task_is_gone_witness :
  let s :=
    with_todos [sampleTodo "a1" "Buy milk" true;
                sampleTodo "b2" "Call home" false] initial in
  getTodoById "a1" (step s (DeleteTodo "a1" None (rowsOk [false]))) = None
  ∧ getTodoById "b2" (step s (DeleteTodo "a1" None (rowsOk [false])))
    = getTodoById "b2" s.
Proof.
  cbn zeta.
  destruct (X5_deleted_task_is_gone
              (with_todos [sampleTodo "a1" "Buy milk" true;
                           sampleTodo "b2" "Call home" false] initial)
              "a1" None (rowsOk [false])) as [_ H].
  destruct H as (_ & Hnone & _ & Hother); [reflexivity|].
  split; [exact Hnone|]. apply Hother. discriminate.
Defined.

Section MoreReads.

Lemma removeById_idem (k : string) (l : list Todo.t) :
  removeById k (removeById k l) = removeById k l.
Proof.
  apply removeById_absent. intros Hin.
  unfold ids in Hin. apply list_elem_of_fmap in Hin as (todo & -> & Hin).
  unfold removeById in Hin. apply list_elem_of_filter in Hin as [Hne _]. done.
Qed.

Lemma todos_step_delete (s : State) (k : string) (statsr : Reply.t (list bool)) :
  k ≠ "" →
  todos (step s (DeleteTodo k None statsr)) = removeById k (todos s)
  ∧ outcome s (DeleteTodo k None statsr) = None.
Proof.
  intros Hk. cbn [step outcome].
  rewrite todos_deleteTodo, result_deleteTodo, service_deleteTodo_resolves by done.
  done.
Qed.

Lemma searchTodos_blank (lower : jsstring → jsstring) (term : jsstring) (s : State) :
  trim term = [] → searchTodos lower term s = Ok (todos s).
Proof.
  intros H. apply emptyTitle_iff in H. unfold searchTodos. by rewrite H.
Qed.

Lemma filterThrowing_Ok {A} (p : A → Result bool) (l found : list A) :
  filterThrowing p l = Ok found →
  sublist found l
  ∧ (∀ x, x ∈ l → ∃ keep, p x = Ok keep)
  ∧ (∀ x, x ∈ found ↔ x ∈ l ∧ p x = Ok true).
Proof.
  revert found. induction l as [|x l IH]; intros found; cbn [filterThrowing].
  - intros [= <-]. split; [done|]. split; [by intros x Hx; apply elem_of_nil in Hx|].
    intros x. rewrite elem_of_nil. tauto.
  - destruct (p x) as [keep|m] eqn:Ex; [|done].
    destruct (filterThrowing p l) as [kept|m]; [|done].
    destruct (IH kept eq_refl) as (Hsub & Hall & Hin). intros [= <-].
    split; [destruct keep; by constructor|]. split.
    + intros y. rewrite elem_of_cons. intros [->|Hy]; [by eauto|by apply Hall].
    + intros y. destruct keep; rewrite ?elem_of_cons, Hin; split.
      * intros [->|[? ?]]; [by split; [left|]|by split; [right|]].
      * intros [[->|?] ?]; [by left|by right].
      * intros [? ?]. by split; [right|].
      * intros [[->|?] ?]; [congruence|done].
Qed.

Lemma filterThrowing_Err {A} (p : A → Result bool) (l : list A) (m : string) :
  filterThrowing p l = Err m → ∃ x, x ∈ l ∧ p x = Err m.
Proof.
  induction l as [|x l IH]; cbn [filterThrowing]; [done|].
  destruct (p x) as [keep|m'] eqn:Ex.
  - destruct (filterThrowing p l) as [kept|m']; [done|].
    intros [= <-]. destruct (IH eq_refl) as (y & Hy & Hp).
    exists y. split; [by apply list_elem_of_further|done].
  - intros [= <-]. exists x. split; [apply list_elem_of_here|done].
Qed.

End MoreReads.

(** X6: deleting is idempotent.  A second deleteTodo of the same id
    (the store answering without error), or a local delete racing a
    realtime DELETE in either order, resolves and leaves the collection
    as the first removal left it. *)
Theorem X6_delete_is_idempotent (s : State) (k : string)
    (r1 r2 : Reply.t (list bool)) :
  k ≠ "" →
  let once := todos (step s (DeleteTodo k None r1)) in
  once = removeById k (todos s)
  ∧ todos (run s [DeleteTodo k None r1; DeleteTodo k None r2]) = once
  ∧ todos (run s [Realtime (DELETE k) r1; DeleteTodo k None r2]) = once
  ∧ todos (run s [DeleteTodo k None r1; Realtime (DELETE k) r2]) = once
  ∧ outcome (step s (DeleteTodo k None r1)) (DeleteTodo k None r2) = None
  ∧ outcome (step s (Realtime (DELETE k) r1)) (DeleteTodo k None r2) = None.
Proof.
  intros Hk. cbn zeta. cbn [run foldl].
  repeat match goal with
  | |- context [todos (step ?s0 (DeleteTodo k None ?r))] =>
      rewrite (proj1 (todos_step_delete s0 k r Hk))
  | |- context [outcome ?s0 (DeleteTodo k None ?r)] =>
      rewrite (proj2 (todos_step_delete s0 k r Hk))
  end.
  cbn [step]. rewrite !todos_onPayload.
  repeat match goal with
  | |- context [todos (step ?s0 (DeleteTodo k None ?r))] =>
      rewrite (proj1 (todos_step_delete s0 k r Hk))
  end.
  rewrite ?todos_onPayload, ?todos_deleteTodo.
  rewrite ?service_deleteTodo_resolves by done. cbn [snd].
  rewrite !removeById_idem. done.
Qed.

Lemma X6_delete_is_idempotent_witness :
  let s :=
    with_todos [sampleTodo "a1" "Buy milk" true;
                sampleTodo "b2" "Call home" false] initial in
  todos (run s [DeleteTodo "a1" None (rowsOk [false]);
                DeleteTodo "a1" None (rowsOk [false])])
  = [sampleTodo "b2" "Call home" false].
Proof.
  cbn zeta.
  destruct (X6_delete_is_idempotent
              (with_todos [sampleTodo "a1" "Buy milk" true;
                           sampleTodo "b2" "Call home" false] initial)
              "a1" (rowsOk [false]) (rowsOk [false])) as (H1 & H2 & _);
    [discriminate|].
  rewrite H2, H1. reflexivity.
Defined.

(** X7: after a realtime UPDATE, getTodoById under the task's id
    answers the delivered task when the collection had that id, and
    still null when it had not; the lookup of every other id is as
    before. *)
Theorem X7_updated_task_is_found (s : State) (new : Todo.t)
    (statsr : Reply.t (list bool)) :
  let s' := step s (Realtime (UPDATE new) statsr) in
  (Todo.id new ∈ ids (todos s) → getTodoById (Todo.id new) s' = Some new)
  ∧ (Todo.id new ∉ ids (todos s) → getTodoById (Todo.id new) s' = None)
  ∧ (∀ k, k ≠ Todo.id new → getTodoById k s' = getTodoById k s)
  ∧ ids (todos s') = ids (todos s).
Proof.
  cbn zeta. cbn [step]. unfold getTodoById. rewrite todos_onPayload.
  split; [|split; [|split]].
  - intros Hin. rewrite find_replaceById by done.
    rewrite decide_True by done. by rewrite decide_True.
  - intros Hnin. rewrite find_replaceById by done.
    rewrite decide_True by done. by rewrite decide_False.
  - intros k Hk. rewrite find_replaceById by done. by rewrite decide_False.
  - by apply ids_replaceById.
Qed.

Lemma X7_updated_task_is_found_witness :
  let s :=
    with_todos [sampleTodo "a1" "Buy milk" true;
                sampleTodo "b2" "Call home" false] initial in
  let new := sampleTodo "b2" "Call home" true in
  getTodoById "b2" (step s (Realtime (UPDATE new) (rowsOk [true; true])))
  = Some new.
Proof.
  cbn zeta.
  destruct (X7_updated_task_is_found
              (with_todos [sampleTodo "a1" "Buy milk" true;
                           sampleTodo "b2" "Call home" false] initial)
              (sampleTodo "b2" "Call home" true) (rowsOk [true; true]))
    as [H _].
  apply H. vm_compute. apply list_elem_of_further, list_elem_of_here.
Defined.

(** X8: searchTodos with an empty or blank term answers the whole
    collection, without looking at any task.  With another term it
    looks at the tasks in order: it answers the entries whose
    lower-cased title or description contains the term, in their
    order, and throws a TypeError at the first task whose title does
    not contain the term while its description is null.  In TaskList,
    a non-blank search term replaces the status filter instead of
    refining it: what is displayed is the search over the whole
    collection, whatever the filter. *)
Theorem X8_search_overrides_filter (toLowerCase : jsstring → jsstring)
    (filterName : string) (searchTerm : jsstring) (s : State) :
  let term := trim (toLowerCase searchTerm) in
  let thrown := "Cannot read properties of null (reading 'toLowerCase')" in
  (trim searchTerm = [] →
     searchTodos toLowerCase searchTerm s = Ok (todos s)
     ∧ TaskList.getDisplayedTodos toLowerCase filterName searchTerm s
       = Ok (getFilteredTodos (Some filterName) s))
  ∧ (trim searchTerm ≠ [] →
     TaskList.getDisplayedTodos toLowerCase filterName searchTerm s
     = searchTodos toLowerCase searchTerm s
     ∧ (∀ found, searchTodos toLowerCase searchTerm s = Ok found →
          sublist found (todos s)
          ∧ ∀ todo, todo ∈ found ↔
              todo ∈ todos s
              ∧ (includes (toLowerCase (Todo.title todo)) term = true
                 ∨ ∃ d, Todo.description todo = Some d
                        ∧ includes (toLowerCase d) term = true))
     ∧ ((∃ todo, todo ∈ todos s ∧ Todo.description todo = None
                 ∧ includes (toLowerCase (Todo.title todo)) term = false) ↔
        searchTodos toLowerCase searchTerm s = Err thrown)).
Proof.
  cbn zeta. split.
  - intros H. split; [by apply searchTodos_blank|].
    unfold TaskList.getDisplayedTodos. rewrite H. reflexivity.
  - intros Hne.
    assert (Hshown : TaskList.getDisplayedTodos toLowerCase filterName searchTerm s
                     = searchTodos toLowerCase searchTerm s).
    { unfold TaskList.getDisplayedTodos.
      destruct (falsy (trim searchTerm)) eqn:E; [|reflexivity].
      apply falsy_nil in E. congruence. }
    split; [exact Hshown|]. unfold searchTodos.
    destruct (falsy searchTerm || (length (trim searchTerm) =? 0)%nat) eqn:E.
    { apply emptyTitle_iff in E. congruence. }
    cbn zeta. split.
    + intros found Hfound. apply filterThrowing_Ok in Hfound as (Hsub & _ & Hin).
      split; [exact Hsub|]. intros todo. rewrite Hin. unfold matchesTerm.
      destruct (includes (toLowerCase (Todo.title todo)) _) eqn:Et.
      * split; intros [? _]; split; eauto.
      * destruct (Todo.description todo) as [d|].
        -- split.
           ++ intros [? [= Hd]]. split; [done|]. right. by eauto.
           ++ intros [? [?|(d' & [= <-] & Hd)]]; [done|]. split; [done|].
              by rewrite Hd.
        -- split; [intros [? ?]; done|].
           intros [? [?|(d' & ? & _)]]; done.
    + split.
      * intros (todo & Hin & Hd & Ht).
        assert (Hall : ∀ x m,
                  matchesTerm toLowerCase (trim (toLowerCase searchTerm)) x = Err m →
                  m = "Cannot read properties of null (reading 'toLowerCase')").
        { intros x m. unfold matchesTerm.
          destruct (includes (toLowerCase (Todo.title x)) _);
            [intros H; discriminate H|].
          destruct (Todo.description x); [intros H; discriminate H|].
          by intros [= <-]. }
        destruct (filterThrowing _ (todos s)) as [found|m] eqn:Ef.
        -- apply filterThrowing_Ok in Ef as (_ & Hok & _).
           destruct (Hok todo Hin) as [keep Hkeep]. unfold matchesTerm in Hkeep.
           by rewrite Ht, Hd in Hkeep.
        -- apply filterThrowing_Err in Ef as (x & _ & Hx).
           by rewrite (Hall x m Hx).
      * intros Herr. apply filterThrowing_Err in Herr as (x & Hx & Hp).
        exists x. split; [done|]. unfold matchesTerm in Hp.
        destruct (includes (toLowerCase (Todo.title x)) _); [done|].
        by destruct (Todo.description x).
Qed.

Lemma X8_search_overrides_filter_witness :
  let s :=
    with_todos [sampleTodo "a1" "Buy Milk" true;
                sampleTodo "b2" "Call home" false] initial in
  TaskList.getDisplayedTodos asciiToLower "pending" (lit " milk ") s
  = Ok [sampleTodo "a1" "Buy Milk" true]
  ∧ TaskList.getDisplayedTodos asciiToLower "pending" (lit "  ") s
    = Ok [sampleTodo "b2" "Call home" false].
Proof.
  cbn zeta.
  destruct (X8_search_overrides_filter asciiToLower "pending" (lit " milk ")
              (with_todos [sampleTodo "a1" "Buy Milk" true;
                           sampleTodo "b2" "Call home" false] initial))
    as [_ Hsearch].
  destruct Hsearch as [Heq _]; [discriminate|].
  destruct (X8_search_overrides_filter asciiToLower "pending" (lit "  ")
              (with_todos [sampleTodo "a1" "Buy Milk" true;
                           sampleTodo "b2" "Call home" false] initial))
    as [Hblank _].
  destruct Hblank as [_ Hb]; [reflexivity|].
  rewrite Heq, Hb. split; reflexivity.
Defined.

(** *** Loading, errors and the subscription *)

Section Lifecycle.

Ltac break_match :=
  match goal with
  | |- context [match ?x with _ => _ end] => destruct x eqn:?
  end.

Ltac unfold_store :=
  unfold fetchTodos, createTodo, updateTodo, deleteTodo, toggleTodo, onPayload,
    updateStats, failed, todoService.getTodos, todoService.getTodoStats.

Lemma flags_step (s : State) (op : Op) :
  channel (step s op) = channel s
  ∧ realtimeEnabled (step s op) = realtimeEnabled s
  ∧ (isRealtime op = true →
     loading (step s op) = loading s ∧ error (step s op) = error s)
  ∧ (isRealtime op = false →
     loading (step s op) = false ∧ error (step s op) = outcome s op).
Proof.
  destruct op as [listr statsr|title description auth ins statsr
    |k updates upd statsr|k completed upd statsr|k del statsr|payload statsr];
    cbn [step outcome isRealtime]; unfold_store.
  - destruct (Reply.error listr), (Reply.error statsr); done.
  - destruct (todoService.createTodo _ _ _ _) as [fx [row|m]];
      destruct (Reply.error statsr); done.
  - destruct (todoService.updateTodo _ _ _) as [fx [row|m]];
      destruct (Reply.error statsr); done.
  - unfold updateTodo; unfold_store.
    destruct (todoService.updateTodo _ _ _) as [fx [row|m]];
      destruct (Reply.error statsr); done.
  - destruct (todoService.deleteTodo _ _) as [fx [[]|m]];
      destruct (Reply.error statsr); done.
  - destruct payload; destruct (Reply.error statsr); done.
Qed.

Lemma channel_run (ops : list Op) (s : State) :
  channel (run s ops) = channel s
  ∧ realtimeEnabled (run s ops) = realtimeEnabled s.
Proof.
  revert s. induction ops as [|op ops IH]; intros s; [done|].
  change (run s (op :: ops)) with (run (step s op) ops).
  destruct (IH (step s op)) as [-> ->].
  destruct (flags_step s op) as (-> & -> & _). done.
Qed.

Lemma gateway_message_nonempty (op : Op) (m : string) :
  gatewayThrows op m → m ≠ "".
Proof.
  destruct op as [listr statsr|title description auth ins statsr
    |k updates upd statsr|k completed upd statsr|k del statsr|payload statsr];
    cbn [gatewayThrows]; try done;
    unfold todoService.createTodo, todoService.updateTodo,
      todoService.deleteTodo;
    repeat break_match; cbn [snd]; intros [= <-]; discriminate.
Qed.

Lemma messageOr_nonempty (m fallback : string) :
  m ≠ "" → messageOr m fallback = m.
Proof.
  intros H. unfold messageOr. destruct (String.eqb_spec m ""); [done|reflexivity].
Qed.

End Lifecycle.

(** X9: fetchTodos replaces the collection and the statistics together
    or not at all.  When both fetches succeed, todos is the fetched
    list (empty for null data) and stats the aggregate of the fetched
    flags; when either fails, also the statistics fetch after a
    successful list fetch, todos and stats are what they were and the
    error is stored. *)
Theorem X9_fetch_is_all_or_nothing (listr : Reply.t (list Todo.t))
    (statsr : Reply.t (list bool)) (s : State) :
  let '(s', fx, r) := fetchTodos listr statsr s in
  loading s' = false
  ∧ channel s' = channel s
  ∧ (Reply.error listr = None → Reply.error statsr = None →
     r = Ok (default [] (Reply.data listr))
     ∧ todos s' = default [] (Reply.data listr)
     ∧ stats s' = todoService.computeStats (default [] (Reply.data statsr))
     ∧ error s' = None)
  ∧ (∀ m, Reply.error listr = Some m →
     r = Err ("Error al cargar tareas: " +:+ m)
     ∧ fx = [Store SelectAll]
     ∧ todos s' = todos s ∧ stats s' = stats s
     ∧ error s' = Some ("Error al cargar tareas: " +:+ m))
  ∧ (∀ m, Reply.error listr = None → Reply.error statsr = Some m →
     r = Err ("Error al obtener estadísticas: " +:+ m)
     ∧ fx = [Store SelectAll; Store SelectCompleted]
     ∧ todos s' = todos s ∧ stats s' = stats s
     ∧ error s' = Some ("Error al obtener estadísticas: " +:+ m)).
Proof.
  unfold fetchTodos, todoService.getTodos, todoService.getTodoStats.
  destruct (Reply.error listr) as [m1|], (Reply.error statsr) as [m2|];
    cbn; repeat split; try done; intros; simplify_eq; done.
Qed.

Lemma X9_fetch_is_all_or_nothing_witness :
  let a := sampleTodo "a1" "Buy milk" false in
  let b := sampleTodo "b2" "Call home" true in
  let s := with_stats (aggregate [a]) (with_todos [a] initial) in
  let s' :=
    (fetchTodos (Reply.mk (Some [b; a]) None)
       (Reply.mk None (Some "Failed to fetch")) s).1.1 in
  todos s' = [a] ∧ stats s' = aggregate [a]
  ∧ error s' = Some "Error al obtener estadísticas: Failed to fetch".
Proof.
  cbn zeta.
  pose proof (X9_fetch_is_all_or_nothing
                (Reply.mk (Some [sampleTodo "b2" "Call home" true;
                                 sampleTodo "a1" "Buy milk" false]) None)
                (Reply.mk None (Some "Failed to fetch"))
                (with_stats (aggregate [sampleTodo "a1" "Buy milk" false])
                   (with_todos [sampleTodo "a1" "Buy milk" false] initial)))
    as H.
  destruct (fetchTodos _ _ _) as [[s' fx] r].
  destruct H as (_ & _ & _ & _ & H).
  destruct (H "Failed to fetch" eq_refl eq_refl) as (_ & _ & Ht & Hs & He).
  cbn [fst]. rewrite Ht, Hs, He. repeat split.
Defined.

(** X10: when an operation a user started (fetchTodos, createTodo,
    updateTodo, toggleTodo, deleteTodo) runs from its start to its
    completion with no other operation of the store overlapping it,
    then at its completion loading is false and the error field holds
    exactly the message the operation rejected with, null when it
    resolved: an error of an earlier operation does not survive a later
    one. *)
Theorem X10_loading_and_error_after_completion (s : State) (op : Op) :
  isRealtime op = false →
  loading (step s op) = false ∧ error (step s op) = outcome s op.
Proof. intros H. by apply flags_step. Qed.

Lemma X10_loading_and_error_after_completion_witness :
  let s := with_error (Some "Error al eliminar tarea: Failed to fetch") initial in
  let op := DeleteTodo "a1" None (rowsOk []) in
  loading (step s op) = false ∧ error (step s op) = None.
Proof.
  cbn zeta.
  apply (X10_loading_and_error_after_completion
           (with_error (Some "Error al eliminar tarea: Failed to fetch") initial)
           (DeleteTodo "a1" None (rowsOk []))).
  reflexivity.
Defined.

(** X11: no operation on tasks and no realtime event touches the
    subscription: channel and realtimeEnabled are the same after any
    sequence of them.  A realtime event changes neither loading nor
    error, also when its statistics refetch fails. *)
Theorem X11_operations_keep_the_subscription (s : State) (ops : list Op)
    (payload : Payload) (statsr : Reply.t (list bool)) :
  channel (run s ops) = channel s
  ∧ realtimeEnabled (run s ops) = realtimeEnabled s
  ∧ loading (step s (Realtime payload statsr)) = loading s
  ∧ error (step s (Realtime payload statsr)) = error s.
Proof.
  destruct (channel_run ops s) as [-> ->].
  destruct (flags_step s (Realtime payload statsr)) as (_ & _ & H & _).
  destruct (H eq_refl) as [-> ->]. done.
Qed.

(** X12: a mutation (createTodo, updateTodo, toggleTodo, deleteTodo)
    issues the requests of its Gateway call and then, when it resolved,
    exactly one statistics refetch and one success toast; when it
    rejected, no refetch and one error toast, whose text is the
    Gateway's message itself: that message is never empty, so the
    fallback text of the toast is never shown. *)
Theorem X12_effects_of_a_mutation (s : State) (op : Op) :
  isMutation op = true →
  (outcome s op = None →
     effects s op
     = gatewayEffects op ++ [Store SelectCompleted; ToastSuccess (successToast op)])
  ∧ (∀ m, outcome s op = Some m →
       m ≠ ""
       ∧ effects s op = gatewayEffects op ++ [ToastError m]).
Proof.
  intros Hmut.
  assert (Hfail : ∀ m, gatewayThrows op m → messageOr m = λ _, m).
  { intros m Hm. apply gateway_message_nonempty in Hm.
    unfold messageOr. destruct (String.eqb_spec m ""); done. }
  destruct op as [listr statsr|title description auth ins statsr
    |k updates upd statsr|k completed upd statsr|k del statsr|payload statsr];
    try discriminate; cbn [outcome effects gatewayEffects successToast gatewayThrows] in *.
  - rewrite result_createTodo. unfold createTodo, updateStats, failed,
      todoService.getTodoStats.
    destruct (todoService.createTodo _ _ _ _) as [fx [row|m]] eqn:E;
      cbn [fst snd rejection] in *.
    + split; [|done]. intros _. destruct (Reply.error statsr); reflexivity.
    + split; [done|]. intros ? [= <-].
      split; [|by rewrite (Hfail m eq_refl)].
      apply (gateway_message_nonempty
               (CreateTodo title description auth ins statsr)).
      cbn [gatewayThrows]. by rewrite E.
  - rewrite result_updateTodo. unfold updateTodo, updateStats, failed,
      todoService.getTodoStats.
    destruct (todoService.updateTodo _ _ _) as [fx [row|m]] eqn:E;
      cbn [fst snd rejection] in *.
    + split; [|done]. intros _. destruct (Reply.error statsr); reflexivity.
    + split; [done|]. intros ? [= <-].
      split; [|by rewrite (Hfail m eq_refl)].
      apply (gateway_message_nonempty (UpdateTodo k updates upd statsr)).
      cbn [gatewayThrows]. by rewrite E.
  - unfold toggleTodo. rewrite result_updateTodo. unfold updateTodo, updateStats,
      failed, todoService.getTodoStats.
    destruct (todoService.updateTodo _ _ _) as [fx [row|m]] eqn:E;
      cbn [fst snd rejection] in *.
    + split; [|done]. intros _. destruct (Reply.error statsr); reflexivity.
    + split; [done|]. intros ? [= <-].
      split; [|by rewrite (Hfail m eq_refl)].
      apply (gateway_message_nonempty (ToggleTodo k completed upd statsr)).
      cbn [gatewayThrows]. by rewrite E.
  - rewrite result_deleteTodo. unfold deleteTodo, updateStats, failed,
      todoService.getTodoStats.
    destruct (todoService.deleteTodo _ _) as [fx [[]|m]] eqn:E;
      cbn [fst snd rejection] in *.
    + split; [|done]. intros _. destruct (Reply.error statsr); reflexivity.
    + split; [done|]. intros ? [= <-].
      split; [|by rewrite (Hfail m eq_refl)].
      apply (gateway_message_nonempty (DeleteTodo k del statsr)).
      cbn [gatewayThrows]. by rewrite E.
Qed.

Lemma X12_effects_of_a_mutation_witness :
  let s := with_todos [sampleTodo "a1" "Buy milk" false] initial in
  effects s (DeleteTodo "a1" (Some "") (rowsOk []))
  = [Store (DeleteRow "a1" None); ToastError "Error al eliminar tarea: "]
  ∧ effects s (DeleteTodo "a1" None (rowsOk []))
    = [Store (DeleteRow "a1" None); Store SelectCompleted;
       ToastSuccess "Tarea eliminada"].
Proof.
  cbn zeta.
  destruct (X12_effects_of_a_mutation
              (with_todos [sampleTodo "a1" "Buy milk" false] initial)
              (DeleteTodo "a1" (Some "") (rowsOk [])) eq_refl) as [_ Hf].
  destruct (Hf "Error al eliminar tarea: " eq_refl) as [_ Hfx].
  destruct (X12_effects_of_a_mutation
              (with_todos [sampleTodo "a1" "Buy milk" false] initial)
              (DeleteTodo "a1" None (rowsOk [])) eq_refl) as [Hs _].
  split; [exact Hfx|exact (Hs eq_refl)].
Defined.

(** X13: subscribing and then calling the returned function is a round
    trip: from a state without a channel the state is exactly restored,
    with one subscribe and one unsubscribe on the channel.  The
    subscription outlives every sequence of task operations and
    realtime events in between, and reset, which returns the store to
    its initial state, releases it once; a store that was reset can be
    subscribed again. *)
Theorem X13_subscription_round_trip (settled settled' : value) (s : State)
    (ops : list Op) :
  channel s = None → realtimeEnabled s = false →
  let '(s1, fx1, cleanup) := subscribeToRealtime settled s in
  unsubscribes fx1 = 0%nat
  ∧ runCleanup cleanup s1 = (s, [ChannelUnsubscribe "todos-changes"])
  ∧ channel (run s1 ops) = channel s1
  ∧ channel (runCleanup cleanup (run s1 ops)).1 = None
  ∧ todos (runCleanup cleanup (run s1 ops)).1 = todos (run s1 ops)
  ∧ reset (run s1 ops) = (initial, [ChannelUnsubscribe "todos-changes"])
  ∧ reset (reset (run s1 ops)).1 = (initial, [])
  ∧ is_Some (channel (subscribeToRealtime settled' (reset (run s1 ops)).1).1.1).
Proof.
  intros Hch Hre. unfold subscribeToRealtime. rewrite Hch.
  split; [reflexivity|]. split.
  - destruct s as [t l e r c st]. cbn in *. subst. reflexivity.
  - destruct (channel_run ops
                (with_realtimeEnabled true
                   (with_channel
                      (Some {| ch_name := "todos-changes";
                               ch_filter := realtimeFilter (getUserCall settled) |})
                      s))) as [Hc _].
    split; [exact Hc|]. split; [reflexivity|]. split; [reflexivity|].
    unfold reset. rewrite Hc. cbn. split; [reflexivity|].
    split; [reflexivity|]. by eexists.
Qed.

Lemma X13_subscription_round_trip_witness :
  let first := subscribeToRealtime VNull initial in
  runCleanup first.2 first.1.1 = (initial, [ChannelUnsubscribe "todos-changes"]).
Proof.
  cbn zeta.
  pose proof (X13_subscription_round_trip VNull VNull initial [] eq_refl eq_refl)
    as H.
  destruct (subscribeToRealtime VNull initial) as [[s1 fx1] cleanup].
  destruct H as (_ & H & _). exact H.
Defined.

(** X14: unsubscribeFromRealtime is guarded by the stored channel, the
    function subscribeToRealtime returns is not.  Both leave the same
    state; but while two calls of unsubscribeFromRealtime release the
    channel once, every call of the returned function calls
    unsubscribe() on the channel again, also after
    unsubscribeFromRealtime or reset already released it. *)
Theorem X14_cleanup_is_not_guarded (settled : value) (s : State) :
  channel s = None →
  let '(s1, _, cleanup) := subscribeToRealtime settled s in
  let twice {A} (f g : State → State * list A) : list A :=
    (f s1).2 ++ (g (f s1).1).2 in
  (unsubscribeFromRealtime s1).1 = (runCleanup cleanup s1).1
  ∧ unsubscribes (twice unsubscribeFromRealtime unsubscribeFromRealtime) = 1%nat
  ∧ unsubscribes (twice (runCleanup cleanup) unsubscribeFromRealtime) = 1%nat
  ∧ unsubscribes (twice (runCleanup cleanup) (runCleanup cleanup)) = 2%nat
  ∧ unsubscribes (twice unsubscribeFromRealtime (runCleanup cleanup)) = 2%nat
  ∧ unsubscribes (twice reset (runCleanup cleanup)) = 2%nat.
Proof.
  intros Hch. unfold subscribeToRealtime. rewrite Hch. cbn. repeat split.
Qed.

Lemma X14_cleanup_is_not_guarded_witness :
  let first := subscribeToRealtime VNull initial in
  let once := runCleanup first.2 first.1.1 in
  unsubscribes (once.2 ++ (runCleanup first.2 once.1).2) = 2%nat.
Proof.
  cbn zeta.
  pose proof (X14_cleanup_is_not_guarded VNull initial eq_refl) as H.
  destruct (subscribeToRealtime VNull initial) as [[s1 fx1] cleanup].
  destruct H as (_ & _ & _ & H & _). exact H.
Defined.

(** *** Trimming, and what the forms hand to the service *)

Section Trim.

Lemma rev_reverse {A} (l : list A) : rev l = reverse l.
Proof. unfold reverse. by rewrite <- rev_alt. Qed.

Lemma last_rev {A} (l : list A) : last (rev l) = head l.
Proof. rewrite rev_reverse. apply last_reverse. Qed.

Lemma head_rev {A} (l : list A) : head (rev l) = last l.
Proof. rewrite rev_reverse. apply head_reverse. Qed.

Lemma trimStart_head (s : jsstring) (c : N) :
  head (trimStart s) = Some c → isWhiteSpace c = false.
Proof.
  induction s as [|a s IH]; cbn [trimStart]; [done|].
  destruct (isWhiteSpace a) eqn:E; [exact IH|]. cbn. congruence.
Qed.

Lemma trimStart_fixed (s : jsstring) :
  (∀ c, head s = Some c → isWhiteSpace c = false) → trimStart s = s.
Proof.
  destruct s as [|a s]; [done|]. intros H. cbn [trimStart].
  by rewrite (H a eq_refl).
Qed.

Lemma trimStart_idem (s : jsstring) : trimStart (trimStart s) = trimStart s.
Proof. apply trimStart_fixed, trimStart_head. Qed.

Lemma trimStart_snoc (l : jsstring) (c : N) :
  isWhiteSpace c = false → ∃ l', trimStart (l ++ [c]) = l' ++ [c].
Proof.
  intros Hc. induction l as [|a l IH]; cbn [app trimStart].
  - rewrite Hc. by exists [].
  - destruct (isWhiteSpace a); [exact IH|]. by exists (a :: l).
Qed.

Lemma trimStart_last (s : jsstring) (c : N) :
  last (trimStart s) = Some c → last s = Some c.
Proof.
  induction s as [|a s IH]; cbn [trimStart]; [done|].
  destruct (isWhiteSpace a); [|done].
  intros H. specialize (IH H). destruct s; [done|]. exact IH.
Qed.

Lemma trimEnd_last (s : jsstring) (c : N) :
  last (trimEnd s) = Some c → isWhiteSpace c = false.
Proof.
  unfold trimEnd. rewrite last_rev. apply trimStart_head.
Qed.

Lemma trimEnd_head (s : jsstring) (c : N) :
  head (trimEnd s) = Some c → head s = Some c.
Proof.
  unfold trimEnd. rewrite head_rev. intros H.
  apply trimStart_last in H. by rewrite last_rev in H.
Qed.

Lemma trimEnd_fixed (s : jsstring) :
  (∀ c, last s = Some c → isWhiteSpace c = false) → trimEnd s = s.
Proof.
  intros H. unfold trimEnd. rewrite trimStart_fixed; [apply rev_involutive|].
  intros c Hc. apply H. by rewrite head_rev in Hc.
Qed.

Lemma trim_trimmed (s : jsstring) : trimmed (trim s).
Proof.
  unfold trimmed, trim. split; intros c Hc.
  - apply trimEnd_head in Hc. by apply trimStart_head in Hc.
  - by apply trimEnd_last in Hc.
Qed.

Lemma trimmed_fixed (s : jsstring) : trimmed s → trim s = s.
Proof.
  intros [Hh Hl]. unfold trim. rewrite (trimStart_fixed s Hh).
  by apply trimEnd_fixed.
Qed.

Lemma trim_idem (s : jsstring) : trim (trim s) = trim s.
Proof. apply trimmed_fixed, trim_trimmed. Qed.

Lemma trimStart_length (s : jsstring) : (length (trimStart s) ≤ length s)%nat.
Proof.
  induction s as [|a s IH]; cbn [trimStart]; [done|].
  destruct (isWhiteSpace a); cbn [length]; lia.
Qed.

Lemma trim_length (s : jsstring) : (length (trim s) ≤ length s)%nat.
Proof.
  unfold trim, trimEnd. rewrite rev_reverse, length_reverse.
  etrans; [apply trimStart_length|].
  rewrite rev_reverse, length_reverse. apply trimStart_length.
Qed.

End Trim.

Section ServiceUpdate.

Lemma service_updateTodo_cases (k : string) (u : Updates) (upd : Reply.t Todo.t) :
  (k = "" ∨ noKeys u = true ∨ (∃ t, u_title u = Some t ∧ trim t = []) →
     (todoService.updateTodo k u upd).1 = []
     ∧ ∃ m, (todoService.updateTodo k u upd).2 = Err m)
  ∧ (k ≠ "" → noKeys u = false → (∀ t, u_title u = Some t → trim t ≠ []) →
     todoService.updateTodo k u upd
     = ([Store (UpdateRow k
                  {| u_title := trim <$> u_title u;
                     u_description := trim <$> u_description u;
                     u_completed := u_completed u; u_others := false |} None)],
        match Reply.error upd, Reply.data upd with
        | Some m, _ => Err ("Error al actualizar tarea: " +:+ m)
        | None, None => Err "Error al actualizar tarea: Tarea no encontrada"
        | None, Some row => Ok row
        end)).
Proof.
  unfold todoService.updateTodo, todoService.cleanUpdates. split.
  - intros H. destruct (String.eqb_spec k ""); [by eauto|].
    destruct (noKeys u) eqn:En; [by eauto|].
    destruct H as [H|[H|(t & Ht & Hblank)]]; [done|done|].
    rewrite Ht. apply emptyTitle_iff in Hblank. rewrite Hblank. by eauto.
  - intros Hk Hn Ht. destruct (String.eqb_spec k ""); [done|]. rewrite Hn.
    destruct (u_title u) as [t|] eqn:E.
    + destruct (falsy t || (length (trim t) =? 0)%nat) eqn:Eb.
      * apply emptyTitle_iff in Eb. by specialize (Ht t eq_refl).
      * cbn [fmap option_fmap option_map].
        destruct (Reply.error upd), (Reply.data upd); reflexivity.
    + cbn [fmap option_fmap option_map].
      destruct (Reply.error upd), (Reply.data upd); reflexivity.
Qed.

End ServiceUpdate.

(** X15: for an update object whose title and description, where
    defined, are strings, the service's updateTodo sends nothing to the
    store and rejects when the id is empty, the update object has no
    key, or a title is given that is empty once trimmed.  Otherwise it
    sends exactly one update, carrying the defined fields only (title
    and description trimmed): an object whose only keys hold undefined
    passes the check and sends an update without fields.  It rejects
    with the store's error, or with 'Tarea no encontrada' when the
    store returns neither row nor error, and resolves only with the row
    the store returned. *)
Theorem X15_service_update_validation (k : string) (u : Updates)
    (upd : Reply.t Todo.t) :
  (k = "" ∨ noKeys u = true ∨ (∃ t, u_title u = Some t ∧ trim t = []) →
     (todoService.updateTodo k u upd).1 = []
     ∧ ∃ m, (todoService.updateTodo k u upd).2 = Err m)
  ∧ (k ≠ "" → noKeys u = false → (∀ t, u_title u = Some t → trim t ≠ []) →
     (todoService.updateTodo k u upd).1
     = [Store (UpdateRow k
                 {| u_title := trim <$> u_title u;
                    u_description := trim <$> u_description u;
                    u_completed := u_completed u; u_others := false |} None)]
     ∧ (Reply.error upd = None → Reply.data upd = None →
        (todoService.updateTodo k u upd).2
        = Err "Error al actualizar tarea: Tarea no encontrada"))
  ∧ (∀ row, (todoService.updateTodo k u upd).2 = Ok row →
       Reply.data upd = Some row ∧ Reply.error upd = None).
Proof.
  destruct (service_updateTodo_cases k u upd) as [Hrej Hacc].
  split; [exact Hrej|]. split.
  - intros Hk Hn Ht. rewrite (Hacc Hk Hn Ht). cbn [fst snd].
    split; [reflexivity|]. by intros -> ->.
  - intros row Hrow.
    destruct (decide (k = "")) as [Hk|Hk].
    { destruct Hrej as [_ [m Hm]]; [by left|]. congruence. }
    destruct (noKeys u) eqn:Hn.
    { destruct Hrej as [_ [m Hm]]; [by right; left|]. congruence. }
    destruct (u_title u) as [t|] eqn:Et.
    + destruct (decide (trim t = [])) as [Hb|Hb].
      { destruct Hrej as [_ [m Hm]]; [right; right; by eauto|]. congruence. }
      rewrite Hacc in Hrow; [|done|done|by intros ? [= <-]].
      cbn [snd] in Hrow.
      destruct (Reply.error upd), (Reply.data upd); by simplify_eq.
    + rewrite Hacc in Hrow; [|done|done|done]. cbn [snd] in Hrow.
      destruct (Reply.error upd), (Reply.data upd); by simplify_eq.
Qed.

Lemma X15_service_update_validation_witness :
  let k := "3f2b8c1e-7a4d-4e9b-8c2a-1d5e6f7a8b9c" in
  (todoService.updateTodo k (mkUpdates (Some (lit "  ")) None (Some true))
     (Reply.mk None None)).1 = []
  ∧ (todoService.updateTodo k (mkUpdates None (Some (lit " soon ")) None)
       (Reply.mk None None))
    = ([Store (UpdateRow k (mkUpdates None (Some (lit "soon")) None) None)],
       Err "Error al actualizar tarea: Tarea no encontrada")
  ∧ (todoService.updateTodo k (mkUpdatesWith None None None true)
       (Reply.mk None None)).1
    = [Store (UpdateRow k (mkUpdates None None None) None)].
Proof.
  cbn zeta.
  destruct (X15_service_update_validation "3f2b8c1e-7a4d-4e9b-8c2a-1d5e6f7a8b9c"
              (mkUpdates (Some (lit "  ")) None (Some true)) (Reply.mk None None))
    as [Hrej _].
  destruct Hrej as [Hfx _]; [right; right; by exists (lit "  ")|].
  destruct (X15_service_update_validation "3f2b8c1e-7a4d-4e9b-8c2a-1d5e6f7a8b9c"
              (mkUpdates None (Some (lit " soon ")) None) (Reply.mk None None))
    as (_ & Hacc & _).
  destruct Hacc as [Hfx' Hnf]; [discriminate|reflexivity|discriminate|].
  destruct (X15_service_update_validation "3f2b8c1e-7a4d-4e9b-8c2a-1d5e6f7a8b9c"
              (mkUpdatesWith None None None true) (Reply.mk None None))
    as (_ & Hundef & _).
  destruct Hundef as [Hfx'' _]; [discriminate|reflexivity|discriminate|].
  split; [exact Hfx|]. split; [|exact Hfx''].
  rewrite (surjective_pairing (todoService.updateTodo _ _ _)).
  rewrite Hfx', (Hnf eq_refl eq_refl). reflexivity.
Defined.

(** X16: what TaskForm submits passes the validation of the layers
    below and is stored as submitted.  A submitted title is trimmed,
    non-empty and of at most 100 characters, a submitted description
    trimmed and of at most 500; for a signed-in user the service
    inserts exactly that title and description, and so does the
    controller: trimming them again changes nothing. *)
Theorem X16_submitted_form_is_stored_as_is (taskTitle taskDescription t d : jsstring)
    (u : User) (ins : Todo.t + string) (userId : string)
    (stored : Reply.t Todo.t) :
  TaskForm.handleSubmit taskTitle taskDescription = TaskForm.CreateTodo t d →
  (t = trim taskTitle ∧ d = trim taskDescription)
  ∧ (trimmed t ∧ t ≠ [] ∧ (length t ≤ 100)%nat)
  ∧ (trimmed d ∧ (length d ≤ 500)%nat)
  ∧ (todoService.createTodo t (Some d) (mkAuthReply (Some u) None) ins).1
    = [Store AuthGetUser; Store (InsertRow t d (uid u))]
  ∧ (todoController.createTodo userId (Some (todoController.Str t))
       (Some (todoController.Str d)) stored).1
    = [Store (InsertRow t d userId)].
Proof.
  unfold TaskForm.handleSubmit.
  destruct (falsy (trim taskTitle)) eqn:E1; [done|].
  destruct (100 <? length (trim taskTitle))%nat eqn:E2; [done|].
  destruct (500 <? length (trim taskDescription))%nat eqn:E3; [done|].
  intros [= <- <-].
  assert (Hne : trim taskTitle ≠ []).
  { intros H. apply falsy_nil in H. congruence. }
  apply Nat.ltb_ge in E2, E3.
  split; [done|]. split; [by split; [apply trim_trimmed|]|].
  split; [by split; [apply trim_trimmed|]|]. split.
  - rewrite service_createTodo_accepted by (by rewrite trim_idem).
    cbn [fst].
    change (default [] (Some (trim taskDescription))) with (trim taskDescription).
    by rewrite !trim_idem.
  - unfold todoController.createTodo. rewrite trim_idem.
    destruct (falsy (trim taskTitle) || falsy (trim taskTitle)) eqn:E4.
    { apply orb_true_iff in E4 as [E4|E4]; congruence. }
    destruct (255 <? length (trim taskTitle))%nat eqn:E5.
    { apply Nat.ltb_lt in E5. lia. }
    cbn [fst]. destruct (falsy (trim taskDescription)) eqn:E6.
    + apply falsy_nil in E6. by rewrite E6.
    + by rewrite trim_idem.
Qed.

Lemma X16_submitted_form_is_stored_as_is_witness :
  (todoService.createTodo (lit "Buy milk") (Some (lit "2 litres"))
     (mkAuthReply (Some (mkUser "u1")) None) (inr "offline")).1
  = [Store AuthGetUser; Store (InsertRow (lit "Buy milk") (lit "2 litres") "u1")].
Proof.
  destruct (X16_submitted_form_is_stored_as_is (lit "  Buy milk ")
              (lit " 2 litres") (lit "Buy milk") (lit "2 litres")
              (mkUser "u1") (inr "offline") "u1" (Reply.mk None None) eq_refl)
    as (_ & _ & _ & H & _).
  exact H.
Defined.

(** X17: saving an edit in TaskItem with a blank title only shows a
    toast; otherwise it asks the store to update the item's own id with
    the trimmed title and description, whatever the title's length, and
    the service (for a non-empty id) sends exactly those fields on: the
    edit is never rejected by the service's validation.  Toggling asks
    for the negation of the item's completed flag. *)
Theorem X17_saved_edit_reaches_the_store (task : Todo.t)
    (editTitle editDescription : jsstring) (upd : Reply.t Todo.t) :
  (trim editTitle = [] →
     TaskItem.handleSaveEdit task editTitle editDescription
     = TaskItem.ToastOnly "El título no puede estar vacío")
  ∧ (trim editTitle ≠ [] →
     let u := mkUpdates (Some (trim editTitle)) (Some (trim editDescription)) None in
     TaskItem.handleSaveEdit task editTitle editDescription
     = TaskItem.UpdateTodo (Todo.id task) u
     ∧ (Todo.id task ≠ "" →
        (todoService.updateTodo (Todo.id task) u upd).1
        = [Store (UpdateRow (Todo.id task) u None)]))
  ∧ TaskItem.handleToggle task
    = TaskItem.ToggleTodo (Todo.id task) (negb (Todo.completed task)).
Proof.
  unfold TaskItem.handleSaveEdit. split; [|split; [|reflexivity]].
  - intros H. by rewrite H.
  - intros Hne. cbn zeta.
    destruct (falsy (trim editTitle)) eqn:E.
    { apply falsy_nil in E. congruence. }
    split; [reflexivity|]. intros Hk.
    destruct (service_updateTodo_cases (Todo.id task)
                (mkUpdates (Some (trim editTitle)) (Some (trim editDescription)) None)
                upd) as [_ Hacc].
    rewrite Hacc; [|done|done|].
    + cbn [fst u_title u_description u_completed fmap option_fmap option_map].
      by rewrite !trim_idem.
    + cbn [u_title]. intros t [= <-]. by rewrite trim_idem.
Qed.

Lemma X17_saved_edit_reaches_the_store_witness :
  let task := sampleTodo "a1" "Buy milk" false in
  TaskItem.handleSaveEdit task (lit " Buy oat milk ") (lit "")
  = TaskItem.UpdateTodo "a1" (mkUpdates (Some (lit "Buy oat milk")) (Some []) None)
  ∧ (todoService.updateTodo "a1"
       (mkUpdates (Some (lit "Buy oat milk")) (Some []) None)
       (Reply.mk None None)).1
    = [Store (UpdateRow "a1"
                (mkUpdates (Some (lit "Buy oat milk")) (Some []) None) None)].
Proof.
  cbn zeta.
  destruct (X17_saved_edit_reaches_the_store (sampleTodo "a1" "Buy milk" false)
              (lit " Buy oat milk ") (lit "") (Reply.mk None None))
    as (_ & H & _).
  destruct H as [H1 H2]; [discriminate|].
  split; [exact H1|]. apply H2. discriminate.
Defined.

(** *** The HTTP controller *)

Section Controller.

Import todoController.

Lemma matches_spec (pat : list CharClass) (s : string) :
  matches pat s = true →
  String.length s = length pat
  ∧ ∀ i c, pat !! i = Some c →
      ∃ a, String.get i s = Some a ∧ inClass c a = true.
Proof.
  revert s. induction pat as [|c pat IH]; intros [|a s]; cbn [matches]; try done.
  rewrite andb_true_iff. intros [Ha Hs]. destruct (IH s Hs) as [Hlen Hget].
  split; [cbn; by rewrite Hlen|].
  intros [|i] c' Hc'; cbn in Hc'.
  - injection Hc' as <-. exists a. done.
  - cbn [String.get]. by apply Hget.
Qed.

Lemma inClass_Dash (a : Ascii.ascii) : inClass Dash a = true → a = "-"%char.
Proof.
  unfold inClass. intros H. apply N.eqb_eq in H.
  rewrite <- (Ascii.ascii_N_embedding a), H. reflexivity.
Qed.

End Controller.

(** X18: every request the controller's createTodo, updateTodo,
    deleteTodo and toggleTodo send to the store is scoped to the
    requesting user: inserted rows carry that user's id, and reads,
    updates and deletes are filtered by it. *)
Theorem X18_controller_requests_are_owner_scoped (userId id : string)
    (title description : option todoController.Field) (completed : option bool)
    (stored : Reply.t Todo.t) (cur : Reply.t bool) (r : todoController.Request) :
  r ∈ requestsOf (todoController.createTodo userId title description stored).1
      ++ requestsOf
           (todoController.updateTodo userId id title description completed
              stored).1
      ++ requestsOf (todoController.deleteTodo userId id stored).1
      ++ (todoController.toggleTodo userId id cur stored).1 →
  scopedTo userId r.
Proof.
  rewrite !elem_of_app.
  unfold todoController.createTodo, todoController.updateTodo,
    todoController.deleteTodo, todoController.toggleTodo.
  intros [H|[H|[H|H]]]; revert H;
    repeat match goal with
    | |- context [match ?x with _ => _ end] => destruct x
    end;
    cbn [fst requestsOf omap list_omap];
    intros H;
    repeat (apply elem_of_cons in H as [->|H]; [done|]);
    by apply elem_of_nil in H.
Qed.

Lemma X18_controller_requests_are_owner_scoped_witness :
  scopedTo "u1"
    (todoController.Call
       (DeleteRow "3f2b8c1e-7a4d-4e9b-8c2a-1d5e6f7a8b9c" (Some "u1"))).
Proof.
  apply (X18_controller_requests_are_owner_scoped "u1"
           "3f2b8c1e-7a4d-4e9b-8c2a-1d5e6f7a8b9c" None None None
           (Reply.mk None None) (Reply.mk None None)).
  vm_compute. apply list_elem_of_here.
Defined.

(** X19: the controller answers 400 only when it has sent nothing to
    the store: a validation failure never reaches the store.  When
    createTodo or updateTodo has sent nothing, the answer is 400 or the
    500 of the catch block, 'Error interno del servidor'; a title that
    is not a string but truthy gets that 500 without a request, because
    calling trim on it throws.  deleteTodo and toggleTodo send nothing
    exactly when they answer 400.  The answers 200, 201 and 404 always
    follow a request.  An id that is not a UUID always gives 400 without
    a request for updateTodo, deleteTodo and toggleTodo. *)
Theorem X19_status_400_means_no_request (userId id : string)
    (title description : option todoController.Field) (completed : option bool)
    (stored : Reply.t Todo.t) (cur : Reply.t bool) :
  let create := todoController.createTodo userId title description stored in
  let update :=
    todoController.updateTodo userId id title description completed stored in
  let delete := todoController.deleteTodo userId id stored in
  let toggle := todoController.toggleTodo userId id cur stored in
  (todoController.status create.2 = 400%Z → create.1 = [])
  ∧ (todoController.status update.2 = 400%Z → update.1 = [])
  ∧ (delete.1 = [] ↔ todoController.status delete.2 = 400%Z)
  ∧ (toggle.1 = [] ↔ todoController.status toggle.2 = 400%Z)
  ∧ (create.1 = [] →
     todoController.status create.2 = 400%Z
     ∨ ∃ what, create.2 = todoController.internalError what)
  ∧ (update.1 = [] →
     todoController.status update.2 = 400%Z
     ∨ ∃ what, update.2 = todoController.internalError what)
  ∧ (title = Some (todoController.NotStr true) →
     create = ([], todoController.internalError "title")
     ∧ (todoController.uuidRegex_test id = true →
        update = ([], todoController.internalError "title")))
  ∧ (todoController.status create.2 = 201%Z → create.1 ≠ [])
  ∧ (todoController.status update.2 ∈ [200; 404]%Z → update.1 ≠ [])
  ∧ (todoController.uuidRegex_test id = false →
     (update.1 = [] ∧ todoController.status update.2 = 400%Z)
     ∧ (delete.1 = [] ∧ todoController.status delete.2 = 400%Z)
     ∧ (toggle.1 = [] ∧ todoController.status toggle.2 = 400%Z))
  ∧ todoController.status create.2 ∈ [201; 400; 500]%Z
  ∧ todoController.status update.2 ∈ [200; 400; 404; 500]%Z
  ∧ todoController.status delete.2 ∈ [200; 400; 404; 500]%Z
  ∧ todoController.status toggle.2 ∈ [200; 400; 404; 500]%Z.
Proof.
  cbn zeta.
  unfold todoController.createTodo, todoController.updateTodo,
    todoController.deleteTodo, todoController.toggleTodo,
    todoController.internalError.
  destruct (todoController.uuidRegex_test id); cbn [negb];
    repeat match goal with
    | |- context [match ?x with _ => _ end] => destruct x
    end;
    cbn [fst snd todoController.status];
    repeat split; intros;
    repeat match goal with
    | H : _ ∈ _ |- _ =>
        apply elem_of_cons in H as [H|H];
        [try discriminate H|try (by apply elem_of_nil in H)]
    end;
    try done; try discriminate;
    try (by left); try (right; by eexists);
    repeat (first [apply list_elem_of_here | apply list_elem_of_further]).
Qed.

Lemma X19_status_400_means_no_request_witness :
  (todoController.updateTodo "u1" "not-a-uuid"
     (Some (todoController.Str (lit "Buy milk"))) None None
     (Reply.mk None None)).1 = []
  ∧ todoController.createTodo "u1" (Some (todoController.NotStr true)) None
      (Reply.mk None None)
    = ([], todoController.internalError "title").
Proof.
  destruct (X19_status_400_means_no_request "u1" "not-a-uuid"
              (Some (todoController.Str (lit "Buy milk"))) None None
              (Reply.mk None None) (Reply.mk None None))
    as (_ & _ & _ & _ & _ & _ & _ & _ & _ & H & _).
  destruct H as [[H _] _]; [reflexivity|].
  split; [exact H|].
  destruct (X19_status_400_means_no_request "u1" "not-a-uuid"
              (Some (todoController.NotStr true)) None None
              (Reply.mk None None) (Reply.mk None None))
    as (_ & _ & _ & _ & _ & _ & Ht & _).
  exact (proj1 (Ht eq_refl)).
Defined.



(** X21: an id the controller's UUID test accepts has 36 characters,
    with dashes as its 9th, 14th, 19th and 24th; in particular the empty
    id is rejected. *)
Theorem X21_accepted_id_shape (id : string) :
  todoController.uuidRegex_test id = true →
  String.length id = 36%nat
  ∧ String.get 8 id = Some "-"%char
  ∧ String.get 13 id = Some "-"%char
  ∧ String.get 18 id = Some "-"%char
  ∧ String.get 23 id = Some "-"%char
  ∧ id ≠ "".
Proof.
  intros H. apply matches_spec in H as [Hlen Hget].
  assert (Hdash : ∀ i, todoController.uuidPattern !! i = Some todoController.Dash →
                       String.get i id = Some "-"%char).
  { intros i Hi. destruct (Hget i _ Hi) as (a & Ha & Hc).
    apply inClass_Dash in Hc. congruence. }
  split; [exact Hlen|].
  repeat (split; [by apply Hdash|]).
  intros ->. discriminate.
Qed.

Lemma X21_accepted_id_shape_witness :
  String.length "3f2b8c1e-7a4d-4e9b-8c2a-1d5e6f7a8b9c" = 36%nat.
Proof.
  destruct (X21_accepted_id_shape "3f2b8c1e-7a4d-4e9b-8c2a-1d5e6f7a8b9c" eq_refl)
    as [H _].
  exact H.
Defined.

(** *** Authentication *)

Section Auth.

Import authMiddleware.



End Auth.



(** X23: optionalAuthMiddleware never answers the request itself: it
    calls next exactly once, as its last action.  It sets req.user to
    the verified user exactly when authMiddleware would let the request
    through, to null otherwise, and asks getUser for the same token. *)
Theorem X23_optional_auth_always_continues (authorization : option string)
    (outcome : authMiddleware.GetUserOutcome) :
  let out := authMiddleware.optionalAuthMiddleware authorization outcome in
  let strict := authMiddleware.authMiddleware authorization outcome in
  last out.1 = Some authMiddleware.Next
  ∧ nextCalls out.1 = 1%nat
  ∧ (∀ status e m, authMiddleware.Respond status e m ∉ out.1)
  ∧ (∀ u, out.2 = authMiddleware.Verified u ↔ strict.2 = authMiddleware.Verified u)
  ∧ (out.2 = authMiddleware.Null ↔ strict.2 = authMiddleware.Unassigned)
  ∧ (∀ t, authMiddleware.GetUser t ∈ out.1 ↔ authMiddleware.GetUser t ∈ strict.1).
Proof.
  cbn zeta.
  unfold authMiddleware.optionalAuthMiddleware, authMiddleware.authMiddleware.
  repeat match goal with
  | |- context [match ?x with _ => _ end] => destruct x
  end; cbn [fst snd];
    (split; [reflexivity|]); (split; [reflexivity|]);
    (split;
       [intros ? ? ? H;
        repeat (apply elem_of_cons in H as [H|H]; [discriminate|]);
        by apply elem_of_nil in H|]);
    (split; [intros ?; split; intros; by simplify_eq|]);
    (split; [split; intros; by simplify_eq|]);
    intros ?; rewrite ?elem_of_cons, ?elem_of_nil; split; intros H;
      repeat (destruct H as [H|H]; try discriminate);
      try (by left); done.
Qed.

(** X24: after initialize the auth store is initialized, not loading
    and without error, whatever getUser answered: a failure of getUser
    is not surfaced, it reads as 'signed out'.  ProtectedRoute then
    shows its children exactly when getUser gave a user without error
    and redirects to the login otherwise; before initialize it shows
    the spinner, also right after a successful login.  When the auth
    listener later reports no session, it redirects. *)
Theorem X24_initialize_settles_the_route (auth : AuthReply)
    (r : authService.AuthData + string) (s : authStore.State) :
  let s' := authStore.initialize auth s in
  authStore.initialized s' = true
  ∧ authStore.loading s' = false
  ∧ authStore.error s' = None
  ∧ ProtectedRoute.render s'
    = match userError auth, user auth with
      | None, Some _ => ProtectedRoute.Children
      | _, _ => ProtectedRoute.RedirectToLogin
      end
  ∧ (authStore.initialized s = false →
     ProtectedRoute.render s = ProtectedRoute.Spinner
     ∧ ProtectedRoute.render (authStore.login r s).1.1 = ProtectedRoute.Spinner)
  ∧ ProtectedRoute.render (authStore.onAuthStateChange None s')
    = ProtectedRoute.RedirectToLogin.
Proof.
  cbn zeta. unfold ProtectedRoute.render, authStore.initialize,
    authService.getCurrentUser.
  cbn [authStore.initialized authStore.loading authStore.error authStore.user
       authStore.onAuthStateChange orb negb].
  repeat split.
  - by destruct (userError auth), (user auth).
  - rewrite H. by rewrite orb_true_r.
  - unfold authStore.login. destruct (authService.login r);
      cbn [fst authStore.initialized authStore.loading]; by rewrite H.
Qed.

Lemma X24_initialize_settles_the_route_witness :
  ProtectedRoute.render authStore.initial = ProtectedRoute.Spinner
  ∧ ProtectedRoute.render
      (authStore.login
         (inl (authService.mkAuthData (Some (mkUser "u1"))
                 (Some (authService.mkSession (mkUser "u1")))))
         authStore.initial).1.1
    = ProtectedRoute.Spinner.
Proof.
  destruct (X24_initialize_settles_the_route (mkAuthReply None None)
              (inl (authService.mkAuthData (Some (mkUser "u1"))
                      (Some (authService.mkSession (mkUser "u1")))))
              authStore.initial) as (_ & _ & _ & _ & H & _).
  exact (H eq_refl).
Defined.

(** X25: a failed login, signup or logout never changes who is signed
    in: the user field is what it was, the rejection's message is
    stored as the error, loading is false.  A signup that needs email
    confirmation (no session) resolves, but signs nobody in and stores
    the request to verify the email as the error.  A successful logout
    clears the user. *)
Theorem X25_failed_auth_keeps_the_user (r : authService.AuthData + string)
    (out : option string) (m : string) (d : authService.AuthData)
    (s : authStore.State) :
  let kept (s' : authStore.State) (res : option string) :=
    authStore.user s' = authStore.user s
    ∧ authStore.error s' = Some m
    ∧ authStore.loading s' = false
    ∧ res = Some m in
  (authService.login r = Err m →
     kept (authStore.login r s).1.1 (rejection (authStore.login r s).2))
  ∧ (authService.signup r = Err m →
     kept (authStore.signup r s).1.1 (rejection (authStore.signup r s).2))
  ∧ (authService.logout out = Err m →
     kept (authStore.logout out s).1.1 (rejection (authStore.logout out s).2))
  ∧ (authService.signup r = Ok d → authService.d_session d = None →
     authStore.user (authStore.signup r s).1.1 = authStore.user s
     ∧ authStore.error (authStore.signup r s).1.1
       = Some "Por favor verifica tu email para activar tu cuenta"
     ∧ (authStore.signup r s).2 = Ok authStore.RequiresEmailConfirmation)
  ∧ (out = None →
     authStore.user (authStore.logout out s).1.1 = None
     ∧ authStore.error (authStore.logout out s).1.1 = None).
Proof.
  cbn zeta. unfold authStore.login, authStore.signup, authStore.logout.
  split; [|split; [|split; [|split]]].
  - intros H. rewrite H. done.
  - intros H. rewrite H. done.
  - intros H. rewrite H. done.
  - intros H Hs. rewrite H, Hs. done.
  - intros ->. done.
Qed.

Lemma X25_failed_auth_keeps_the_user_witness :
  let s := authStore.login
             (inl (authService.mkAuthData (Some (mkUser "u1"))
                     (Some (authService.mkSession (mkUser "u1")))))
             authStore.initial in
  authStore.user (authStore.logout (Some "network") s.1.1).1.1
  = Some (mkUser "u1")
  ∧ authStore.error (authStore.logout (Some "network") s.1.1).1.1
    = Some "Error al cerrar sesión: network".
Proof.
  cbn zeta.
  destruct (X25_failed_auth_keeps_the_user (inr "x") (Some "network")
              "Error al cerrar sesión: network"
              (authService.mkAuthData None None)
              (authStore.login
                 (inl (authService.mkAuthData (Some (mkUser "u1"))
                         (Some (authService.mkSession (mkUser "u1")))))
                 authStore.initial).1.1) as (_ & _ & H & _).
  destruct (H eq_refl) as (Hu & He & _). split; [exact Hu|exact He].
Defined.

(** *** How operations on one task compose *)

Section Compose.

Lemma replaceById_idem (k : string) (new : Todo.t) (l : list Todo.t) :
  Todo.id new = k → replaceById k new (replaceById k new l) = replaceById k new l.
Proof.
  intros Hk. unfold replaceById. rewrite <- list_fmap_compose.
  apply list_fmap_ext. intros i todo _. cbn.
  destruct (decide (Todo.id todo = k)); [by rewrite decide_True|by rewrite decide_False].
Qed.

Lemma removeById_cons_same (row : Todo.t) (l : list Todo.t) :
  removeById (Todo.id row) (row :: l) = removeById (Todo.id row) l.
Proof. unfold removeById. by rewrite filter_cons_False by (intros H; by apply H). Qed.

Lemma run_cons (s : State) (op : Op) (ops : list Op) :
  run s (op :: ops) = run (step s op) ops.
Proof. reflexivity. Qed.

Lemma run_nil (s : State) : run s [] = s.
Proof. reflexivity. Qed.

End Compose.

(** X26: a task that was created, or delivered by a realtime INSERT,
    and is then deleted (locally with the store answering without
    error, or by a realtime DELETE) leaves the collection as it was
    before, provided its id was not in the collection. *)
Theorem X26_create_then_delete_restores (s : State) (row : Todo.t)
    (title : jsstring) (description : option jsstring) (auth : AuthReply)
    (r1 r2 : Reply.t (list bool)) :
  Todo.id row ∉ ids (todos s) → Todo.id row ≠ "" →
  (todoService.createTodo title (Some (default [] description)) auth (inl row)).2
  = Ok row →
  todos (run s [CreateTodo title description auth (inl row) r1;
                DeleteTodo (Todo.id row) None r2]) = todos s
  ∧ todos (run s [CreateTodo title description auth (inl row) r1;
                  Realtime (DELETE (Todo.id row)) r2]) = todos s
  ∧ todos (run s [Realtime (INSERT row) r1;
                  DeleteTodo (Todo.id row) None r2]) = todos s
  ∧ todos (run s [Realtime (INSERT row) r1;
                  Realtime (DELETE (Todo.id row)) r2]) = todos s.
Proof.
  intros Habs Hid Hok. rewrite !run_cons, !run_nil.
  assert (Hdel : ∀ s0, todos (step s0 (DeleteTodo (Todo.id row) None r2))
                       = removeById (Todo.id row) (todos s0)).
  { intros s0. by apply todos_step_delete. }
  rewrite !Hdel. cbn [step]. rewrite !todos_onPayload, todos_createTodo, Hok.
  rewrite !removeById_cons_same, removeById_absent by done. done.
Qed.

Lemma X26_create_then_delete_restores_witness :
  let a := sampleTodo "a1" "Buy milk" false in
  let b := sampleTodo "b2" "Call home" false in
  todos (run (with_todos [a] initial)
           [Realtime (INSERT b) (rowsOk [false; false]);
            DeleteTodo "b2" None (rowsOk [false])]) = [a].
Proof.
  cbn zeta.
  destruct (X26_create_then_delete_restores
              (with_todos [sampleTodo "a1" "Buy milk" false] initial)
              (sampleTodo "b2" "Call home" false) (lit "Call home") None
              (mkAuthReply (Some (mkUser "u1")) None)
              (rowsOk [false; false]) (rowsOk [false])) as (_ & _ & H & _).
  - vm_compute. intros H. apply list_elem_of_singleton in H. discriminate.
  - discriminate.
  - reflexivity.
  - exact H.
Defined.

(** X27: the order of a realtime INSERT and a realtime UPDATE of one
    row, new to the collection, matters.  INSERT then UPDATE leaves the
    updated row at the head; UPDATE then INSERT leaves the inserted row
    there: the update, arriving first, changed nothing and is lost. *)
Theorem X27_insert_update_order_matters (s : State) (inserted updated : Todo.t)
    (r1 r2 : Reply.t (list bool)) :
  Todo.id updated = Todo.id inserted →
  Todo.id inserted ∉ ids (todos s) →
  todos (run s [Realtime (INSERT inserted) r1; Realtime (UPDATE updated) r2])
  = updated :: todos s
  ∧ todos (run s [Realtime (UPDATE updated) r1; Realtime (INSERT inserted) r2])
    = inserted :: todos s.
Proof.
  intros Hid Habs. rewrite !run_cons, !run_nil. cbn [step].
  rewrite !todos_onPayload. split.
  - unfold replaceById. cbn [fmap list_fmap].
    rewrite decide_True by done. f_equal.
    apply replaceById_absent. by rewrite Hid.
  - f_equal. apply replaceById_absent. by rewrite Hid.
Qed.

Lemma X27_insert_update_order_matters_witness :
  let t := sampleTodo "b2" "Call home" false in
  let t' := sampleTodo "b2" "Call home" true in
  todos (run initial [Realtime (UPDATE t') (rowsOk [true]);
                      Realtime (INSERT t) (rowsOk [true])]) = [t].
Proof.
  cbn zeta.
  destruct (X27_insert_update_order_matters initial
              (sampleTodo "b2" "Call home" false)
              (sampleTodo "b2" "Call home" true)
              (rowsOk [true]) (rowsOk [true])) as [_ H].
  - reflexivity.
  - apply not_elem_of_nil.
  - exact H.
Defined.

(** X28: the realtime echo of an update is harmless.  After a
    successful updateTodo that returned the row asked for, the UPDATE
    event for that row changes nothing in the collection; nor does an
    UPDATE event delivered a second time. *)
Theorem X28_update_echo_is_idempotent (s : State) (k : string) (updates : Updates)
    (upd : Reply.t Todo.t) (row : Todo.t) (r1 r2 : Reply.t (list bool)) :
  (todoService.updateTodo k updates upd).2 = Ok row → Todo.id row = k →
  todos (run s [UpdateTodo k updates upd r1; Realtime (UPDATE row) r2])
  = todos (step s (UpdateTodo k updates upd r1))
  ∧ todos (run s [Realtime (UPDATE row) r1; Realtime (UPDATE row) r2])
    = todos (step s (Realtime (UPDATE row) r1)).
Proof.
  intros Hok Hid. rewrite !run_cons, !run_nil. cbn [step].
  rewrite !todos_onPayload, todos_updateTodo, Hok, Hid.
  split; by apply replaceById_idem.
Qed.

Lemma X28_update_echo_is_idempotent_witness :
  let a := sampleTodo "a1" "Buy milk" false in
  let a' := sampleTodo "a1" "Buy milk" true in
  let toggled := mkUpdates None None (Some true) in
  todos (run (with_todos [a] initial)
           [UpdateTodo "a1" toggled (Reply.mk (Some a') None) (rowsOk [true]);
            Realtime (UPDATE a') (rowsOk [true])]) = [a'].
Proof.
  cbn zeta.
  destruct (X28_update_echo_is_idempotent
              (with_todos [sampleTodo "a1" "Buy milk" false] initial) "a1"
              (mkUpdates None None (Some true))
              (Reply.mk (Some (sampleTodo "a1" "Buy milk" true)) None)
              (sampleTodo "a1" "Buy milk" true) (rowsOk [true]) (rowsOk [true])
              eq_refl eq_refl) as [H _].
  rewrite H. reflexivity.
Defined.

(** X29: the service's toggleTodo sends the completed flag and nothing
    else (no title, no description), and nothing at all for an empty
    id; it resolves exactly when updateTodo does, and its rejections
    carry both prefixes, 'Error al cambiar estado: Error al actualizar
    tarea: '.  The store's toggleTodo does not go through it: its
    rejection is updateTodo's own message. *)
Theorem X29_service_toggle_sends_only_completed (k : string) (completed : bool)
    (upd : Reply.t Todo.t) (statsr : Reply.t (list bool)) (s : State) :
  let only := mkUpdates None None (Some completed) in
  let out := todoService.toggleTodo k completed upd in
  (k = "" → out.1 = [])
  ∧ (k ≠ "" → out.1 = [Store (UpdateRow k only None)])
  ∧ (∀ row, out.2 = Ok row ↔ (todoService.updateTodo k only upd).2 = Ok row)
  ∧ (∀ m, out.2 = Err m →
       ∃ m', m = "Error al cambiar estado: Error al actualizar tarea: " +:+ m')
  ∧ outcome s (ToggleTodo k completed upd statsr)
    = rejection (todoService.updateTodo k only upd).2.
Proof.
  cbn zeta. split; [|split; [|split; [|split]]].
  - intros ->. reflexivity.
  - intros Hk. unfold todoService.toggleTodo, todoService.updateTodo.
    destruct (String.eqb_spec k ""); [done|]. cbn.
    by destruct (Reply.error upd), (Reply.data upd).
  - intros row. unfold todoService.toggleTodo.
    destruct (todoService.updateTodo _ _ _) as [fx [row'|m]]; cbn [snd];
      split; congruence.
  - intros m. unfold todoService.toggleTodo, todoService.updateTodo.
    destruct (String.eqb k ""); cbn;
      [intros [= <-]; by eexists|].
    destruct (Reply.error upd), (Reply.data upd); cbn; intros [= <-];
      by eexists.
  - cbn [outcome]. unfold toggleTodo. apply result_updateTodo.
Qed.

Lemma X29_service_toggle_sends_only_completed_witness :
  (todoService.toggleTodo "a1" true (Reply.mk None (Some "timeout"))).1
  = [Store (UpdateRow "a1" (mkUpdates None None (Some true)) None)].
Proof.
  destruct (X29_service_toggle_sends_only_completed "a1" true
              (Reply.mk None (Some "timeout")) (rowsOk []) initial)
    as (_ & H & _).
  apply H. discriminate.
Defined.
